(** * HTTP test client: configuration, request dispatcher and assertions

    A shallow embedding of [config/config.py], [utils/api_client.py] and
    [utils/assertions.py].  Python values are embedded as JSON-like values,
    mutable objects as explicit state, exceptions as a [Raise] result and
    the loguru sink as a list of log entries threaded through every call. *)

From Stdlib Require Import ZArith QArith String Ascii List Lia Bool.
From stdpp Require Import base option list strings gmap pretty.

#[local] Set Warnings "-register-all".
Local Open Scope string_scope.
Local Open Scope Z_scope.
Local Open Scope list_scope.

(** ** Python values *)

Module Py.

(** The values that flow through the configuration mapping, the header
    dictionaries and the decoded response bodies.  [JNull] is [None];
    numbers are integers (non-integral numbers are outside the model);
    a dictionary is its list of items in insertion order. *)
Inductive json : Type :=
| JNull
| JBool (b : bool)
| JInt (n : Z)
| JStr (s : string)
| JList (l : list json)
| JObj (kv : list (string * json)).

(** [bool(v)]: the truth value Python's [or], [if] and [not] test. *)
Definition truthy (v : json) : bool :=
  match v with
  | JNull => false
  | JBool b => b
  | JInt n => negb (n =? 0)
  | JStr s => negb (String.eqb s "")
  | JList l => match l with [] => false | _ => true end
  | JObj kv => match kv with [] => false | _ => true end
  end.

(** [a or b]. *)
Definition py_or (a b : json) : json := if truthy a then a else b.

(** [d.get(k)] on the items of a dictionary. *)
Fixpoint assoc (k : string) (kv : list (string * json)) : option json :=
  match kv with
  | [] => None
  | (k', v) :: rest => if String.eqb k k' then Some v else assoc k rest
  end.

(** [a == b] on these values: [bool] is a subclass of [int], sequences
    compare element-wise, dictionaries compare as sets of items. *)
Fixpoint py_eq (a b : json) {struct a} : bool :=
  match a, b with
  | JNull, JNull => true
  | JBool x, JBool y => Bool.eqb x y
  | JBool x, JInt n => Z.b2z x =? n
  | JInt n, JBool y => n =? Z.b2z y
  | JInt n, JInt m => n =? m
  | JStr s, JStr t => String.eqb s t
  | JList l, JList l' =>
      (fix go (l l' : list json) : bool :=
         match l, l' with
         | [], [] => true
         | x :: xs, y :: ys => py_eq x y && go xs ys
         | _, _ => false
         end) l l'
  | JObj kv, JObj kv' =>
      (length kv =? length kv')%nat &&
      (fix all (items : list (string * json)) : bool :=
         match items with
         | [] => true
         | (k, v) :: rest =>
             match assoc k kv' with
             | Some v' => py_eq v v' && all rest
             | None => false
             end
         end) kv
  | _, _ => false
  end.

(** The classes [assert_json_types] is called with. *)
Inductive pytype : Type := TInt | TStr | TBool | TList | TDict | TNoneType.

(** [t.__name__]. *)
Definition type_name (t : pytype) : string :=
  match t with
  | TInt => "int" | TStr => "str" | TBool => "bool"
  | TList => "list" | TDict => "dict" | TNoneType => "NoneType"
  end.

(** [type(v)]. *)
Definition type_of (v : json) : pytype :=
  match v with
  | JNull => TNoneType | JBool _ => TBool | JInt _ => TInt
  | JStr _ => TStr | JList _ => TList | JObj _ => TDict
  end.

(** [isinstance(v, t)]; a [bool] is also an [int]. *)
Definition isinstance (v : json) (t : pytype) : bool :=
  match v, t with
  | JNull, TNoneType => true
  | JBool _, TBool => true
  | JBool _, TInt => true
  | JInt _, TInt => true
  | JStr _, TStr => true
  | JList _, TList => true
  | JObj _, TDict => true
  | _, _ => false
  end.

(** [s.startswith(p)]. *)
Definition startswith (p s : string) : bool := String.prefix p s.

(** [s.startswith((p1, p2, ...))]. *)
Definition startswith_any (ps : list string) (s : string) : bool :=
  existsb (fun p => startswith p s) ps.

(** [s.lstrip(c)] for a single character [c]. *)
Fixpoint lstrip (c : ascii) (s : string) : string :=
  match s with
  | EmptyString => EmptyString
  | String a s' => if Ascii.eqb a c then lstrip c s' else s
  end.

(** [s.rstrip(c)] for a single character [c]. *)
Fixpoint rstrip (c : ascii) (s : string) : string :=
  match s with
  | EmptyString => EmptyString
  | String a s' =>
      match rstrip c s' with
      | EmptyString => if Ascii.eqb a c then EmptyString else String a EmptyString
      | r => String a r
      end
  end.

(** [s.endswith(c)] for a single character [c]. *)
Fixpoint endswith_char (c : ascii) (s : string) : bool :=
  match s with
  | EmptyString => false
  | String a EmptyString => Ascii.eqb a c
  | String _ s' => endswith_char c s'
  end.

(** [s.upper()] on ASCII letters; other bytes are left as they are. *)
Definition upper_char (a : ascii) : ascii :=
  let n := nat_of_ascii a in
  if ((97 <=? n) && (n <=? 122))%nat then ascii_of_nat (n - 32) else a.

Fixpoint upper (s : string) : string :=
  match s with
  | EmptyString => EmptyString
  | String a s' => String (upper_char a) (upper s')
  end.

(** [s.lower()] of an ASCII string, as the name of a header is: the letters
    A to Z are folded, every other byte is left as it is. *)
Definition lower_char (a : ascii) : ascii :=
  let n := nat_of_ascii a in
  if ((65 <=? n) && (n <=? 90))%nat then ascii_of_nat (n + 32) else a.

Fixpoint lower (s : string) : string :=
  match s with
  | EmptyString => EmptyString
  | String a s' => String (lower_char a) (lower s')
  end.

(** [needle in haystack] on strings. *)
Fixpoint contains (needle haystack : string) : bool :=
  String.prefix needle haystack ||
  match haystack with
  | EmptyString => false
  | String _ rest => contains needle rest
  end.

(** [str(n)] for an integer. *)
Definition str_of_int (n : Z) : string := pretty n.

End Py.
Export Py.

(** ** Exceptions, log records and the effect monad *)

(** The exception classes the modules raise, catch or let through;
    [ContextAssertionError] is the [AssertionError] class that
    [utils/advanced_assertions.py] defines, with its context mapping. *)
Inductive exn : Type :=
| FileNotFoundError (msg : string)
| JSONDecodeError (msg : string)
| ValueError (msg : string)
| AttributeError (msg : string)
| RequestException (msg : string)
| AssertionError (msg : string)
| ContextAssertionError (msg : string) (context : list (string * json))
| OtherError (cls msg : string).

(** [str(e)]. *)
Definition str_of_exn (e : exn) : string :=
  match e with
  | FileNotFoundError m | JSONDecodeError m | ValueError m | AttributeError m
  | RequestException m | AssertionError m | ContextAssertionError m _
  | OtherError _ m => m
  end.

(** [isinstance(e, requests.exceptions.RequestException)], the class the
    dispatcher's [except] clause names. *)
Definition is_request_exception (e : exn) : bool :=
  match e with RequestException _ => true | _ => false end.

(** [isinstance(e, Exception)], the test of an [except Exception] clause.
    The classes the model names all derive from [Exception]; of a class it
    does not name, [base_only cls] tells whether the class derives from
    [BaseException] alone, as [KeyboardInterrupt], [SystemExit],
    [GeneratorExit] and pytest's [Skipped] and [Failed] do. *)
Definition isinstance_Exception (base_only : string -> bool) (e : exn) : bool :=
  match e with
  | OtherError cls _ => negb (base_only cls)
  | _ => true
  end.

Inductive result (A : Type) : Type :=
| Ok (a : A)
| Raise (e : exn).
Arguments Ok {A} a.
Arguments Raise {A} e.

Inductive level : Type := DEBUG | INFO | WARNING | ERROR.

Record entry : Type := LogEntry { entry_level : level; entry_msg : string }.

Definition is_error (e : entry) : bool :=
  match entry_level e with ERROR => true | _ => false end.

(** A computation over a mutable object of type [S]: it reads the object and
    the log so far and leaves a result, the object and the extended log.  A
    raised exception keeps the mutations made before it, as in Python. *)
Definition M (S A : Type) : Type := S -> list entry -> result A * S * list entry.

Definition ret {S A} (a : A) : M S A := fun s l => (Ok a, s, l).
Definition raise {S A} (e : exn) : M S A := fun s l => (Raise e, s, l).
Definition bind {S A B} (m : M S A) (k : A -> M S B) : M S B :=
  fun s l =>
    match m s l with
    | (Ok a, s', l') => k a s' l'
    | (Raise e, s', l') => (Raise e, s', l')
    end.
Definition get_state {S} : M S S := fun s l => (Ok s, s, l).
Definition modify {S} (f : S -> S) : M S unit := fun s l => (Ok tt, f s, l).
Definition log {S} (lv : level) (msg : string) : M S unit :=
  fun s l => (Ok tt, s, l ++ [LogEntry lv msg]).
(** [try: m except <classes selected by handles> as e: h e]. *)
Definition try_except {S A} (m : M S A) (handles : exn -> bool) (h : exn -> M S A) : M S A :=
  fun s l =>
    match m s l with
    | (Raise e, s', l') => if handles e then h e s' l' else (Raise e, s', l')
    | r => r
    end.
(** [assert cond, msg]. *)
Definition py_assert {S} (cond : bool) (msg : string) : M S unit :=
  if cond then ret tt else raise (AssertionError msg).

(** [M S] is a monad; stdpp's [x ← m; k] and [m ;; k] sequence statements. *)
#[export] Instance M_ret {S} : MRet (M S) := fun A a => ret a.
#[export] Instance M_bind {S} : MBind (M S) := fun A B k m => bind m k.

Definition lift {S A} (r : result A) : M S A := fun s l => (r, s, l).

(** ** Library functions

    What the modules import and call but do not define: [urljoin] of
    [urllib.parse], [jmespath.search], [json.dumps] and the formatting of
    values inside f-strings.  The embedding is parametric in them. *)
Class Libs : Type := {
  (** [urllib.parse.urljoin(base, url)]. *)
  urljoin : string -> string -> string;
  (** [jmespath.search(expression, data)]: a value, [None] ([JNull]) when
      the expression selects nothing, or the library's own exception. *)
  search : string -> json -> result json;
  (** [str(v)], as an f-string renders a value. *)
  py_str : json -> string;
  (** [json.dumps(v, indent=2)]. *)
  json_dumps : json -> string;
  (** [str(d)] of a header dictionary. *)
  str_of_headers : gmap string json -> string;
  (** [f"{t:.3f}"]. *)
  format_3f : Q -> string;
  (** The headers a fresh [requests.Session()] starts with. *)
  requests_default_headers : gmap string json
}.

(** ** config/config.py *)

Module config.

(** [Config]: the selected environment name and the resolved mapping. *)
Record Config : Type := MkConfig {
  environment : string;
  config_data : gmap string json
}.

(** [Config._default_config]. *)
Definition _default_config : gmap string json :=
  <["base_url" := JStr "https://jsonplaceholder.typicode.com"]>
  (<["timeout" := JInt 30]>
  (<["retry_count" := JInt 3]>
  (<["retry_delay" := JInt 1]>
  (<["headers" := JObj [("Content-Type", JStr "application/json");
                         ("Accept", JStr "application/json")]]> ∅)))).

(** [Config._load_config].  [read] is what [open] followed by [json.load]
    gives for [config_file]: the per-environment mappings of the file, or
    the exception one of the two calls raised. *)
Definition _load_config (env : string) (config_file : string)
    (read : result (gmap string (gmap string json))) : M unit (gmap string json) :=
  try_except
    (all_configs ← lift read;
     mret (default (default ∅ (all_configs !! "dev")) (all_configs !! env)))
    (fun e => match e with
              | FileNotFoundError _ | JSONDecodeError _ => true
              | _ => false
              end)
    (fun e => match e with
              | FileNotFoundError _ =>
                  log WARNING ("Config file not found: " +:+ config_file);;
                  mret _default_config
              | _ =>
                  log ERROR ("Invalid JSON in config file: " +:+ str_of_exn e);;
                  mret _default_config
              end).

(** [Config.__init__].  [arg] is the [environment] argument ([None] when
    omitted) and [env_var] the value [decouple] finds for [ENVIRONMENT]. *)
Definition __init__ (arg : option string) (env_var : option string)
    (config_file : string) (read : result (gmap string (gmap string json)))
    : M unit Config :=
  let env := match arg with
             | Some e => if String.eqb e "" then default "dev" env_var else e
             | None => default "dev" env_var
             end in
  data ← _load_config env config_file read;
  mret (MkConfig env data).

(** The properties of [Config]. *)
Definition base_url (c : Config) : json :=
  default (JStr "https://jsonplaceholder.typicode.com") (config_data c !! "base_url").
Definition timeout (c : Config) : json :=
  default (JInt 30) (config_data c !! "timeout").
Definition retry_count (c : Config) : json :=
  default (JInt 3) (config_data c !! "retry_count").
Definition retry_delay (c : Config) : json :=
  default (JInt 1) (config_data c !! "retry_delay").
Definition headers (c : Config) : json :=
  default (JObj [("Content-Type", JStr "application/json");
                 ("Accept", JStr "application/json")])
          (config_data c !! "headers").

(** [Config.get]. *)
Definition get (c : Config) (key : string) (dflt : json) : json :=
  default dflt (config_data c !! key).

Section Update.
Context `{Libs}.

(** [Config.update]. *)
Definition update (key : string) (value : json) : M Config unit :=
  modify (fun c => MkConfig (environment c) (<[key := value]> (config_data c)));;
  log INFO ("Updated config: " +:+ key +:+ " = " +:+ py_str value).

End Update.

End config.

(** ** utils/api_client.py *)

Module api_client.

(** A [requests.Response], as far as the client and the assertions read it.
    [json_body] is the decoded body, [None] when the body is not JSON. *)
Record Response : Type := MkResponse {
  status_code : Z;
  url : string;
  request_method : string;
  resp_headers : gmap string string;
  text : string;
  json_body : option json
}.

(** [response.json()]: the decoded body, or the decoder's exception. *)
Definition Response_json (response : Response) : result json :=
  match json_body response with
  | Some j => Ok j
  | None => Raise (JSONDecodeError "Expecting value")
  end.

(** The [urllib3.util.retry.Retry] object [_create_session] builds. *)
Record Retry : Type := MkRetry {
  total : json;
  backoff_factor : json;
  status_forcelist : list Z;
  allowed_methods : list string
}.

(** [requests.structures.CaseInsensitiveDict], the class of
    [session.headers]: as in [requests], a store from the lower-cased name
    to the name as it was last set and the value. *)
Definition CaseInsensitiveDict : Type := gmap string (string * json).

(** [h[key] = value]. *)
Definition ci_set (key : string) (value : json) (h : CaseInsensitiveDict)
    : CaseInsensitiveDict :=
  <[lower key := (key, value)]> h.

(** [del h[key]]. *)
Definition ci_del (key : string) (h : CaseInsensitiveDict) : CaseInsensitiveDict :=
  base.delete (lower key) h.

(** [key in h]. *)
Definition ci_in (key : string) (h : CaseInsensitiveDict) : bool :=
  bool_decide (is_Some (h !! lower key)).

(** [h.get(key)]. *)
Definition ci_get (key : string) (h : CaseInsensitiveDict) : option json :=
  snd <$> h !! lower key.

(** [h.update(items)]. *)
Definition ci_update (h : CaseInsensitiveDict) (items : list (string * json))
    : CaseInsensitiveDict :=
  foldl (fun acc kv => ci_set kv.1 kv.2 acc) h items.

(** [dict(h)]: the plain dictionary under the names as they were last set. *)
Definition ci_dict (h : CaseInsensitiveDict) : gmap string json :=
  list_to_map (snd <$> map_to_list h).

(** [CaseInsensitiveDict(d)] of a plain dictionary. *)
Definition ci_of_dict (d : gmap string json) : CaseInsensitiveDict :=
  list_to_map ((fun kv => (lower kv.1, kv)) <$> map_to_list d).

(** A [requests.Session]: its persistent headers, its [auth] pair and the
    retry strategy of the adapter mounted for both schemes. *)
Record Session : Type := MkSession {
  session_headers : CaseInsensitiveDict;
  auth : option (string * string);
  max_retries : Retry
}.

(** The keyword arguments [request] hands to [session.request]. *)
Record SessionCall : Type := MkCall {
  call_method : string;
  call_url : string;
  call_headers : option (list (string * json));
  call_params : json;
  call_json : json;
  call_data : json;
  call_timeout : json
}.

(** [APIClient]. *)
Record APIClient : Type := MkClient {
  base_url : json;
  default_headers : json;
  session : Session;
  last_response : option Response;
  response_time : Q
}.

(** What one call of [request] reads from outside the client: the module's
    [config_instance], the behaviour of [session.request] at that moment and
    the two readings of [time.time()]. *)
Record Env : Type := MkEnv {
  config_instance : config.Config;
  net : Session -> SessionCall -> result Response;
  t_start : Q;
  t_end : Q
}.

(** The arguments of [request]; an omitted argument is [None].  Further
    keyword arguments go to the session untouched and are left out. *)
Record Args : Type := MkArgs {
  method : string;
  endpoint : string;
  headers : option (list (string * json));
  params : json;
  json_data : json;
  data : json;
  timeout : option Z
}.

(** [d.update(items)]. *)
Definition dict_update (d : gmap string json) (items : list (string * json))
    : gmap string json :=
  foldl (fun acc kv => <[kv.1 := kv.2]> acc) d items.

(** An optional integer argument as a Python value. *)
Definition opt_int (o : option Z) : json :=
  match o with Some n => JInt n | None => JNull end.

(** An optional string argument as a Python value. *)
Definition opt_str (o : option string) : json :=
  match o with Some s => JStr s | None => JNull end.

(** An optional dictionary argument as a Python value. *)
Definition opt_dict (o : option (list (string * json))) : json :=
  match o with Some kv => JObj kv | None => JNull end.

Definition set_session_headers (h : CaseInsensitiveDict) (c : APIClient) : APIClient :=
  MkClient (base_url c) (default_headers c)
           (MkSession h (auth (session c)) (max_retries (session c)))
           (last_response c) (response_time c).
Definition set_auth (a : option (string * string)) (c : APIClient) : APIClient :=
  MkClient (base_url c) (default_headers c)
           (MkSession (session_headers (session c)) a (max_retries (session c)))
           (last_response c) (response_time c).
Definition set_last_response (r : option Response) (c : APIClient) : APIClient :=
  MkClient (base_url c) (default_headers c) (session c) r (response_time c).
Definition set_response_time (t : Q) (c : APIClient) : APIClient :=
  MkClient (base_url c) (default_headers c) (session c) (last_response c) t.

Section Client.
Context `{Libs}.

(** [APIClient._create_session]; the session's header mapping takes the
    items of a dictionary and refuses any other value. *)
Definition _create_session (cfg : config.Config) (default_headers : json)
    : result Session :=
  let retry_strategy :=
    MkRetry (config.retry_count cfg) (config.retry_delay cfg)
            [429; 500; 502; 503; 504]
            ["HEAD"; "GET"; "PUT"; "DELETE"; "OPTIONS"; "TRACE"; "POST"] in
  match default_headers with
  | JObj items =>
      Ok (MkSession (ci_update (ci_of_dict requests_default_headers) items) None
                    retry_strategy)
  | _ => Raise (OtherError "TypeError" "headers must be a mapping")
  end.

(** [APIClient.__init__]. *)
Definition __init__ (cfg : config.Config) (base_url : option string)
    (headers : option (list (string * json))) : result APIClient :=
  let base_url := py_or (opt_str base_url) (config.base_url cfg) in
  let default_headers := py_or (opt_dict headers) (config.headers cfg) in
  match _create_session cfg default_headers with
  | Ok session => Ok (MkClient base_url default_headers session None 0%Q)
  | Raise e => Raise e
  end.

(** [APIClient._build_url]. *)
Definition _build_url (self : APIClient) (endpoint : string) : result string :=
  if startswith_any ["http://"; "https://"] endpoint then Ok endpoint
  else match base_url self with
       | JStr b => Ok (urljoin (rstrip "/" b +:+ "/") (lstrip "/" endpoint))
       | _ => Raise (AttributeError "object has no attribute 'rstrip'")
       end.

(** [APIClient._log_request]. *)
Definition _log_request (method url : string)
    (headers : option (gmap string json)) (data : json) : M APIClient unit :=
  self ← get_state;
  let log_headers :=
    match headers with
    | Some h => if bool_decide (h = ∅) then ci_dict (session_headers (session self))
                else h ∪ ci_dict (session_headers (session self))
    | None => ci_dict (session_headers (session self))
    end in
  log INFO ("🔄 " +:+ upper method +:+ " " +:+ url);;
  log DEBUG ("Headers: " +:+ str_of_headers log_headers);;
  if truthy data
  then log DEBUG ("Request Body: " +:+
                  match data with JObj _ => json_dumps data | _ => py_str data end)
  else mret tt.

(** [APIClient._log_response]. *)
Definition _log_response (response : Response) (response_time : Q)
    : M APIClient unit :=
  log INFO ("📋 Response: " +:+ str_of_int (status_code response) +:+
            " (" +:+ format_3f response_time +:+ "s)");;
  try_except
    (response_json ← lift (Response_json response);
     log DEBUG ("Response Body: " +:+ json_dumps response_json))
    (fun e => match e with
              | JSONDecodeError _ | ValueError _ => true
              | _ => false
              end)
    (fun _ =>
       if negb (String.eqb (text response) "")
       then log DEBUG ("Response Body: " +:+ substring 0 500 (text response) +:+
                       (if (500 <? String.length (text response))%nat
                        then "..." else ""))
       else mret tt).

(** The dictionary [request_headers] that [request] builds for its log
    line: the plain copy of the session's persistent headers, updated with
    the per-call ones. *)
Definition request_headers (self : APIClient)
    (headers : option (list (string * json))) : gmap string json :=
  match headers with
  | Some ((_ :: _) as h) => dict_update (ci_dict (session_headers (session self))) h
  | _ => ci_dict (session_headers (session self))
  end.

(** The keyword arguments of the [self.session.request(...)] call. *)
Definition call_of (env : Env) (a : Args) (url : string) : SessionCall :=
  MkCall (upper (method a)) url (headers a) (params a) (json_data a) (data a)
         (py_or (opt_int (timeout a)) (config.timeout (config_instance env))).

(** [APIClient.request]. *)
Definition request (env : Env) (a : Args) : M APIClient Response :=
  self ← get_state;
  url ← lift (_build_url self (endpoint a));
  _log_request (method a) url (Some (request_headers self (headers a)))
               (py_or (json_data a) (data a));;
  let start_time := t_start env in
  try_except
    (response ← lift (net env (session self) (call_of env a url));
     modify (set_response_time (t_end env - start_time)%Q);;
     modify (set_last_response (Some response));;
     _log_response response (t_end env - start_time)%Q;;
     mret response)
    is_request_exception
    (fun e =>
       modify (set_response_time (t_end env - start_time)%Q);;
       log ERROR ("❌ Request failed: " +:+ str_of_exn e);;
       raise e).

(** The fixed-method specialisations of [request]. *)
Definition with_method (m : string) (a : Args) : Args :=
  MkArgs m (endpoint a) (headers a) (params a) (json_data a) (data a) (timeout a).
Definition get (env : Env) (a : Args) := request env (with_method "GET" a).
Definition post (env : Env) (a : Args) := request env (with_method "POST" a).
Definition put (env : Env) (a : Args) := request env (with_method "PUT" a).
Definition patch (env : Env) (a : Args) := request env (with_method "PATCH" a).
Definition delete (env : Env) (a : Args) := request env (with_method "DELETE" a).
Definition head (env : Env) (a : Args) := request env (with_method "HEAD" a).
Definition options (env : Env) (a : Args) := request env (with_method "OPTIONS" a).

(** [APIClient.set_auth_token]. *)
Definition set_auth_token (token : string) (auth_type : string) : M APIClient unit :=
  modify (fun c => set_session_headers
            (ci_set "Authorization" (JStr (auth_type +:+ " " +:+ token))
               (session_headers (session c))) c);;
  log INFO ("🔐 Set " +:+ auth_type +:+ " authentication token").

(** [APIClient.set_basic_auth]. *)
Definition set_basic_auth (username password : string) : M APIClient unit :=
  modify (set_auth (Some (username, password)));;
  log INFO "🔐 Set Basic authentication".

(** [APIClient.add_header]. *)
Definition add_header (key : string) (value : string) : M APIClient unit :=
  modify (fun c => set_session_headers
            (ci_set key (JStr value) (session_headers (session c))) c);;
  log DEBUG ("Added header: " +:+ key +:+ " = " +:+ value).

(** [APIClient.remove_header]. *)
Definition remove_header (key : string) : M APIClient unit :=
  self ← get_state;
  if ci_in key (session_headers (session self))
  then modify (fun c => set_session_headers
                 (ci_del key (session_headers (session c))) c);;
       log DEBUG ("Removed header: " +:+ key)
  else mret tt.

End Client.

Section Accessors.

(** [bool(response)], the test the accessors make on [self.last_response];
    [requests] decides it, so it is a parameter. *)
Variable response_bool : Response -> bool.

(** [self.last_response] when it passes [if self.last_response]. *)
Definition truthy_last_response (self : APIClient) : option Response :=
  match last_response self with
  | Some r => if response_bool r then Some r else None
  | None => None
  end.

(** [APIClient.get_response_json]. *)
Definition get_response_json : M APIClient json :=
  self ← get_state;
  match truthy_last_response self with
  | Some r =>
      try_except (lift (Response_json r))
        (fun e => match e with JSONDecodeError _ => true | _ => false end)
        (fun _ => log WARNING "Response is not valid JSON";; mret (JObj []))
  | None => mret (JObj [])
  end.

(** [APIClient.get_response_text]. *)
Definition get_response_text (self : APIClient) : string :=
  match truthy_last_response self with
  | Some r => text r
  | None => ""
  end.

(** [APIClient.get_response_headers]. *)
Definition get_response_headers (self : APIClient) : gmap string string :=
  match truthy_last_response self with
  | Some r => resp_headers r
  | None => ∅
  end.

(** [APIClient.get_status_code]. *)
Definition get_status_code (self : APIClient) : Z :=
  match truthy_last_response self with
  | Some r => status_code r
  | None => 0
  end.

End Accessors.

End api_client.

(** ** utils/assertions.py *)

Module assertions.
Import api_client.

Section Assertions.
Context `{Libs}.

(** [message or dflt] for the optional [message] argument. *)
Definition message_or (message : option string) (dflt : string) : string :=
  match message with
  | Some m => if String.eqb m "" then dflt else m
  | None => dflt
  end.

(** The [except json.JSONDecodeError] clause every JSON check ends with. *)
Definition not_valid_json (message : option string) {A} (m : M unit A) : M unit A :=
  try_except m
    (fun e => match e with JSONDecodeError _ => true | _ => false end)
    (fun _ =>
       let assertion_msg := message_or message "Response is not valid JSON" in
       log ERROR "❌ Response is not valid JSON";;
       raise (AssertionError assertion_msg)).

(** [APIAssertions.assert_status_code]. *)
Definition assert_status_code (response : Response) (expected_code : Z)
    (message : option string) : M unit unit :=
  let actual_code := status_code response in
  let assertion_msg :=
    message_or message ("Expected status code " +:+ str_of_int expected_code +:+
                        ", got " +:+ str_of_int actual_code) in
  log INFO ("🔍 Asserting status code: " +:+ str_of_int expected_code);;
  py_assert (actual_code =? expected_code) assertion_msg;;
  log INFO ("✅ Status code assertion passed: " +:+ str_of_int actual_code).

(** [APIAssertions.assert_json_key_exists]. *)
Definition assert_json_key_exists (response : Response) (key_path : string)
    (message : option string) : M unit json :=
  not_valid_json message
    (response_data ← lift (Response_json response);
     result ← lift (search key_path response_data);
     let assertion_msg :=
       message_or message ("Key '" +:+ key_path +:+ "' not found in response") in
     log INFO ("🔍 Checking if key exists: " +:+ key_path);;
     py_assert (match result with JNull => false | _ => true end) assertion_msg;;
     log INFO ("✅ Key exists assertion passed: " +:+ key_path);;
     mret result).

(** [APIAssertions.assert_json_key_value]. *)
Definition assert_json_key_value (response : Response) (key_path : string)
    (expected_value : json) (message : option string) : M unit unit :=
  not_valid_json message
    (response_data ← lift (Response_json response);
     actual_value ← lift (search key_path response_data);
     let assertion_msg :=
       message_or message ("Expected '" +:+ key_path +:+ "' = " +:+
                           py_str expected_value +:+ ", got " +:+
                           py_str actual_value) in
     log INFO ("🔍 Asserting key value: " +:+ key_path +:+ " = " +:+
               py_str expected_value);;
     py_assert (py_eq actual_value expected_value) assertion_msg;;
     log INFO ("✅ Key value assertion passed: " +:+ key_path +:+ " = " +:+
               py_str actual_value)).

(** [APIAssertions.assert_json_array_length]. *)
Definition assert_json_array_length (response : Response) (key_path : string)
    (expected_length : Z) (message : option string) : M unit unit :=
  not_valid_json message
    (response_data ← lift (Response_json response);
     array_data ← lift (search key_path response_data);
     match array_data with
     | JNull =>
         let assertion_msg := "Array not found at path: " +:+ key_path in
         log ERROR ("❌ " +:+ assertion_msg);;
         raise (AssertionError assertion_msg)
     | JList l =>
         let actual_length := Z.of_nat (length l) in
         let assertion_msg :=
           message_or message ("Expected array length " +:+
                               str_of_int expected_length +:+ ", got " +:+
                               str_of_int actual_length) in
         log INFO ("🔍 Asserting array length: " +:+ str_of_int expected_length);;
         py_assert (actual_length =? expected_length) assertion_msg;;
         log INFO ("✅ Array length assertion passed: " +:+ str_of_int actual_length)
     | _ =>
         let assertion_msg := "Data at path '" +:+ key_path +:+ "' is not an array" in
         log ERROR ("❌ " +:+ assertion_msg);;
         raise (AssertionError assertion_msg)
     end).

(** The body of the [for] loop of [assert_json_types], over the items of
    [type_mapping] in order. *)
Fixpoint check_types (response_data : json) (type_mapping : list (string * pytype))
    (message : option string) : M unit unit :=
  match type_mapping with
  | [] => mret tt
  | (key_path, expected_type) :: rest =>
      value ← lift (search key_path response_data);
      match value with
      | JNull =>
          let assertion_msg := "Key '" +:+ key_path +:+ "' not found in response" in
          log ERROR ("❌ " +:+ assertion_msg);;
          raise (AssertionError assertion_msg)
      | _ =>
          let actual_type := type_of value in
          if negb (isinstance value expected_type)
          then
            let assertion_msg :=
              message_or message ("Expected '" +:+ key_path +:+ "' to be " +:+
                                  type_name expected_type +:+ ", got " +:+
                                  type_name actual_type) in
            log ERROR ("❌ Type assertion failed: " +:+ key_path);;
            raise (AssertionError assertion_msg)
          else
            log INFO ("✅ Type assertion passed: " +:+ key_path +:+ " is " +:+
                      type_name expected_type);;
            check_types response_data rest message
      end
  end.

(** [APIAssertions.assert_json_types]. *)
Definition assert_json_types (response : Response)
    (type_mapping : list (string * pytype)) (message : option string)
    : M unit unit :=
  not_valid_json message
    (response_data ← lift (Response_json response);
     check_types response_data type_mapping message).

(** [", ".join(parts)]. *)
Fixpoint join (sep : string) (parts : list string) : string :=
  match parts with
  | [] => ""
  | [p] => p
  | p :: rest => p +:+ sep +:+ join sep rest
  end.

(** [str(codes)] for a list of integers. *)
Definition str_of_int_list (codes : list Z) : string :=
  "[" +:+ join ", " (map str_of_int codes) +:+ "]".

(** [APIAssertions.assert_status_code_in]. *)
Definition assert_status_code_in (response : Response) (expected_codes : list Z)
    (message : option string) : M unit unit :=
  let actual_code := status_code response in
  let assertion_msg :=
    message_or message ("Expected status code in " +:+
                        str_of_int_list expected_codes +:+
                        ", got " +:+ str_of_int actual_code) in
  log INFO ("🔍 Asserting status code in: " +:+ str_of_int_list expected_codes);;
  py_assert (existsb (Z.eqb actual_code) expected_codes) assertion_msg;;
  log INFO ("✅ Status code assertion passed: " +:+ str_of_int actual_code).

(** [response.headers.get(name)]: header names match without regard to
    case. *)
Definition header_get (response : Response) (name : string) : option string :=
  snd <$> List.find (fun kv => String.eqb (lower kv.1) (lower name))
                     (map_to_list (resp_headers response)).

(** [s.split(c)[0]]: what stands before the first [c]. *)
Fixpoint split_first (c : ascii) (s : string) : string :=
  match s with
  | EmptyString => EmptyString
  | String a s' => if Ascii.eqb a c then EmptyString else String a (split_first c s')
  end.

(** [APIAssertions.assert_content_type]. *)
Definition assert_content_type (response : Response) (expected_type : string)
    (message : option string) : M unit unit :=
  let actual_type := split_first ";" (default "" (header_get response "Content-Type")) in
  let assertion_msg :=
    message_or message ("Expected Content-Type " +:+ expected_type +:+
                        ", got " +:+ actual_type) in
  log INFO ("🔍 Asserting content type: " +:+ expected_type);;
  py_assert (String.eqb actual_type expected_type) assertion_msg;;
  log INFO ("✅ Content type assertion passed: " +:+ actual_type).

(** [s.lower()] of a text: Unicode's lower-casing, which the interpreter
    decides. *)
Variable str_lower : string -> string.

(** [APIAssertions.assert_text_contains]. *)
Definition assert_text_contains (response : Response) (expected_text : string)
    (case_sensitive : bool) (message : option string) : M unit unit :=
  let response_text := text response in
  let search_text :=
    if case_sensitive then expected_text else str_lower expected_text in
  let search_in := if case_sensitive then response_text else str_lower response_text in
  let assertion_msg :=
    message_or message ("Text '" +:+ expected_text +:+ "' not found in response") in
  log INFO ("🔍 Checking if text contains: " +:+ expected_text);;
  py_assert (contains search_text search_in) assertion_msg;;
  log INFO "✅ Text contains assertion passed".

(** [key in data] for a string [key]. *)
Definition py_in (key : string) (data : json) : result bool :=
  match data with
  | JObj kv => Ok (match assoc key kv with Some _ => true | None => false end)
  | JList l => Ok (existsb (fun x => py_eq x (JStr key)) l)
  | JStr s => Ok (contains key s)
  | _ => Raise (OtherError "TypeError" "argument is not iterable")
  end.

(** [data[key]] for a string [key]. *)
Definition py_getitem (data : json) (key : string) : result json :=
  match data with
  | JObj kv =>
      match assoc key kv with
      | Some v => Ok v
      | None => Raise (OtherError "KeyError" key)
      end
  | _ => Raise (OtherError "TypeError" "indices must be integers")
  end.

(** The loop of [assert_json_contains] that collects [missing_keys]. *)
Fixpoint collect_missing (expected : list (string * json)) (response_data : json)
    (missing_keys : list string) : result (list string) :=
  match expected with
  | [] => Ok missing_keys
  | (key, value) :: rest =>
      match py_in key response_data with
      | Raise e => Raise e
      | Ok false => collect_missing rest response_data (missing_keys ++ [key])
      | Ok true =>
          match py_getitem response_data key with
          | Raise e => Raise e
          | Ok actual =>
              if negb (py_eq actual value)
              then collect_missing rest response_data
                     (missing_keys ++ [key +:+ " (value mismatch)"])
              else collect_missing rest response_data missing_keys
          end
      end
  end.

(** [DeepDiff(expected_data, response_data, ...)], whose result
    [assert_json_contains] does not use; the library decides whether the
    call returns. *)
Variable DeepDiff : json -> json -> result json.

(** [APIAssertions.assert_json_contains]. *)
Definition assert_json_contains (response : Response)
    (expected_data : list (string * json)) (message : option string)
    : M unit unit :=
  not_valid_json message
    (response_data ← lift (Response_json response);
     diff ← lift (DeepDiff (JObj expected_data) response_data);
     missing_keys ← lift (collect_missing expected_data response_data []);
     let assertion_msg :=
       message_or message ("Response doesn't contain expected data. Missing: " +:+
                           py_str (JList (map JStr missing_keys))) in
     log INFO "🔍 Checking if response contains expected data";;
     py_assert (match missing_keys with [] => true | _ => false end) assertion_msg;;
     log INFO "✅ Contains assertion passed").

(** [name in response.headers]. *)
Definition header_in (response : Response) (name : string) : bool :=
  match header_get response name with Some _ => true | None => false end.

(** [APIAssertions.assert_header_exists]. *)
Definition assert_header_exists (response : Response) (header_name : string)
    (message : option string) : M unit unit :=
  let assertion_msg :=
    message_or message ("Header '" +:+ header_name +:+ "' not found in response") in
  log INFO ("🔍 Checking if header exists: " +:+ header_name);;
  py_assert (header_in response header_name) assertion_msg;;
  log INFO ("✅ Header exists assertion passed: " +:+ header_name).

(** [APIAssertions.assert_header_value]; a missing header reads as [None]. *)
Definition assert_header_value (response : Response) (header_name : string)
    (expected_value : string) (message : option string) : M unit unit :=
  let actual_value := header_get response header_name in
  let assertion_msg :=
    message_or message ("Expected header '" +:+ header_name +:+ "' = " +:+
                        expected_value +:+ ", got " +:+ default "None" actual_value) in
  log INFO ("🔍 Asserting header value: " +:+ header_name +:+ " = " +:+ expected_value);;
  py_assert (match actual_value with
             | Some v => String.eqb v expected_value
             | None => false
             end) assertion_msg;;
  log INFO ("✅ Header value assertion passed: " +:+ header_name +:+ " = " +:+
            default "None" actual_value).

(** [str(x)] of a float inside an f-string. *)
Variable str_of_float : Q -> string.

(** [APIAssertions.assert_response_time]. *)
Definition assert_response_time (response_time max_time : Q)
    (message : option string) : M unit unit :=
  let assertion_msg :=
    message_or message ("Response time " +:+ format_3f response_time +:+
                        "s exceeded limit " +:+ str_of_float max_time +:+ "s") in
  log INFO ("🔍 Asserting response time: " +:+ format_3f response_time +:+ "s <= " +:+
            str_of_float max_time +:+ "s");;
  py_assert (Qle_bool response_time max_time) assertion_msg;;
  log INFO ("✅ Response time assertion passed: " +:+ format_3f response_time +:+ "s").

End Assertions.

End assertions.

(** ** utils/advanced_assertions.py *)

Module advanced_assertions.
Import api_client.

(** A record of [enhanced_logger.log_entries], as far as an assertion
    decides it: the level, the message and the metadata (the
    [extra_context] of the call). *)
Record LogRecord : Type := MkRecord {
  record_level : level;
  record_message : string;
  record_metadata : option (list (string * json))
}.

(** [AdvancedAPIAssertions.assert_status_code], over the records of
    [enhanced_logger]. *)
Definition assert_status_code (response : Response) (expected_code : Z)
    (message : option string) (records : list LogRecord)
    : result unit * list LogRecord :=
  let actual_code := status_code response in
  if negb (actual_code =? expected_code) then
    let context :=
      [("expected_status", JInt expected_code);
       ("actual_status", JInt actual_code);
       ("url", JStr (url response));
       ("method", JStr (request_method response));
       ("response_text", JStr (substring 0 500 (text response)))] in
    let error_msg :=
      assertions.message_or message
        ("Expected status code " +:+ str_of_int expected_code +:+
         ", got " +:+ str_of_int actual_code) in
    (Raise (ContextAssertionError error_msg context),
     records ++ [MkRecord ERROR ("❌ Status code assertion failed: " +:+ error_msg)
                          (Some context)])
  else
    (Ok tt,
     records ++ [MkRecord INFO ("✅ Status code assertion passed: " +:+
                                str_of_int actual_code) None]).

End advanced_assertions.

(** ** framework_templates/base_client.py *)

Module base_client.
Import api_client.

(** [BaseAPIClient], as far as its concrete methods use it. *)
Record BaseAPIClient : Type := MkBase {
  base_url : string;
  default_headers : list (string * json);
  session : Session;
  last_response : option Response;
  response_time : Q
}.

(** The arguments of [self.session.request(method, url, **kwargs)]. *)
Record BaseCall : Type := MkBaseCall {
  call_method : string;
  call_url : string;
  call_kwargs : list (string * json)
}.

(** What one call reads from outside the client: the behaviour of
    [session.request] and the two readings of [time.time()]. *)
Record Env : Type := MkEnv {
  net : Session -> BaseCall -> result Response;
  t_start : Q;
  t_end : Q
}.

Definition set_last_response (r : option Response) (c : BaseAPIClient) : BaseAPIClient :=
  MkBase (base_url c) (default_headers c) (session c) r (response_time c).
Definition set_response_time (t : Q) (c : BaseAPIClient) : BaseAPIClient :=
  MkBase (base_url c) (default_headers c) (session c) (last_response c) t.

Section BaseClient.
Context `{Libs}.

(** [Retry(total=..., status_forcelist=..., method_whitelist=...)]: the
    constructor called with the keyword [method_whitelist].  The installed
    [urllib3] decides whether it takes that keyword and returns a strategy
    or raises. *)
Variable Retry_method_whitelist : Z -> list Z -> list string -> result Retry.

(** [BaseAPIClient._create_session]. *)
Definition _create_session (default_headers : list (string * json))
    : result Session :=
  let headers := ci_update (ci_of_dict requests_default_headers) default_headers in
  match Retry_method_whitelist 3 [429; 500; 502; 503; 504]
          ["HEAD"; "GET"; "PUT"; "DELETE"; "OPTIONS"; "TRACE"; "POST"] with
  | Ok retry_strategy => Ok (MkSession headers None retry_strategy)
  | Raise e => Raise e
  end.

(** [BaseAPIClient.__init__]; [class_name] is [self.__class__.__name__]. *)
Definition __init__ (class_name : string) (base_url : string)
    (headers : option (list (string * json))) : M unit BaseAPIClient :=
  let base_url := rstrip "/" base_url in
  let default_headers := match headers with Some ((_ :: _) as h) => h | _ => [] end in
  session ← lift (_create_session default_headers);
  let self := MkBase base_url default_headers session None 0%Q in
  log INFO ("🔧 Initialized " +:+ class_name +:+ " with base_url: " +:+ base_url);;
  mret self.

(** [BaseAPIClient._build_url]. *)
Definition _build_url (self : BaseAPIClient) (endpoint : string) : string :=
  if startswith_any ["http://"; "https://"] endpoint then endpoint
  else urljoin (base_url self +:+ "/") (lstrip "/" endpoint).

(** [BaseAPIClient._log_request]. *)
Definition _log_request (method url : string) (kwargs : list (string * json))
    : M BaseAPIClient unit :=
  log INFO ("📤 " +:+ upper method +:+ " " +:+ url);;
  match assoc "json" kwargs with
  | Some body =>
      if truthy body then log DEBUG ("📋 Request Body: " +:+ py_str body)
      else mret tt
  | None => mret tt
  end.

(** [BaseAPIClient._log_response]; its bare [except] handles every
    exception. *)
Definition _log_response (response : Response) (response_time : Q)
    : M BaseAPIClient unit :=
  log INFO ("📥 Response: " +:+ str_of_int (status_code response) +:+
            " (" +:+ format_3f response_time +:+ "s)");;
  try_except
    (if negb (String.eqb (text response) "")
     then response_data ← lift (Response_json response);
          log DEBUG ("📋 Response Body: " +:+ py_str response_data)
     else mret tt)
    (fun _ => true)
    (fun _ => log DEBUG ("📋 Response Text: " +:+
                         substring 0 200 (text response) +:+ "...")).

(** [BaseAPIClient.request]. *)
Definition request (env : Env) (method endpoint : string)
    (kwargs : list (string * json)) : M BaseAPIClient Response :=
  self ← get_state;
  let url := _build_url self endpoint in
  _log_request method url kwargs;;
  let start_time := t_start env in
  try_except
    (response ← lift (net env (session self) (MkBaseCall method url kwargs));
     modify (set_response_time (t_end env - start_time)%Q);;
     modify (set_last_response (Some response));;
     _log_response response (t_end env - start_time)%Q;;
     mret response)
    is_request_exception
    (fun e =>
       modify (set_response_time (t_end env - start_time)%Q);;
       log ERROR ("❌ Request failed: " +:+ str_of_exn e);;
       raise e).

(** [BaseAPIClient.get]. *)
Definition get (env : Env) (endpoint : string) (kwargs : list (string * json))
    : M BaseAPIClient Response :=
  request env "GET" endpoint kwargs.

(** Which of the exception classes the model does not name derive from
    [BaseException] alone. *)
Variable base_only : string -> bool.

(** [BaseAPIClient.health_check].  [health_endpoint] is what the abstract
    [get_health_check_endpoint] of the subclass does: it returns the
    endpoint or raises. *)
Definition health_check (env : Env) (health_endpoint : result string)
    : M BaseAPIClient bool :=
  try_except
    (endpoint ← lift health_endpoint;
     response ← get env endpoint [];
     let is_healthy := status_code response =? 200 in
     log INFO ("❤️ Health check: " +:+
               (if is_healthy then "✅ Healthy" else "❌ Unhealthy"));;
     mret is_healthy)
    (isinstance_Exception base_only)
    (fun e => log ERROR ("❌ Health check failed: " +:+ str_of_exn e);;
              mret false).

End BaseClient.

End base_client.

(** ** utils/helpers.py *)

Module helpers.
Import api_client.

(** [s.strip(c)] for a single character [c]. *)
Definition strip (c : ascii) (s : string) : string := lstrip c (rstrip c s).

(** [s.split(c)]: the pieces between the occurrences of [c]; never empty. *)
Fixpoint split (c : ascii) (s : string) : list string :=
  match s with
  | EmptyString => [EmptyString]
  | String a s' =>
      if Ascii.eqb a c then EmptyString :: split c s'
      else match split c s' with
           | [] => [String a EmptyString]
           | piece :: pieces => String a piece :: pieces
           end
  end.

(** [APITestHelper.extract_id_from_location_header]. *)
Definition extract_id_from_location_header (response : Response) : option string :=
  let location := default "" (assertions.header_get response "Location") in
  if negb (String.eqb location "") then
    let parts := split "/" (strip "/" location) in
    match parts with
    | [] => None
    | _ :: _ => Some (List.last parts "")
    end
  else None.

(** [d[key] = value] on the items of a dictionary: a key that is there
    keeps its place, a new key goes to the end. *)
Fixpoint dict_set (key : string) (value : json) (kv : list (string * json))
    : list (string * json) :=
  match kv with
  | [] => [(key, value)]
  | (k, v) :: rest =>
      if String.eqb key k then (k, value) :: rest
      else (k, v) :: dict_set key value rest
  end.

(** [APITestHelper.deep_merge_dicts(dict1, dict2)], by recursion on the
    value [JObj dict2]: [result] starts as the copy of [dict1] and takes the
    items of [dict2] in order. *)
Fixpoint deep_merge_value (value2 : json) (dict1 : list (string * json))
    {struct value2} : list (string * json) :=
  match value2 with
  | JObj dict2 =>
      (fix loop (items result : list (string * json)) : list (string * json) :=
         match items with
         | [] => result
         | (key, value) :: rest =>
             loop rest
               (dict_set key
                  match assoc key result, value with
                  | Some (JObj sub), JObj _ => JObj (deep_merge_value value sub)
                  | _, _ => value
                  end
                  result)
         end) dict2 dict1
  | _ => dict1
  end.

Definition deep_merge_dicts (dict1 dict2 : list (string * json))
    : list (string * json) :=
  deep_merge_value (JObj dict2) dict1.

(** [ResponseValidator.has_required_keys] for a dictionary. *)
Definition has_required_keys (data : list (string * json))
    (required_keys : list string) : bool :=
  forallb (fun key => match assoc key data with Some _ => true | None => false end)
          required_keys.

(** [APITestHelper.sanitize_test_data(data, remove_none)]: only a
    dictionary is rebuilt; of the items of a list only the dictionaries are
    sanitized. *)
Fixpoint sanitize_test_data (data : json) (remove_none : bool) {struct data} : json :=
  match data with
  | JObj items =>
      JObj
        ((fix loop (items sanitized : list (string * json)) : list (string * json) :=
            match items with
            | [] => sanitized
            | (key, value) :: rest =>
                if remove_none && match value with JNull => true | _ => false end
                then loop rest sanitized
                else
                  loop rest
                    (dict_set key
                       match value with
                       | JObj _ => sanitize_test_data value remove_none
                       | JList l =>
                           JList (map (fun item =>
                                         match item with
                                         | JObj _ => sanitize_test_data item remove_none
                                         | _ => item
                                         end) l)
                       | _ => value
                       end
                       sanitized)
            end) items [])
  | _ => data
  end.

(** [data.pop(key, None)], as the value [data] is afterwards: a dictionary
    loses the key, a list takes no second argument, and nothing else has a
    [pop]. *)
Definition py_pop (data : json) (key : string) : result json :=
  match data with
  | JObj kv => Ok (JObj (List.filter (fun item => negb (String.eqb key item.1)) kv))
  | JList _ => Raise (OtherError "TypeError" "pop expected at most 1 argument, got 2")
  | _ => Raise (AttributeError ("'" +:+ type_name (type_of data) +:+
                                "' object has no attribute 'pop'"))
  end.

(** The loop of [compare_json_responses] over [ignore_keys]. *)
Fixpoint pop_ignored (ignore_keys : list string) (data1 data2 : json)
    : result (json * json) :=
  match ignore_keys with
  | [] => Ok (data1, data2)
  | key :: rest =>
      match py_pop data1 key with
      | Raise e => Raise e
      | Ok data1 =>
          match py_pop data2 key with
          | Raise e => Raise e
          | Ok data2 => pop_ignored rest data1 data2
          end
      end
  end.

(** [APITestHelper.compare_json_responses]. *)
Definition compare_json_responses (response1 response2 : Response)
    (ignore_keys : option (list string)) : result bool :=
  let ignore_keys := default [] ignore_keys in
  let body :=
    match Response_json response1 with
    | Raise e => Raise e
    | Ok data1 =>
        match Response_json response2 with
        | Raise e => Raise e
        | Ok data2 =>
            match pop_ignored ignore_keys data1 data2 with
            | Raise e => Raise e
            | Ok (data1, data2) => Ok (py_eq data1 data2)
            end
        end
    end in
  match body with
  | Raise (JSONDecodeError _) | Raise (AttributeError _) => Ok false
  | r => r
  end.

End helpers.

(** ** utils/decorators.py *)

Module decorators.

(** [sorted(times)]: insertion into an ascending list. *)
Fixpoint insert_sorted (t : Q) (sorted : list Q) : list Q :=
  match sorted with
  | [] => [t]
  | u :: rest => if Qle_bool t u then t :: u :: rest else u :: insert_sorted t rest
  end.

Fixpoint sort (times : list Q) : list Q :=
  match times with
  | [] => []
  | t :: rest => insert_sorted t (sort rest)
  end.

(** [xs[i]] with Python's negative indices and [IndexError]. *)
Definition py_index (xs : list Q) (i : Z) : result Q :=
  let n := Z.of_nat (length xs) in
  let j := if i <? 0 then i + n else i in
  if (0 <=? j) && (j <? n)
  then match nth_error xs (Z.to_nat j) with
       | Some x => Ok x
       | None => Raise (OtherError "IndexError" "list index out of range")
       end
  else Raise (OtherError "IndexError" "list index out of range").

Section Decorators.
Context `{Libs}.
Context {S A : Type}.

(** [str(x)] of a float inside an f-string. *)
Variable str_of_float : Q -> string.

(** [func.__name__]. *)
Variable test_name : string.

(** Which of the exception classes the model does not name derive from
    [BaseException] alone. *)
Variable base_only : string -> bool.

(** [int(a / b)]: the true division yields a float, which [int] truncates;
    the interpreter's float arithmetic decides the value, and raises
    [OverflowError] when the quotient is too large for a float. *)
Variable int_true_div : Z -> Z -> result Z.

(** [sum(times) / len(times)] in float arithmetic. *)
Variable float_mean : list Q -> Q.

(** [log_test_execution(func)]; [t_start] and [t_end] are the two readings
    of [time.time()]. *)
Definition log_test_execution (t_start t_end : Q) (func : M S A) : M S A :=
  log INFO ("🚀 Starting test: " +:+ test_name);;
  let start_time := t_start in
  try_except
    (result ← func;
     let execution_time := (t_end - start_time)%Q in
     log INFO ("✅ Test passed: " +:+ test_name +:+ " (" +:+
               format_3f execution_time +:+ "s)");;
     mret result)
    (isinstance_Exception base_only)
    (fun e =>
       let execution_time := (t_end - start_time)%Q in
       log ERROR ("❌ Test failed: " +:+ test_name +:+ " (" +:+
                  format_3f execution_time +:+ "s) - " +:+ str_of_exn e);;
       raise e).

(** [measure_response_time(max_time)(func)]; [attach t r] is the result
    [r] after [r.measured_response_time = t] when [r] is an object, and [r]
    otherwise. *)
Definition measure_response_time (max_time : option Q) (attach : Q -> A -> A)
    (t_start t_end : Q) (func : M S A) : M S A :=
  let start_time := t_start in
  result ← func;
  let response_time := (t_end - start_time)%Q in
  log INFO ("📊 Response time: " +:+ format_3f response_time +:+ "s");;
  match max_time with
  | Some limit =>
      if negb (Qeq_bool limit 0) && negb (Qle_bool response_time limit)
      then
        log ERROR ("❌ Response time " +:+ format_3f response_time +:+
                   "s exceeded limit " +:+ str_of_float limit +:+ "s");;
        raise (AssertionError ("Response time " +:+ format_3f response_time +:+
                               "s exceeded limit " +:+ str_of_float limit +:+ "s"))
      else mret (attach response_time result)
  | None => mret (attach response_time result)
  end.

(** The [for i in range(runs)] loop of [performance_test], from run [i] on;
    [clock i] holds the two readings of [time.time()] around run [i]. *)
Fixpoint timed_runs (func : M S A) (clock : nat -> Q * Q) (runs i : nat)
    (response_times : list Q) (result : option A) : M S (list Q * option A) :=
  match runs with
  | O => mret (response_times, result)
  | Datatypes.S k =>
      r ← func;
      timed_runs func clock k (Datatypes.S i)
                 (response_times ++ [((clock i).2 - (clock i).1)%Q]) (Some r)
  end.

(** [max(times)] and [min(times)] of a non-empty list. *)
Definition max_times (times : list Q) : Q :=
  match times with
  | [] => 0%Q
  | t :: rest => fold_left (fun m u => if Qle_bool u m then m else u) rest t
  end.
Definition min_times (times : list Q) : Q :=
  match times with
  | [] => 0%Q
  | t :: rest => fold_left (fun m u => if Qle_bool m u then m else u) rest t
  end.

(** [performance_test(max_response_time, percentile)(func)]. *)
Definition performance_test (max_response_time : Q) (percentile : Z)
    (clock : nat -> Q * Q) (func : M S A) : M S A :=
  '(response_times, result) ← timed_runs func clock 10 0 [] None;
  let response_times := sort response_times in
  percentile_index ←
    lift (int_true_div (Z.of_nat (length response_times) * percentile) 100);
  percentile_time ← lift (py_index response_times percentile_index);
  log INFO "📊 Performance test results:";;
  log INFO ("   Average: " +:+ format_3f (float_mean response_times) +:+ "s");;
  log INFO ("   " +:+ str_of_int percentile +:+ "th percentile: " +:+
            format_3f percentile_time +:+ "s");;
  log INFO ("   Max: " +:+ format_3f (max_times response_times) +:+ "s");;
  log INFO ("   Min: " +:+ format_3f (min_times response_times) +:+ "s");;
  if negb (Qle_bool percentile_time max_response_time)
  then raise (AssertionError
                ("Performance test failed: " +:+ str_of_int percentile +:+
                 "th percentile (" +:+ format_3f percentile_time +:+
                 "s) exceeded limit (" +:+ str_of_float max_response_time +:+ "s)"))
  else match result with
       | Some r => mret r
       | None => raise (OtherError "UnboundLocalError" "result")
       end.

End Decorators.

End decorators.

(** ** The transport's retry loop *)

Module transport.
Import api_client.

(** What the target does with one attempt: it answers, or the connection
    fails. *)
Inductive wire : Type :=
| Answer (r : Response)
| ConnectionFailure (msg : string).

(** What a whole transport call did: the attempts issued, the backoff slept
    before each re-issue, and what the caller gets. *)
Record Trace : Type := MkTrace {
  attempts : nat;
  sleeps : list Z;
  outcome : result Response
}.

(** Modelled from the spec: whether the retry policy re-issues after an
    attempt.  The policy is [urllib3]'s, which the repository configures in
    [_create_session] and does not contain.  Section 4.2: the policy has
    [retryable_status_codes] and [retryable_methods], and the transport
    re-issues "on a retryable response or connection failure". *)
Definition retryable (statuses : list Z) (methods : list string)
    (method : string) (w : wire) : bool :=
  match w with
  | Answer r =>
      existsb (Z.eqb (status_code r)) statuses && existsb (String.eqb method) methods
  | ConnectionFailure _ => true
  end.

(** Modelled from the spec: the retry loop of the transport ([urllib3] behind
    the adapter [requests] mounts), absent from the repository.  Section 4.2:
    "the transport itself re-issues the request up to [total_retries] times
    with exponentially growing backoff ([backoff_factor × 2^attempt]),
    transparent to the caller — the caller only observes elevated latency or
    a final failure after exhaustion"; HTTP error statuses that are not
    retried "are returned as ordinary responses".  [target k] is what the
    target does with attempt number [k]. *)
Fixpoint attempt_loop (statuses : list Z) (methods : list string) (backoff : Z)
    (method : string) (target : nat -> wire) (retries_left attempt : nat) : Trace :=
  let w := target attempt in
  if retryable statuses methods method w then
    match retries_left with
    | O =>
        MkTrace 1 []
          (Raise (RequestException
                    match w with
                    | Answer r => "Max retries exceeded: too many " +:+
                                  str_of_int (status_code r) +:+ " error responses"
                    | ConnectionFailure msg => "Max retries exceeded: " +:+ msg
                    end))
    | S remaining =>
        let rest := attempt_loop statuses methods backoff method target remaining (S attempt) in
        MkTrace (S (attempts rest))
                (backoff * 2 ^ Z.of_nat attempt :: sleeps rest)
                (outcome rest)
    end
  else
    MkTrace 1 []
      match w with
      | Answer r => Ok r
      | ConnectionFailure msg => Raise (RequestException msg)
      end.

(** Modelled from the spec: the transport call of a session, under the retry
    strategy [_create_session] mounted.  Section 3 takes [retry_count] to be
    an integer ≥ 0 and the delay a number; other settings are not given a
    meaning. *)
Definition send (s : Session) (method : string) (target : nat -> wire)
    : option Trace :=
  match total (max_retries s), backoff_factor (max_retries s) with
  | JInt n, JInt b =>
      if 0 <=? n
      then Some (attempt_loop (status_forcelist (max_retries s))
                              (allowed_methods (max_retries s))
                              b method target (Z.to_nat n) 0)
      else None
  | _, _ => None
  end.

(** *** What a session sends *)

Section Prepare.

(** [requests.auth._basic_auth_str(username, password)]. *)
Variable basic_auth_str : string -> string -> string.

(** Modelled from the documentation of [requests], which the repository
    calls and does not contain: the credentials applied to a call that
    passes no [auth] of its own are the session's [auth] pair, else what
    the environment holds for the URL (a netrc entry, or a user and password
    in the URL itself). *)
Definition credentials (environment_auth : option (string * string))
    (s : Session) : option (string * string) :=
  match auth s with
  | Some session_auth => Some session_auth
  | None => environment_auth
  end.

(** Modelled from the spec and from the documentation of [requests]: the
    headers of the request that [session.request] prepares and sends first,
    as far as the session, the per-call headers and the credentials decide
    them.  Section 4.3: the dispatcher "merges per-call headers over session
    default headers (per-call wins on conflict)"; in [requests] the names
    are compared without regard to case, omitted per-call headers count as
    none, and a header whose value is [None] is left out.  When credentials
    apply, the [Authorization] header is set to the Basic one, whatever the
    merged headers held. *)
Definition sent_headers (environment_auth : option (string * string))
    (s : Session) (call : SessionCall) : CaseInsensitiveDict :=
  let merged :=
    omap (fun item : string * json =>
            match item.2 with JNull => None | _ => Some item end)
         (ci_update (session_headers s) (default [] (call_headers call))) in
  match credentials environment_auth s with
  | Some (username, password) =>
      ci_set "Authorization" (JStr (basic_auth_str username password)) merged
  | None => merged
  end.

End Prepare.

End transport.

(** ** A small instance of the library interface

    Enough to run the embedding on concrete inputs: [urljoin] appends a
    relative path to a base that ends in a slash, [search] looks a plain
    identifier up in a top-level object, and values are rendered in a few
    fixed ways. *)

Definition simple_str (v : json) : string :=
  match v with
  | JNull => "None"
  | JBool true => "True"
  | JBool false => "False"
  | JInt n => str_of_int n
  | JStr s => s
  | JList _ => "[...]"
  | JObj _ => "{...}"
  end.

Definition simple_search (expression : string) (data : json) : result json :=
  match data with
  | JObj kv => Ok (default JNull (assoc expression kv))
  | _ => Ok JNull
  end.

Definition simple_libs : Libs := {|
  urljoin := fun base ref => base +:+ ref;
  search := simple_search;
  py_str := simple_str;
  json_dumps := simple_str;
  str_of_headers := fun _ => "{...}";
  format_3f := fun _ => "0.000";
  requests_default_headers := {["Accept" := JStr "*/*"]}
|}.

(** The Basic header of the one pair of credentials the examples use. *)
Definition simple_basic_auth_str (username password : string) : string :=
  "Basic dXNlcjpwdw==".

(** The classes of the interpreter and of pytest that derive from
    [BaseException] alone. *)
Definition simple_base_only (cls : string) : bool :=
  existsb (String.eqb cls)
          ["KeyboardInterrupt"; "SystemExit"; "GeneratorExit"; "Skipped"; "Failed"].

(** * Vocabulary of the properties *)

Import api_client.

(** [k] copies of the character [c]. *)
Fixpoint repeat_char (c : ascii) (k : nat) : string :=
  match k with
  | O => EmptyString
  | S k' => String c (repeat_char c k')
  end.

Section Entries.
Context `{Libs}.

(** The lines [_log_request] writes. *)
Definition request_entries (self : APIClient) (method url : string)
    (headers : option (gmap string json)) (data : json) : list entry :=
  [LogEntry INFO ("🔄 " +:+ upper method +:+ " " +:+ url);
   LogEntry DEBUG ("Headers: " +:+ str_of_headers
     match headers with
     | Some h => if bool_decide (h = ∅) then ci_dict (session_headers (session self))
                 else h ∪ ci_dict (session_headers (session self))
     | None => ci_dict (session_headers (session self))
     end)] ++
  (if truthy data
   then [LogEntry DEBUG ("Request Body: " +:+
           match data with JObj _ => json_dumps data | _ => py_str data end)]
   else []).

(** The lines [_log_response] writes. *)
Definition response_entries (response : Response) (response_time : Q) : list entry :=
  LogEntry INFO ("📋 Response: " +:+ str_of_int (status_code response) +:+
                 " (" +:+ format_3f response_time +:+ "s)") ::
  match json_body response with
  | Some response_json => [LogEntry DEBUG ("Response Body: " +:+ json_dumps response_json)]
  | None =>
      if negb (String.eqb (text response) "")
      then [LogEntry DEBUG ("Response Body: " +:+ substring 0 500 (text response) +:+
                            (if (500 <? String.length (text response))%nat
                             then "..." else ""))]
      else []
  end.

(** [request] before the transport call: the URL is built and the request
    logged; nothing else has happened. *)
Definition before_call (self : APIClient) (a : Args) (url : string)
    (l : list entry) : list entry :=
  l ++ request_entries self (method a) url
         (Some (request_headers self (headers a))) (py_or (json_data a) (data a)).

End Entries.

(** ** Concrete inputs *)

(** The client [APIClient("https://api.example.com")] builds on the internal
    default configuration. *)
Definition default_config : config.Config :=
  config.MkConfig "dev" config._default_config.

Definition example_client : APIClient :=
  MkClient (JStr "https://api.example.com")
           (config.headers default_config)
           (MkSession (ci_update
                         (ci_of_dict (requests_default_headers (Libs := simple_libs)))
                         [("Content-Type", JStr "application/json");
                          ("Accept", JStr "application/json")])
                      None
                      (MkRetry (JInt 3) (JInt 1) [429; 500; 502; 503; 504]
                               ["HEAD"; "GET"; "PUT"; "DELETE"; "OPTIONS"; "TRACE"; "POST"]))
           None 0%Q.

Definition get_users : Args :=
  MkArgs "GET" "/users/1" None JNull JNull JNull None.

Definition refusing_env : Env :=
  MkEnv default_config
        (fun _ _ => Raise (RequestException "Connection refused"))
        (10 # 1) (25 # 2).

Definition not_found : Response :=
  MkResponse 404 "https://api.example.com/users/1" "GET" ∅ "{}" (Some (JObj [])).

Definition answering_env : Env :=
  MkEnv default_config (fun _ _ => Ok not_found) (10 # 1) (21 # 2).


(** The example client after a call that was answered with [not_found]. *)
Definition answered_client : APIClient :=
  MkClient (JStr "https://api.example.com")
           (default_headers example_client) (session example_client)
           (Some not_found) ((21 # 2) - (10 # 1))%Q.

Definition unavailable : Response :=
  MkResponse 503 "https://api.example.com/users/1" "GET" ∅ "Service Unavailable" None.

Definition user_response : Response :=
  MkResponse 200 "https://api.example.com/users/1" "GET" ∅ "{id: 1}"
             (Some (JObj [("id", JInt 1)])).

(** ** Sequences of operations on one client *)

(** What a test does with a client between two points of interest. *)
Inductive op : Type :=
| Call (env : Env) (a : Args)
| SetAuthToken (token auth_type : string)
| SetBasicAuth (username password : string)
| AddHeader (key value : string)
| RemoveHeader (key : string).

Section Ops.
Context `{Libs}.

Definition run_op (o : op) : M APIClient unit :=
  match o with
  | Call env a => request env a;; mret tt
  | SetAuthToken token auth_type => set_auth_token token auth_type
  | SetBasicAuth username password => set_basic_auth username password
  | AddHeader key value => add_header key value
  | RemoveHeader key => remove_header key
  end.

(** One operation; when it raises, the test catches the exception and goes
    on with the client as the operation left it. *)
Definition step (st : APIClient * list entry) (o : op) : APIClient * list entry :=
  ((run_op o st.1 st.2).1.2, (run_op o st.1 st.2).2).

Definition run_ops (st : APIClient * list entry) (ops : list op)
    : APIClient * list entry :=
  foldl step st ops.

End Ops.

(** Header names as [requests] compares them: without regard to case. *)
Definition same_header (a b : string) : bool := String.eqb (lower a) (lower b).

(** Whether an operation decides the header [name] anew: the header
    mutators on that name, and for [Authorization] also the two
    authentication setters. *)
Definition writes_header (name : string) (o : op) : bool :=
  match o with
  | Call _ _ => false
  | SetAuthToken _ _ | SetBasicAuth _ _ => same_header name "Authorization"
  | AddHeader key _ | RemoveHeader key => same_header key name
  end.

(** Whether the per-call headers of a call carry the header [name]. *)
Definition carries (name : string) (headers : option (list (string * json))) : bool :=
  match headers with
  | Some items => existsb (fun kv => same_header kv.1 name) items
  | None => false
  end.

(** ** The invariant of section 3 *)

Definition nonneg (v : json) : bool :=
  match v with JInt n => 0 <=? n | _ => false end.

Definition no_trailing_slash (v : json) : bool :=
  match v with JStr s => negb (endswith_char "/" s) | _ => false end.

Definition config_ok (c : config.Config) : bool :=
  nonneg (config.timeout c) && nonneg (config.retry_count c) &&
  nonneg (config.retry_delay c) && no_trailing_slash (config.base_url c).

(** What the invariant asks of a value written under [key]. *)
Definition value_ok (key : string) (value : json) : bool :=
  if String.eqb key "timeout" then nonneg value
  else if String.eqb key "retry_count" then nonneg value
  else if String.eqb key "retry_delay" then nonneg value
  else if String.eqb key "base_url" then no_trailing_slash value
  else true.

(** ** The transport behind a client *)

(** [session.request] carried out by the retry loop against a target. *)
Definition retrying_net (target : nat -> transport.wire)
    (s : Session) (call : SessionCall) : result Response :=
  match transport.send s (call_method call) target with
  | Some t => transport.outcome t
  | None => Raise (ValueError "retry settings are not numbers")
  end.

Definition always_unavailable : nat -> transport.wire :=
  fun _ => transport.Answer unavailable.

(** ** The truth value of a response *)

(** [response.ok], which [requests] documents as the truth value of a
    response: the status code is not a client or server error. *)
Definition requests_ok (r : Response) : bool :=
  negb ((400 <=? status_code r) && (status_code r <? 600)).

Definition json_utf8_response : Response :=
  MkResponse 200 "https://api.example.com/users/1" "GET"
             {["Content-Type" := "application/json; charset=utf-8"]}
             "{id: 1}" (Some (JObj [("id", JInt 1); ("name", JStr "Leanne")])).

Definition html_response : Response :=
  MkResponse 200 "https://api.example.com/" "GET" ∅ "<html>Hello</html>" None.

(** ** Expected items of a partial match *)

(** Whether the dictionary with items [kv] has [item]'s key with a value
    equal to [item]'s. *)
Definition item_present (kv : list (string * json)) (item : string * json) : bool :=
  match assoc item.1 kv with
  | Some actual => py_eq actual item.2
  | None => false
  end.

(** Whether a path of a type mapping resolves, under [search], to a value
    other than [None] of the expected type. *)
Definition path_has_type (search : string -> json -> result json) (data : json)
    (entry : string * pytype) : bool :=
  match search entry.1 data with
  | Ok JNull => false
  | Ok v => isinstance v entry.2
  | Raise _ => false
  end.

(** A [DeepDiff] that returns an empty difference. *)
Definition no_diff (expected actual : json) : result json := Ok (JObj []).

(** ** Concrete inputs for the template client *)

Definition base_refusing_env : base_client.Env :=
  base_client.MkEnv (fun _ _ => Raise (RequestException "Connection refused"))
                    (10 # 1) (25 # 2).

(** The [Retry] constructor of an [urllib3] before 2.0, which takes
    [method_whitelist] for the allowed methods; [backoff_factor] is left at
    the library's default, 0. *)
Definition retry_taking_whitelist (total : Z) (status_forcelist : list Z)
    (method_whitelist : list string) : result Retry :=
  Ok (MkRetry (JInt total) (JInt 0) status_forcelist method_whitelist).

(** The constructor of [urllib3] 2.0 and later, which has no such keyword. *)
Definition retry_refusing_whitelist (total : Z) (status_forcelist : list Z)
    (method_whitelist : list string) : result Retry :=
  Raise (OtherError "TypeError"
           "Retry.__init__() got an unexpected keyword argument 'method_whitelist'").

Definition base_example_client : base_client.BaseAPIClient :=
  base_client.MkBase "https://api.example.com" []
    (MkSession (ci_of_dict (requests_default_headers (Libs := simple_libs))) None
               (MkRetry (JInt 3) (JInt 0) [429; 500; 502; 503; 504]
                        ["HEAD"; "GET"; "PUT"; "DELETE"; "OPTIONS"; "TRACE"; "POST"]))
    None 0%Q.

Definition created_response : Response :=
  MkResponse 201 "https://api.example.com/users" "POST"
             {["Location" := "https://api.example.com/users/123/"]} "{}"
             (Some (JObj [])).

(** What [deep_merge_dicts] stores under a key that [dict2] has with value
    [value2], given what the result held under it before. *)
Definition merged_value (before : option json) (value2 : json) : json :=
  match before, value2 with
  | Some (JObj sub), JObj sub2 => JObj (helpers.deep_merge_dicts sub sub2)
  | _, _ => value2
  end.

(** ** Concrete inputs for the decorators *)

(** A test body that returns at once and leaves no trace. *)
Definition quick_test : M unit unit := fun s l => (Ok tt, s, l).

(** Ten runs that each took one second. *)
Definition one_second_clock (i : nat) : Q * Q := (0%Q, 1%Q).

(** ** Vocabulary for the helpers on decoded bodies *)

(** No dictionary that is reached through dictionary values, and through
    the dictionaries that are direct items of a list value, holds [None]
    under a key. *)
Fixpoint no_none_values (data : json) : bool :=
  match data with
  | JObj items =>
      forallb (fun '(_, value) =>
                 match value with
                 | JNull => false
                 | JObj _ => no_none_values value
                 | JList l =>
                     forallb (fun item =>
                                match item with
                                | JObj _ => no_none_values item
                                | _ => true
                                end) l
                 | _ => true
                 end) items
  | _ => true
  end.

(** The items of a dictionary whose key is not among [keys]. *)
Definition without_keys (keys : list string) (kv : list (string * json))
    : list (string * json) :=
  List.filter (fun item => negb (existsb (String.eqb item.1) keys)) kv.

(** A response with the given decoded body. *)
Definition body_response (j : json) : Response :=
  MkResponse 200 "https://api.example.com/users/1" "GET"
             {["Content-Type" := "application/json"]} "" (Some j).

(** What [no_none_values] asks of the value under one key. *)
Definition value_clean (value : json) : bool :=
  match value with
  | JNull => false
  | JObj _ => no_none_values value
  | JList l =>
      forallb (fun item =>
                 match item with
                 | JObj _ => no_none_values item
                 | _ => true
                 end) l
  | _ => true
  end.

(** What [sanitize_test_data] stores for a value it keeps. *)
Definition sanitized_value (remove_none : bool) (value : json) : json :=
  match value with
  | JObj _ => helpers.sanitize_test_data value remove_none
  | JList l =>
      JList (map (fun item =>
                    match item with
                    | JObj _ => helpers.sanitize_test_data item remove_none
                    | _ => item
                    end) l)
  | _ => value
  end.

(** The loop of [sanitize_test_data] over the items, from the dictionary
    [sanitized] built so far. *)
Fixpoint sanitize_loop (remove_none : bool) (items sanitized : list (string * json))
    : list (string * json) :=
  match items with
  | [] => sanitized
  | (key, value) :: rest =>
      if remove_none && match value with JNull => true | _ => false end
      then sanitize_loop remove_none rest sanitized
      else sanitize_loop remove_none rest
             (helpers.dict_set key (sanitized_value remove_none value) sanitized)
  end.

(** ** ASCII text *)

(** [s.isascii()]: every character is below 128. *)
Fixpoint is_ascii (s : string) : bool :=
  match s with
  | EmptyString => true
  | String (Ascii _ _ _ _ _ _ _ b7) s' => negb b7 && is_ascii s'
  end.

(** ** Repeated runs of a test body *)

Section Runs.
Context {S A : Type}.

(** The state and the log after [n] consecutive runs of [func]. *)
Fixpoint after_runs (func : M S A) (n : nat) (s : S) (l : list entry)
    : S * list entry :=
  match n with
  | O => (s, l)
  | Datatypes.S k => after_runs func k (func s l).1.2 (func s l).2
  end.

End Runs.

(** The durations of the [n] runs from run [i] on, as the readings of
    [clock] give them. *)
Definition durations (clock : nat -> Q * Q) (i n : nat) : list Q :=
  map (fun k => ((clock k).2 - (clock k).1)%Q) (seq i n).

(** [int(a / b)] where the float arithmetic is exact. *)
Definition exact_int_true_div (a b : Z) : result Z := Ok (Z.quot a b).

(** The mean of a list of times in exact arithmetic. *)
Definition exact_mean (times : list Q) : Q :=
  (fold_right Qplus 0 times / inject_Z (Z.of_nat (length times)))%Q.
(** * Properties *)

(** ** The Python primitives on concrete inputs *)

Example rstrip_slashes : rstrip "/" "https://reqres.in/api//" = "https://reqres.in/api".
Proof. reflexivity. Qed.

Example rstrip_inner_kept : rstrip "/" "a/b/" = "a/b".
Proof. reflexivity. Qed.

Example lstrip_slashes : lstrip "/" "//users/1/" = "users/1/".
Proof. reflexivity. Qed.

Example upper_get : upper "get" = "GET" /\ upper "Patch-1" = "PATCH-1".
Proof. split; reflexivity. Qed.

Example startswith_scheme :
  startswith_any ["http://"; "https://"] "https://httpbin.org/get" = true /\
  startswith_any ["http://"; "https://"] "HTTPS://httpbin.org/get" = false /\
  startswith_any ["http://"; "https://"] "/users" = false.
Proof. repeat split. Qed.

Example str_of_int_decimal : str_of_int 404 = "404" /\ str_of_int (-5) = "-5".
Proof. split; reflexivity. Qed.

Example py_or_falsy :
  py_or (JInt 0) (JInt 30) = JInt 30 /\ py_or JNull (JInt 30) = JInt 30 /\
  py_or (JStr "") (JStr "x") = JStr "x" /\ py_or (JInt 5) (JInt 30) = JInt 5.
Proof. repeat split. Qed.

Example py_eq_bool_is_int :
  py_eq (JInt 1) (JBool true) = true /\ py_eq JNull (JInt 0) = false /\
  py_eq (JObj [("a", JInt 1); ("b", JNull)]) (JObj [("b", JNull); ("a", JInt 1)]) = true.
Proof. repeat split. Qed.

Example isinstance_bool_int :
  isinstance (JBool true) TInt = true /\ isinstance (JInt 1) TBool = false.
Proof. split; reflexivity. Qed.

Example dict_update_later_wins :
  dict_update {["Accept" := JStr "*/*"]} [("Accept", JStr "application/json")]
    !! "Accept" = Some (JStr "application/json").
Proof. reflexivity. Qed.

(** ** Strings *)

Lemma rstrip_no_trailing (c : ascii) (s : string) :
  endswith_char c (rstrip c s) = false.
Proof.
  induction s as [|a s IH]; simpl; [reflexivity|].
  destruct (rstrip c s) as [|b r] eqn:E.
  - destruct (Ascii.eqb a c) eqn:Eac; simpl; [reflexivity|exact Eac].
  - simpl. exact IH.
Qed.

Lemma lstrip_no_leading (c : ascii) (s : string) :
  startswith (String c EmptyString) (lstrip c s) = false.
Proof.
  induction s as [|a s IH]; simpl; [reflexivity|].
  destruct (Ascii.eqb a c) eqn:Eac; [exact IH|].
  unfold startswith. simpl.
  destruct (ascii_dec c a) as [->|Hne]; [|reflexivity].
  rewrite Ascii.eqb_refl in Eac. discriminate.
Qed.

Lemma append_cons (a : ascii) (s t : string) :
  String a s +:+ t = String a (s +:+ t).
Proof. reflexivity. Qed.

Lemma append_nil (t : string) : EmptyString +:+ t = t.
Proof. reflexivity. Qed.

Lemma append_empty_r (s : string) : s +:+ EmptyString = s.
Proof.
  induction s as [|a s IH]; [reflexivity|].
  rewrite append_cons, IH. reflexivity.
Qed.

Lemma lstrip_decompose (c : ascii) (s : string) :
  exists k, s = repeat_char c k +:+ lstrip c s.
Proof.
  induction s as [|a s [k IH]]; simpl.
  - exists O. reflexivity.
  - destruct (Ascii.eqb a c) eqn:Eac.
    + apply Ascii.eqb_eq in Eac. subst a. exists (S k).
      simpl repeat_char. rewrite append_cons. f_equal. exact IH.
    + exists O. reflexivity.
Qed.

Lemma rstrip_decompose (c : ascii) (s : string) :
  exists k, s = rstrip c s +:+ repeat_char c k.
Proof.
  induction s as [|a s [k IH]]; simpl.
  - exists O. reflexivity.
  - destruct (rstrip c s) as [|b r] eqn:E.
    + rewrite append_nil in IH. destruct (Ascii.eqb a c) eqn:Eac.
      * apply Ascii.eqb_eq in Eac. subst a. exists (S k).
        rewrite append_nil. simpl. f_equal. exact IH.
      * exists k. rewrite append_cons, append_nil. f_equal. exact IH.
    + exists k. rewrite append_cons. f_equal. exact IH.
Qed.

Lemma startswith_any_two (p q s : string) :
  startswith_any [p; q] s = startswith p s || startswith q s.
Proof. unfold startswith_any. simpl. rewrite orb_false_r. reflexivity. Qed.

(** ** The URL builder *)

Section BuildUrl.
Context `{Libs}.

(** C2: an endpoint that begins with http:// or https:// is the request URL
    verbatim, whatever the base URL is; any other endpoint is joined by
    [urljoin] onto the base URL stripped of its trailing slashes plus one
    slash, after the endpoint lost its leading slashes, so exactly one slash
    stands between them; base "https://api.example.com" and endpoint
    "/users/1" give "https://api.example.com/users/1" wherever [urljoin]
    appends that relative path to that base. *)
Theorem build_url_verbatim_or_one_slash (self : APIClient) (endpoint : string) :
  (startswith "http://" endpoint = true \/ startswith "https://" endpoint = true ->
   _build_url self endpoint = Ok endpoint) /\
  (forall b : string,
     startswith "http://" endpoint = false ->
     startswith "https://" endpoint = false ->
     base_url self = JStr b ->
     _build_url self endpoint =
       Ok (urljoin (rstrip "/" b +:+ "/") (lstrip "/" endpoint)) /\
     endswith_char "/" (rstrip "/" b) = false /\
     startswith "/" (lstrip "/" endpoint) = false /\
     (exists k, b = rstrip "/" b +:+ repeat_char "/" k) /\
     (exists k, endpoint = repeat_char "/" k +:+ lstrip "/" endpoint)) /\
  (base_url self = JStr "https://api.example.com" ->
   urljoin "https://api.example.com/" "users/1" = "https://api.example.com/users/1" ->
   _build_url self "/users/1" = Ok "https://api.example.com/users/1").
Proof.
  unfold _build_url. rewrite startswith_any_two. split; [|split].
  - intros [Hs|Hs]; rewrite Hs; [reflexivity|]. rewrite orb_true_r. reflexivity.
  - intros b Hhttp Hhttps Hb. rewrite Hhttp, Hhttps, Hb. simpl.
    split; [reflexivity|]. split; [apply rstrip_no_trailing|].
    split; [apply lstrip_no_leading|].
    split; [apply rstrip_decompose | apply lstrip_decompose].
  - intros Hb Hjoin. rewrite Hb. simpl. rewrite <- Hjoin. reflexivity.
Qed.

End BuildUrl.

Lemma example_client_init :
  __init__ (H := simple_libs) default_config (Some "https://api.example.com") None
  = Ok example_client.
Proof. reflexivity. Qed.

Lemma build_url_witness :
  _build_url (H := simple_libs) example_client "/users/1"
    = Ok "https://api.example.com/users/1" /\
  _build_url (H := simple_libs) example_client "https://httpbin.org/get"
    = Ok "https://httpbin.org/get" /\
  _build_url (H := simple_libs) example_client "//users//1"
    = Ok (urljoin (Libs := simple_libs) "https://api.example.com/" "users//1").
Proof.
  pose proof (build_url_verbatim_or_one_slash (H := simple_libs) example_client "/users/1")
    as [_ [_ Hex]].
  pose proof (build_url_verbatim_or_one_slash (H := simple_libs) example_client
                "https://httpbin.org/get") as [Hverb _].
  pose proof (build_url_verbatim_or_one_slash (H := simple_libs) example_client
                "//users//1") as [_ [Hjoin _]].
  split; [|split].
  - apply Hex; reflexivity.
  - apply Hverb. right. reflexivity.
  - apply (Hjoin "https://api.example.com"); reflexivity.
Defined.

(** ** The configuration resolver *)

(** C3: when opening the configuration file raises [FileNotFoundError] or
    parsing it raises [JSONDecodeError], [Config(...)] does not raise: the
    mapping is the internal default, so [base_url] is
    "https://jsonplaceholder.typicode.com", [timeout] 30, [retry_count] 3
    and [retry_delay] 1, and exactly one line is logged, a warning for the
    absent file and an error for the parse failure. *)
Theorem config_falls_back_to_defaults
    (arg env_var : option string) (config_file : string) (e : exn) (l0 : list entry) :
  (exists m, e = FileNotFoundError m) \/ (exists m, e = JSONDecodeError m) ->
  exists cfg : config.Config,
    config.__init__ arg env_var config_file (Raise e) tt l0
      = (Ok cfg, tt,
         l0 ++ [match e with
                | FileNotFoundError _ =>
                    LogEntry WARNING ("Config file not found: " +:+ config_file)
                | _ =>
                    LogEntry ERROR ("Invalid JSON in config file: " +:+ str_of_exn e)
                end]) /\
    (arg = Some "dev" -> config.environment cfg = "dev") /\
    config.config_data cfg = config._default_config /\
    config.base_url cfg = JStr "https://jsonplaceholder.typicode.com" /\
    config.timeout cfg = JInt 30 /\
    config.retry_count cfg = JInt 3 /\
    config.retry_delay cfg = JInt 1 /\
    config.headers cfg = JObj [("Content-Type", JStr "application/json");
                               ("Accept", JStr "application/json")].
Proof.
  intros [[m ->]|[m ->]]; eexists; (split; [reflexivity|]);
    (split; [intros ->; reflexivity|]); repeat split.
Qed.

Lemma config_falls_back_witness :
  exists cfg : config.Config,
    config.__init__ (Some "dev") None "config/environments.json"
                    (Raise (FileNotFoundError "No such file or directory")) tt []
      = (Ok cfg, tt,
         [LogEntry WARNING "Config file not found: config/environments.json"]) /\
    config.base_url cfg = JStr "https://jsonplaceholder.typicode.com".
Proof.
  destruct (config_falls_back_to_defaults (Some "dev") None "config/environments.json"
              (FileNotFoundError "No such file or directory") []
              (or_introl (ex_intro _ "No such file or directory" eq_refl)))
    as [cfg [Hrun [_ [_ [Hurl _]]]]].
  exists cfg. split; [exact Hrun | exact Hurl].
Defined.

(** ** The request dispatcher *)

Section Dispatcher.
Context `{Libs}.

Lemma log_request_run (self : APIClient) (method url : string)
    (headers : option (gmap string json)) (data : json) (l : list entry) :
  _log_request method url headers data self l
  = (Ok tt, self, l ++ request_entries self method url headers data).
Proof.
  unfold _log_request, request_entries, mbind, M_bind, bind, get_state, log, mret, M_ret, ret.
  destruct (truthy data); simpl; rewrite <- ?app_assoc; reflexivity.
Qed.

(** When the transport raises, [request] raises the same exception; only an
    exception of class [RequestException] is timed and logged first. *)
Lemma request_raise (env : Env) (a : Args) (self : APIClient) (l : list entry)
    (url : string) (e : exn) :
  _build_url self (endpoint a) = Ok url ->
  net env (session self) (call_of env a url) = Raise e ->
  request env a self l =
    if is_request_exception e
    then (Raise e, set_response_time (t_end env - t_start env)%Q self,
          before_call self a url l ++
            [LogEntry ERROR ("❌ Request failed: " +:+ str_of_exn e)])
    else (Raise e, self, before_call self a url l).
Proof.
  intros Hurl Hnet.
  unfold request, mbind, M_bind, bind, get_state, lift, try_except.
  rewrite Hurl, log_request_run, Hnet. fold (before_call self a url l).
  destruct (is_request_exception e); reflexivity.
Qed.

(** When the transport returns a response, [request] returns it, having
    stored it and the elapsed time and logged it. *)
Lemma request_return (env : Env) (a : Args) (self : APIClient) (l : list entry)
    (url : string) (r : Response) :
  _build_url self (endpoint a) = Ok url ->
  net env (session self) (call_of env a url) = Ok r ->
  request env a self l =
    (Ok r,
     set_last_response (Some r) (set_response_time (t_end env - t_start env)%Q self),
     before_call self a url l ++ response_entries r (t_end env - t_start env)%Q).
Proof.
  intros Hurl Hnet.
  unfold request, mbind, M_bind, bind, get_state, lift, try_except.
  rewrite Hurl, log_request_run, Hnet. fold (before_call self a url l).
  unfold modify, _log_response, response_entries, Response_json, try_except,
    mbind, M_bind, bind, log, lift, mret, M_ret, ret.
  destruct (json_body r) as [j|]; simpl;
    try destruct (negb (String.eqb (text r) "")); simpl;
    rewrite <- ?app_assoc; simpl; rewrite ?app_nil_r; reflexivity.
Qed.

End Dispatcher.

Section DispatcherClaims.
Context `{Libs}.

(** C4: whatever exception the transport call raises, [request] raises that
    same exception, neither swallowed nor wrapped; for a transport error
    (the [RequestException] class the handler names) the last line logged
    before it propagates is the error-level "Request failed" line; and a
    response the transport returns is returned as it is, whatever its
    status code, 4xx and 5xx included. *)
Theorem request_reraises_transport_errors (env : Env) (a : Args)
    (self : APIClient) (l : list entry) (url : string) :
  _build_url self (endpoint a) = Ok url ->
  (forall e : exn,
     net env (session self) (call_of env a url) = Raise e ->
     (request env a self l).1.1 = Raise e /\
     (is_request_exception e = true ->
      (request env a self l).2 =
        before_call self a url l ++
          [LogEntry ERROR ("❌ Request failed: " +:+ str_of_exn e)])) /\
  (forall r : Response,
     net env (session self) (call_of env a url) = Ok r ->
     (request env a self l).1.1 = Ok r).
Proof.
  intros Hurl. split.
  - intros e Hnet. rewrite (request_raise env a self l url e Hurl Hnet).
    destruct (is_request_exception e); split; try reflexivity; discriminate.
  - intros r Hnet. rewrite (request_return env a self l url r Hurl Hnet).
    reflexivity.
Qed.

(** C10: when the transport call raises a transport error, the exception
    propagates with [last_response] exactly as it was before the call and
    [response_time] overwritten with the elapsed time of the failed call;
    [last_response] is [None] on a fresh client and the returned response
    after a call that returned, so after a failure it still describes the
    earlier call. *)
Theorem failed_request_keeps_last_response (env : Env) (a : Args)
    (self : APIClient) (l : list entry) (url : string) :
  _build_url self (endpoint a) = Ok url ->
  (forall e : exn,
     net env (session self) (call_of env a url) = Raise e ->
     is_request_exception e = true ->
     (request env a self l).1.1 = Raise e /\
     last_response (request env a self l).1.2 = last_response self /\
     response_time (request env a self l).1.2 = (t_end env - t_start env)%Q) /\
  (forall r : Response,
     net env (session self) (call_of env a url) = Ok r ->
     last_response (request env a self l).1.2 = Some r /\
     response_time (request env a self l).1.2 = (t_end env - t_start env)%Q) /\
  (forall cfg b h fresh,
     __init__ cfg b h = Ok fresh ->
     last_response fresh = None /\ response_time fresh = 0%Q).
Proof.
  intros Hurl. split; [|split].
  - intros e Hnet He. rewrite (request_raise env a self l url e Hurl Hnet), He.
    repeat split.
  - intros r Hnet. rewrite (request_return env a self l url r Hurl Hnet).
    repeat split.
  - intros cfg b h fresh. unfold __init__.
    destruct (_create_session _ _); [|discriminate].
    intros [= <-]. split; reflexivity.
Qed.

(** C9: a per-call timeout other than 0 is the timeout of the transport
    call; when the argument is omitted, and also when it is 0, the transport
    call gets the configuration's timeout; and the response the transport
    gives to that call is what [request] returns. *)
Theorem request_timeout_or_default (env : Env) (a : Args)
    (self : APIClient) (l : list entry) (url : string) :
  (forall t : Z, timeout a = Some t -> t <> 0 ->
     call_timeout (call_of env a url) = JInt t) /\
  (timeout a = None ->
     call_timeout (call_of env a url) = config.timeout (config_instance env)) /\
  (timeout a = Some 0 ->
     call_timeout (call_of env a url) = config.timeout (config_instance env)) /\
  (forall r : Response,
     _build_url self (endpoint a) = Ok url ->
     net env (session self) (call_of env a url) = Ok r ->
     (request env a self l).1.1 = Ok r).
Proof.
  unfold call_of, py_or. simpl. repeat split.
  - intros t -> Ht. simpl. destruct (Z.eqb_spec t 0); [contradiction|reflexivity].
  - intros ->. reflexivity.
  - intros ->. reflexivity.
  - intros r Hurl Hnet. rewrite (request_return env a self l url r Hurl Hnet).
    reflexivity.
Qed.

End DispatcherClaims.

Lemma request_reraises_witness :
  (request (H := simple_libs) refusing_env get_users example_client []).1.1
    = Raise (RequestException "Connection refused") /\
  (request (H := simple_libs) answering_env get_users example_client []).1.1
    = Ok not_found.
Proof.
  split.
  - exact (proj1 (proj1 (request_reraises_transport_errors (H := simple_libs)
                           refusing_env get_users example_client []
                           "https://api.example.com/users/1" eq_refl)
                        (RequestException "Connection refused") eq_refl)).
  - exact (proj2 (request_reraises_transport_errors (H := simple_libs)
                    answering_env get_users example_client []
                    "https://api.example.com/users/1" eq_refl)
                 not_found eq_refl).
Defined.

Lemma answered_client_run :
  (request (H := simple_libs) answering_env get_users example_client []).1.2
  = answered_client.
Proof. reflexivity. Qed.

Lemma failed_request_witness :
  last_response (request (H := simple_libs) refusing_env get_users answered_client []).1.2
    = Some not_found /\
  response_time (request (H := simple_libs) refusing_env get_users answered_client []).1.2
    = ((25 # 2) - (10 # 1))%Q.
Proof.
  destruct (proj1 (failed_request_keeps_last_response (H := simple_libs)
                     refusing_env get_users answered_client []
                     "https://api.example.com/users/1" eq_refl)
                  (RequestException "Connection refused") eq_refl eq_refl)
    as [_ [Hlast Htime]].
  split; [exact Hlast | exact Htime].
Defined.

Lemma request_timeout_witness :
  call_timeout (call_of refusing_env
                  (MkArgs "GET" "/users/1" None JNull JNull JNull (Some 5))
                  "https://api.example.com/users/1") = JInt 5 /\
  call_timeout (call_of refusing_env get_users "https://api.example.com/users/1")
    = JInt 30.
Proof.
  split.
  - apply (proj1 (request_timeout_or_default (H := simple_libs) refusing_env
                    (MkArgs "GET" "/users/1" None JNull JNull JNull (Some 5))
                    example_client [] "https://api.example.com/users/1") 5 eq_refl).
    discriminate.
  - exact (proj1 (proj2 (request_timeout_or_default (H := simple_libs) refusing_env
                           get_users example_client []
                           "https://api.example.com/users/1")) eq_refl).
Defined.

(** A per-call timeout of 0 is given, and the transport call carries the
    configuration's 30 instead. *)
Lemma zero_timeout_replaced_by_default :
  timeout (MkArgs "GET" "/users/1" None JNull JNull JNull (Some 0)) = Some 0 /\
  call_timeout (call_of refusing_env
                  (MkArgs "GET" "/users/1" None JNull JNull JNull (Some 0))
                  "https://api.example.com/users/1") = JInt 30 /\
  JInt 30 <> JInt 0.
Proof. repeat split. discriminate. Qed.

(** ** Persistent headers *)

Lemma same_header_refl (a : string) : same_header a a = true.
Proof. apply String.eqb_refl. Qed.

Lemma same_header_false (a b : string) :
  same_header a b = false -> lower a <> lower b.
Proof.
  unfold same_header. intros Hne Heq. rewrite Heq, String.eqb_refl in Hne. discriminate.
Qed.

Lemma ci_get_set (key : string) (value : json) (h : CaseInsensitiveDict) :
  ci_get key (ci_set key value h) = Some value.
Proof.
  unfold ci_get, ci_set.
  rewrite (lookup_insert_eq (M := gmap string) h (lower key) (key, value)).
  reflexivity.
Qed.

(** Per-call headers that do not carry a name leave its entry alone. *)
Lemma ci_update_other (items : list (string * json)) (h : CaseInsensitiveDict)
    (name : string) :
  existsb (fun kv => same_header kv.1 name) items = false ->
  ci_update h items !! lower name = h !! lower name.
Proof.
  unfold ci_update. revert h.
  induction items as [|[k v] items IH]; intros h Hex; simpl in *; [reflexivity|].
  apply orb_false_elim in Hex as [Hk Hrest].
  rewrite (IH _ Hrest). unfold ci_set. simpl.
  apply lookup_insert_ne. apply same_header_false. exact Hk.
Qed.

Section Headers.
Context `{Libs}.

(** [request] never touches the session. *)
Lemma request_session (env : Env) (a : Args) (self : APIClient) (l : list entry) :
  session (request env a self l).1.2 = session self.
Proof.
  destruct (_build_url self (endpoint a)) as [url|e] eqn:Hurl.
  - destruct (net env (session self) (call_of env a url)) as [r|e] eqn:Hnet.
    + rewrite (request_return env a self l url r Hurl Hnet). reflexivity.
    + rewrite (request_raise env a self l url e Hurl Hnet).
      destruct (is_request_exception e); reflexivity.
  - unfold request, mbind, M_bind, bind, get_state, lift. rewrite Hurl. reflexivity.
Qed.

Lemma step_keeps_header (name : string) (o : op) (st : APIClient * list entry) :
  writes_header name o = false ->
  session_headers (session (step st o).1) !! lower name
  = session_headers (session st.1) !! lower name.
Proof.
  destruct st as [c l]. destruct o as [env a| | |key value|key]; simpl; intros Hw.
  - unfold mbind, M_bind, bind. pose proof (request_session env a c l) as Hs.
    destruct (request env a c l) as [[[r|e] c'] l']; simpl in *; rewrite Hs; reflexivity.
  - apply lookup_insert_ne. intros Heq.
    apply (same_header_false _ _ Hw). symmetry. exact Heq.
  - reflexivity.
  - apply lookup_insert_ne. apply same_header_false. exact Hw.
  - unfold remove_header, mbind, M_bind, bind, get_state. simpl.
    destruct (ci_in key (session_headers (session c))); simpl; [|reflexivity].
    apply lookup_delete_ne. apply same_header_false. exact Hw.
Qed.

(** Only [set_basic_auth] assigns the session's [auth]. *)
Lemma step_keeps_auth (o : op) (st : APIClient * list entry) :
  (forall username password, o <> SetBasicAuth username password) ->
  auth (session (step st o).1) = auth (session st.1).
Proof.
  destruct st as [c l].
  destruct o as [env a| |username password|key value|key]; simpl; intros Hw;
    try reflexivity.
  - unfold mbind, M_bind, bind. pose proof (request_session env a c l) as Hs.
    destruct (request env a c l) as [[[r|e] c'] l']; simpl in *; rewrite Hs; reflexivity.
  - exfalso. apply (Hw username password). reflexivity.
  - unfold remove_header, mbind, M_bind, bind, get_state. simpl.
    destruct (ci_in key (session_headers (session c))); reflexivity.
Qed.

(** After [remove_header] the session holds no header of that name. *)
Lemma remove_header_lookup (key : string) (c : APIClient) (l : list entry) :
  session_headers (session (remove_header key c l).1.2) !! lower key = None.
Proof.
  unfold remove_header, mbind, M_bind, bind, get_state, ci_in.
  case_bool_decide as Hin; simpl.
  - apply lookup_delete_eq.
  - destruct (session_headers (session c) !! lower key) eqn:E; [|reflexivity].
    exfalso. apply Hin. eexists. reflexivity.
Qed.

Lemma run_ops_keep_header (name : string) (ops : list op)
    (st : APIClient * list entry) :
  forallb (fun o => negb (writes_header name o)) ops = true ->
  session_headers (session (run_ops st ops).1) !! lower name
  = session_headers (session st.1) !! lower name.
Proof.
  unfold run_ops. revert st.
  induction ops as [|o ops IH]; intros st Hops; simpl in *; [reflexivity|].
  apply andb_prop in Hops as [Ho Hops].
  rewrite (IH _ Hops). apply step_keeps_header.
  destruct (writes_header name o); [discriminate|reflexivity].
Qed.

Lemma run_ops_keep_auth (ops : list op) (st : APIClient * list entry) :
  forallb (fun o => negb (writes_header "Authorization" o)) ops = true ->
  auth (session (run_ops st ops).1) = auth (session st.1).
Proof.
  unfold run_ops. revert st.
  induction ops as [|o ops IH]; intros st Hops; [reflexivity|].
  cbn [foldl forallb] in *.
  apply andb_prop in Hops as [Ho Hops].
  rewrite (IH _ Hops). apply step_keeps_auth.
  intros username password ->. discriminate.
Qed.

End Headers.

Section HeaderClaims.
Context `{Libs}.
Variable basic_auth_str : string -> string -> string.

(** What a call that carries no header [name] of its own is sent with under
    that name, when no credentials apply: the session's entry, unless its
    value is [None]. *)
Lemma sent_without_credentials (name : string)
    (environment_auth : option (string * string)) (s : Session) (call : SessionCall) :
  transport.credentials environment_auth s = None ->
  carries name (call_headers call) = false ->
  transport.sent_headers basic_auth_str environment_auth s call !! lower name
  = session_headers s !! lower name ≫=
      (fun item : string * json =>
         match item.2 with JNull => None | _ => Some item end).
Proof.
  unfold carries, transport.sent_headers. intros -> Hex.
  etrans; [apply lookup_omap|].
  rewrite (ci_update_other (default [] (call_headers call)) _ name); [reflexivity|].
  destruct (call_headers call); [exact Hex|reflexivity].
Qed.

(** With credentials, the Basic header is what is sent. *)
Lemma sent_with_credentials (environment_auth : option (string * string))
    (s : Session) (call : SessionCall) (username password : string) :
  transport.credentials environment_auth s = Some (username, password) ->
  ci_get "Authorization" (transport.sent_headers basic_auth_str environment_auth s call)
  = Some (JStr (basic_auth_str username password)).
Proof.
  unfold transport.sent_headers. intros ->. apply ci_get_set.
Qed.

(** C6: after [set_auth_token("abc")], and after any further calls and
    header changes that do not decide [Authorization] or the client's
    authentication anew, every call whose own headers carry no
    [Authorization] (in any letter case) is sent with
    [Authorization: Bearer abc], as long as no Basic credentials apply to
    it; after a following [remove_header("Authorization")], and again any
    such operations, such a call is sent without an [Authorization] header.
    When Basic credentials apply (the session's [auth] pair, or else the
    environment's), the call is sent with the Basic header instead, before
    the removal and after it. *)
Theorem auth_token_sent_until_removed (c : APIClient) (l : list entry)
    (ops1 ops2 : list op) (environment_auth : option (string * string))
    (call : SessionCall) :
  forallb (fun o => negb (writes_header "Authorization" o)) ops1 = true ->
  forallb (fun o => negb (writes_header "Authorization" o)) ops2 = true ->
  carries "Authorization" (call_headers call) = false ->
  let st1 := run_ops (step (c, l) (SetAuthToken "abc" "Bearer")) ops1 in
  let st2 := run_ops (step st1 (RemoveHeader "Authorization")) ops2 in
  let sent (client : APIClient) :=
    ci_get "Authorization"
           (transport.sent_headers basic_auth_str environment_auth (session client)
                                   call) in
  match transport.credentials environment_auth (session c) with
  | None =>
      sent st1.1 = Some (JStr "Bearer abc") /\ sent st2.1 = None
  | Some (username, password) =>
      sent st1.1 = Some (JStr (basic_auth_str username password)) /\
      sent st2.1 = Some (JStr (basic_auth_str username password))
  end.
Proof.
  intros Hops1 Hops2 Hh st1 st2 sent.
  assert (Hauth1 : auth (session st1.1) = auth (session c)).
  { subst st1. rewrite run_ops_keep_auth by assumption. reflexivity. }
  assert (Hauth2 : auth (session st2.1) = auth (session c)).
  { subst st2. rewrite run_ops_keep_auth by assumption.
    rewrite step_keeps_auth by discriminate. exact Hauth1. }
  assert (H1 : session_headers (session st1.1) !! lower "Authorization"
               = Some ("Authorization", JStr "Bearer abc")).
  { subst st1. rewrite run_ops_keep_header by assumption.
    simpl. apply lookup_insert_eq. }
  assert (H2 : session_headers (session st2.1) !! lower "Authorization" = None).
  { subst st2. rewrite run_ops_keep_header by assumption.
    apply (remove_header_lookup "Authorization" st1.1 st1.2). }
  clearbody st1 st2. subst sent. cbv beta.
  assert (Hcred : forall client : APIClient,
            auth (session client) = auth (session c) ->
            transport.credentials environment_auth (session client)
            = transport.credentials environment_auth (session c)).
  { intros client Hauth. unfold transport.credentials. rewrite Hauth. reflexivity. }
  destruct (transport.credentials environment_auth (session c))
    as [[username password]|] eqn:Hc.
  - split; apply sent_with_credentials; apply Hcred; assumption.
  - unfold ci_get.
    rewrite !(sent_without_credentials "Authorization")
      by (try apply Hcred; assumption).
    rewrite H1, H2. split; reflexivity.
Qed.

End HeaderClaims.

Lemma auth_token_witness :
  ci_get "Authorization"
    (transport.sent_headers simple_basic_auth_str None
       (session
          (run_ops (H := simple_libs)
             (step (H := simple_libs) (example_client, [])
                   (SetAuthToken "abc" "Bearer"))
             [Call refusing_env get_users; AddHeader "X-Trace" "1"]).1)
       (call_of refusing_env get_users "https://api.example.com/users/1"))
  = Some (JStr "Bearer abc").
Proof.
  exact (proj1 (auth_token_sent_until_removed (H := simple_libs)
                  simple_basic_auth_str example_client []
                  [Call refusing_env get_users; AddHeader "X-Trace" "1"] [] None
                  (call_of refusing_env get_users "https://api.example.com/users/1")
                  eq_refl eq_refl eq_refl)).
Defined.

(** A call that passes its own [Authorization] header right after
    [set_auth_token("abc")] is sent with its own value, not the token, and
    is still sent with it after the removal. *)
Lemma per_call_authorization_wins :
  let own :=
    MkCall "GET" "https://api.example.com/users/1"
           (Some [("Authorization", JStr "Token xyz")]) JNull JNull JNull (JInt 30) in
  ci_get "Authorization"
    (transport.sent_headers simple_basic_auth_str None
       (session (step (H := simple_libs) (example_client, [])
                      (SetAuthToken "abc" "Bearer")).1) own)
  = Some (JStr "Token xyz") /\
  ci_get "Authorization"
    (transport.sent_headers simple_basic_auth_str None
       (session (step (H := simple_libs)
                   (step (H := simple_libs) (example_client, [])
                         (SetAuthToken "abc" "Bearer"))
                   (RemoveHeader "Authorization")).1) own)
  = Some (JStr "Token xyz") /\
  JStr "Token xyz" <> JStr "Bearer abc".
Proof. split; [|split]; [vm_compute; reflexivity..|discriminate]. Qed.

(** On a client whose Basic authentication was set before,
    [set_auth_token("abc")] does not decide what is sent: the call goes out
    with the Basic header, and still does after the removal. *)
Lemma basic_auth_replaces_token :
  let with_basic :=
    step (H := simple_libs)
      (step (H := simple_libs) (example_client, []) (SetBasicAuth "user" "pw"))
      (SetAuthToken "abc" "Bearer") in
  let call := call_of refusing_env get_users "https://api.example.com/users/1" in
  ci_get "Authorization" (session_headers (session with_basic.1))
  = Some (JStr "Bearer abc") /\
  ci_get "Authorization"
    (transport.sent_headers simple_basic_auth_str None (session with_basic.1) call)
  = Some (JStr "Basic dXNlcjpwdw==") /\
  ci_get "Authorization"
    (transport.sent_headers simple_basic_auth_str None
       (session (step (H := simple_libs) with_basic (RemoveHeader "Authorization")).1)
       call)
  = Some (JStr "Basic dXNlcjpwdw==").
Proof. repeat split; vm_compute; reflexivity. Qed.

(** ** The invariant of the configuration *)

Lemma config_update_run `{Libs} (key : string) (value : json)
    (c : config.Config) (l : list entry) :
  config.update key value c l
  = (Ok tt,
     config.MkConfig (config.environment c) (<[key := value]> (config.config_data c)),
     l ++ [LogEntry INFO ("Updated config: " +:+ key +:+ " = " +:+ py_str value)]).
Proof. reflexivity. Qed.

Lemma updated_property (key k : string) (value dflt : json) (data : gmap string json) :
  default dflt (<[key := value]> data !! k)
  = if String.eqb key k then value else default dflt (data !! k).
Proof.
  destruct (String.eqb_spec key k) as [->|Hne].
  - rewrite lookup_insert_eq. reflexivity.
  - rewrite lookup_insert_ne by exact Hne. reflexivity.
Qed.

(** C8: the internal default configuration has non-negative [timeout],
    [retry_count] and [retry_delay] and a [base_url] without trailing slash;
    [Config.update] keeps that whenever the value it writes under one of
    these keys is itself a non-negative integer, respectively a string
    without trailing slash; a loaded file is taken as it is (the mapping is
    the selected environment's entry, unchecked), and [APIClient] stores the
    [base_url] it is given as it is. *)
Theorem config_invariant_kept_by_valid_writes `{Libs} :
  (forall env : string, config_ok (config.MkConfig env config._default_config) = true) /\
  (forall (c : config.Config) (l : list entry) (key : string) (value : json),
     config_ok c = true -> value_ok key value = true ->
     config_ok (config.update key value c l).1.2 = true) /\
  (forall (arg env_var : option string) (config_file : string)
          (all_configs : gmap string (gmap string json)) (l : list entry),
     exists cfg : config.Config,
       config.__init__ arg env_var config_file (Ok all_configs) tt l = (Ok cfg, tt, l) /\
       config.config_data cfg
       = default (default ∅ (all_configs !! "dev"))
                 (all_configs !! config.environment cfg)) /\
  (forall (cfg : config.Config) (b : string)
          (h : option (list (string * json))) (c : APIClient),
     b <> "" -> __init__ cfg (Some b) h = Ok c -> base_url c = JStr b).
Proof.
  split; [|split; [|split]].
  - intros env. reflexivity.
  - intros c l key value Hc Hv. rewrite config_update_run. simpl.
    unfold config_ok, config.timeout, config.retry_count, config.retry_delay,
      config.base_url in *. simpl.
    rewrite !updated_property.
    apply andb_prop in Hc as [Hc Hurl]. apply andb_prop in Hc as [Hc Hdelay].
    apply andb_prop in Hc as [Htime Hcount].
    unfold value_ok in Hv.
    destruct (String.eqb_spec key "timeout") as [->|_]; simpl.
    { rewrite Hv, Hcount, Hdelay, Hurl. reflexivity. }
    destruct (String.eqb_spec key "retry_count") as [->|_]; simpl.
    { rewrite Hv, Htime, Hdelay, Hurl. reflexivity. }
    destruct (String.eqb_spec key "retry_delay") as [->|_]; simpl.
    { rewrite Hv, Htime, Hcount, Hurl. reflexivity. }
    destruct (String.eqb_spec key "base_url") as [->|_]; simpl.
    { rewrite Hv, Htime, Hcount, Hdelay. reflexivity. }
    rewrite Htime, Hcount, Hdelay, Hurl. reflexivity.
  - intros arg env_var config_file all_configs l. eexists. split; reflexivity.
  - intros cfg b h c Hb. unfold __init__.
    destruct (_create_session _ _); [|discriminate].
    intros [= <-]. simpl. unfold py_or. simpl.
    destruct (String.eqb_spec b ""); [contradiction|reflexivity].
Qed.

Lemma config_invariant_witness :
  config_ok (config.update (H := simple_libs) "timeout" (JInt 5) default_config []).1.2
    = true /\
  (exists c, __init__ (H := simple_libs) default_config (Some "https://reqres.in/api") None
             = Ok c /\ base_url c = JStr "https://reqres.in/api").
Proof.
  destruct (config_invariant_kept_by_valid_writes (H := simple_libs))
    as [_ [Hupd [_ Hinit]]].
  split.
  - apply Hupd; reflexivity.
  - eexists. split; [reflexivity|].
    apply (Hinit default_config "https://reqres.in/api" None); [discriminate|reflexivity].
Defined.

(** Nothing checks what is written or loaded: an update makes the timeout
    negative, a file with one environment loads a negative retry count, and
    a client keeps the trailing slash of the base URL it was given. *)
Lemma invariant_not_enforced :
  config_ok default_config = true /\
  config.timeout
    (config.update (H := simple_libs) "timeout" (JInt (-5)) default_config []).1.2
    = JInt (-5) /\
  config_ok
    (config.update (H := simple_libs) "timeout" (JInt (-5)) default_config []).1.2
    = false /\
  (exists cfg,
     config.__init__ (Some "dev") None "config/environments.json"
       (Ok {["dev" := {["retry_count" := JInt (-1)]}]}) tt [] = (Ok cfg, tt, []) /\
     config.retry_count cfg = JInt (-1)) /\
  (exists c,
     __init__ (H := simple_libs) default_config (Some "https://reqres.in/api/") None
       = Ok c /\
     base_url c = JStr "https://reqres.in/api/" /\
     no_trailing_slash (base_url c) = false).
Proof.
  split; [reflexivity|]. split; [reflexivity|]. split; [reflexivity|].
  split; eexists; repeat split; reflexivity.
Qed.

(** ** The retry loop *)

Section Retry.
Import transport.

Lemma attempt_loop_exhausts (statuses : list Z) (methods : list string)
    (backoff : Z) (method : string) (target : nat -> wire) :
  (forall k, retryable statuses methods method (target k) = true) ->
  forall retries first : nat,
    attempts (attempt_loop statuses methods backoff method target retries first)
      = S retries /\
    sleeps (attempt_loop statuses methods backoff method target retries first)
      = map (fun k => backoff * 2 ^ Z.of_nat k) (seq first retries) /\
    exists msg,
      outcome (attempt_loop statuses methods backoff method target retries first)
        = Raise (RequestException msg).
Proof.
  intros Hretry retries.
  induction retries as [|n IH]; intros first; simpl; rewrite Hretry; simpl.
  - repeat split. eexists. reflexivity.
  - destruct (IH (S first)) as [Ha [Hs Ho]].
    rewrite Ha, Hs. repeat split. exact Ho.
Qed.

Lemma attempt_loop_not_retried (statuses : list Z) (methods : list string)
    (backoff : Z) (method : string) (target : nat -> wire)
    (retries first : nat) (r : Response) :
  target first = Answer r ->
  retryable statuses methods method (Answer r) = false ->
  attempt_loop statuses methods backoff method target retries first
  = MkTrace 1 [] (Ok r).
Proof.
  intros Ht Hr. destruct retries; simpl; rewrite Ht, Hr; reflexivity.
Qed.

Lemma existsb_eqb_In (method : string) (methods : list string) :
  In method methods -> existsb (String.eqb method) methods = true.
Proof.
  intros Hin. apply existsb_exists. exists method. split; [exact Hin|].
  apply String.eqb_refl.
Qed.

End Retry.

Section RetryClaims.
Context `{Libs}.
Import transport.

(** C1: on a session built by [_create_session] from a configuration with
    [retry_count = n] and [retry_delay = b], a request whose method is one of
    the retryable methods (HEAD, GET, PUT, DELETE, OPTIONS, TRACE, POST) to a
    target that answers 503 on every attempt is attempted exactly [n + 1]
    times, with a backoff of [b × 2^k] slept after attempt [k], and then
    fails to the caller with a transport error. *)
Theorem retry_exhaustion_takes_n_plus_one_attempts (cfg : config.Config)
    (default_headers : json) (s : Session) (n : nat) (b : Z) (method : string)
    (target : nat -> wire) :
  config.retry_count cfg = JInt (Z.of_nat n) ->
  config.retry_delay cfg = JInt b ->
  _create_session cfg default_headers = Ok s ->
  In method ["HEAD"; "GET"; "PUT"; "DELETE"; "OPTIONS"; "TRACE"; "POST"] ->
  (forall k, exists r, target k = Answer r /\ status_code r = 503) ->
  exists t : Trace,
    send s method target = Some t /\
    attempts t = (n + 1)%nat /\
    sleeps t = map (fun k => b * 2 ^ Z.of_nat k) (seq 0 n) /\
    exists msg, outcome t = Raise (RequestException msg).
Proof.
  intros Hcount Hdelay Hs Hmethod Htarget.
  unfold _create_session in Hs. rewrite Hcount, Hdelay in Hs.
  destruct default_headers; try discriminate. injection Hs as <-.
  unfold send. simpl.
  destruct (Z.leb_spec 0 (Z.of_nat n)) as [_|Hneg]; [|lia].
  rewrite Nat2Z.id. eexists. split; [reflexivity|].
  rewrite Nat.add_1_r. apply attempt_loop_exhausts.
  intros k. destruct (Htarget k) as [r [-> Hstatus]].
  unfold retryable. rewrite Hstatus.
  rewrite (existsb_eqb_In method _ Hmethod). reflexivity.
Qed.

End RetryClaims.

Lemma retry_exhaustion_witness :
  exists t : transport.Trace,
    transport.send (session example_client) "GET" always_unavailable = Some t /\
    transport.attempts t = 4%nat /\
    transport.sleeps t = [1; 2; 4] /\
    exists msg, transport.outcome t = Raise (RequestException msg).
Proof.
  exact (retry_exhaustion_takes_n_plus_one_attempts (H := simple_libs) default_config
           (config.headers default_config) (session example_client) 3 1 "GET"
           always_unavailable eq_refl eq_refl eq_refl
           (or_intror (or_introl eq_refl))
           (fun _ => ex_intro _ unavailable (conj eq_refl eq_refl))).
Defined.

(** A PATCH request under the default configuration ([retry_count] 3) to a
    target that always answers 503 is attempted once, not four times, and
    the caller gets the 503 response, not a failure. *)
Lemma patch_is_not_retried :
  config.retry_count default_config = JInt 3 /\
  _create_session (H := simple_libs) default_config (config.headers default_config)
    = Ok (session example_client) /\
  transport.send (session example_client) "PATCH" always_unavailable
    = Some (transport.MkTrace 1 [] (Ok unavailable)) /\
  (patch (H := simple_libs)
     (MkEnv default_config (retrying_net always_unavailable) (10 # 1) (11 # 1))
     get_users example_client []).1.1 = Ok unavailable.
Proof. repeat split. Qed.

(** ** The assertion layer *)

Import assertions.

(** C5: for a response with status 404, [assert_status_code(response, 200)]
    raises an [AssertionError] that carries one string, the caller's message
    or else "Expected status code 200, got 404"; the only line logged before
    the raise is the info-level "Asserting status code: 200": no error-level
    line is written and neither the URL nor the body is part of the error. *)
Theorem assert_status_code_404 (response : Response) (message : option string)
    (l : list entry) :
  status_code response = 404 ->
  assert_status_code response 200 message tt l
  = (Raise (AssertionError
              (message_or message "Expected status code 200, got 404")),
     tt,
     l ++ [LogEntry INFO "🔍 Asserting status code: 200"]).
Proof.
  intros Hstatus.
  unfold assert_status_code, mbind, M_bind, bind, log, py_assert.
  rewrite Hstatus. reflexivity.
Qed.

Lemma assert_status_code_404_witness :
  assert_status_code not_found 200 None tt []
  = (Raise (AssertionError "Expected status code 200, got 404"), tt,
     [LogEntry INFO "🔍 Asserting status code: 200"]).
Proof. exact (assert_status_code_404 not_found None [] eq_refl). Defined.

(** The failure for the 404 response of "https://api.example.com/users/1"
    names the two codes only, and the log holds no error-level line. *)
Lemma assertion_failure_has_no_url_and_no_error_log :
  status_code not_found = 404 /\
  assert_status_code not_found 200 None tt []
  = (Raise (AssertionError "Expected status code 200, got 404"), tt,
     [LogEntry INFO "🔍 Asserting status code: 200"]) /\
  contains (url not_found) "Expected status code 200, got 404" = false /\
  existsb is_error (assert_status_code not_found 200 None tt []).2 = false.
Proof. repeat split. Qed.

(** The sibling in [utils/advanced_assertions.py] does attach the context and
    log at error level first: for a 404 response checked against 200 the
    raised error carries [actual_status], [expected_status], the URL and the
    first 500 characters of the body, and the record logged before it is an
    error record with that same context. *)
Lemma advanced_assert_status_code_404 (response : Response)
    (message : option string) (records : list advanced_assertions.LogRecord) :
  status_code response = 404 ->
  exists msg context,
    advanced_assertions.assert_status_code response 200 message records
    = (Raise (ContextAssertionError msg context),
       records ++ [advanced_assertions.MkRecord ERROR
                     ("❌ Status code assertion failed: " +:+ msg) (Some context)]) /\
    assoc "actual_status" context = Some (JInt 404) /\
    assoc "expected_status" context = Some (JInt 200) /\
    assoc "url" context = Some (JStr (url response)) /\
    assoc "response_text" context = Some (JStr (substring 0 500 (text response))).
Proof.
  intros Hstatus. unfold advanced_assertions.assert_status_code.
  rewrite Hstatus. simpl. eexists. eexists. repeat split.
Qed.

Section PathClaims.
Context `{Libs}.

Lemma py_eq_none (v : json) : py_eq JNull v = true <-> v = JNull.
Proof. destruct v; simpl; split; congruence. Qed.

Lemma check_types_unresolved (data : json) (message : option string)
    (key_path : string) (expected : pytype)
    (type_mapping : list (string * pytype)) (l : list entry) :
  In (key_path, expected) type_mapping ->
  search key_path data = Ok JNull ->
  (forall p t, In (p, t) type_mapping -> exists v, search p data = Ok v) ->
  exists msg, (check_types data type_mapping message tt l).1.1
              = Raise (AssertionError msg).
Proof.
  intros Hin Hnone. revert l.
  induction type_mapping as [|[p t] rest IH]; intros l Hok; [destruct Hin|].
  simpl. unfold mbind, M_bind, bind, lift.
  destruct (Hok p t (or_introl eq_refl)) as [v Hv]. rewrite Hv.
  assert (Hnull : exists msg,
            ((log ERROR ("❌ " +:+ "Key '" +:+ p +:+ "' not found in response");;
              raise (AssertionError ("Key '" +:+ p +:+ "' not found in response")))
               tt l : result unit * unit * list entry).1.1
            = Raise (AssertionError msg))
    by (eexists; reflexivity).
  assert (Hrest : In (key_path, expected) rest ->
            forall l', exists msg,
              (check_types data rest message tt l').1.1 = Raise (AssertionError msg)).
  { intros Hin' l'. apply (IH Hin' l').
    intros p' t' Hp'. apply (Hok p' t'). right. exact Hp'. }
  destruct Hin as [[= -> ->]|Hin].
  { rewrite Hnone in Hv. injection Hv as <-. exact Hnull. }
  destruct v; try exact Hnull;
    (destruct (isinstance _ t); simpl;
     [unfold log; simpl; apply Hrest; exact Hin | eexists; reflexivity]).
Qed.

(** C7: when the response body decodes and the path search returns no value
    ([None]), [assert_json_key_exists], [assert_json_array_length] and
    [assert_json_types] (for a mapping that names the path and whose
    searches all return) raise [AssertionError]; [assert_json_key_value]
    raises [AssertionError] when the expected value is not [None], and
    passes when it is [None]. *)
Theorem unresolved_path_is_assertion_failure (response : Response) (data : json)
    (key_path : string) (message : option string) (l : list entry) :
  json_body response = Some data ->
  search key_path data = Ok JNull ->
  (exists msg, (assert_json_key_exists response key_path message tt l).1.1
               = Raise (AssertionError msg)) /\
  (forall expected_value : json,
     expected_value <> JNull ->
     exists msg,
       (assert_json_key_value response key_path expected_value message tt l).1.1
       = Raise (AssertionError msg)) /\
  (assert_json_key_value response key_path JNull message tt l).1.1 = Ok tt /\
  (forall expected_length : Z,
     exists msg,
       (assert_json_array_length response key_path expected_length message tt l).1.1
       = Raise (AssertionError msg)) /\
  (forall (type_mapping : list (string * pytype)) (expected : pytype),
     In (key_path, expected) type_mapping ->
     (forall p t, In (p, t) type_mapping -> exists v, search p data = Ok v) ->
     exists msg,
       (assert_json_types response type_mapping message tt l).1.1
       = Raise (AssertionError msg)).
Proof.
  intros Hbody Hnone. repeat split.
  - unfold assert_json_key_exists, not_valid_json, try_except, Response_json,
      mbind, M_bind, bind, lift.
    rewrite Hbody, Hnone. simpl. eexists. reflexivity.
  - intros expected_value Hexp.
    unfold assert_json_key_value, not_valid_json, try_except, Response_json,
      mbind, M_bind, bind, lift.
    rewrite Hbody, Hnone.
    destruct expected_value; [contradiction|..]; simpl; eexists; reflexivity.
  - unfold assert_json_key_value, not_valid_json, try_except, Response_json,
      mbind, M_bind, bind, lift.
    rewrite Hbody, Hnone. reflexivity.
  - intros expected_length.
    unfold assert_json_array_length, not_valid_json, try_except, Response_json,
      mbind, M_bind, bind, lift.
    rewrite Hbody, Hnone. simpl. eexists. reflexivity.
  - intros type_mapping expected Hin Hok.
    destruct (check_types_unresolved data message key_path expected type_mapping l
                Hin Hnone Hok) as [msg Hmsg].
    unfold assert_json_types, not_valid_json, try_except, Response_json,
      mbind, M_bind, bind, lift.
    rewrite Hbody.
    destruct (check_types data type_mapping message tt l) as [[res u] l'].
    simpl in Hmsg. subst res. simpl. exists msg. reflexivity.
Qed.

End PathClaims.

Lemma unresolved_path_witness :
  exists msg,
    (assert_json_key_exists (H := simple_libs) user_response "missing" None tt []).1.1
    = Raise (AssertionError msg).
Proof.
  exact (proj1 (unresolved_path_is_assertion_failure (H := simple_libs) user_response
                  (JObj [("id", JInt 1)]) "missing" None [] eq_refl eq_refl)).
Defined.

(** The path "missing" selects nothing in the body, and
    [assert_json_key_value(response, "missing", None)] passes. *)
Lemma missing_key_equals_none_passes :
  search (Libs := simple_libs) "missing" (JObj [("id", JInt 1)]) = Ok JNull /\
  assert_json_key_value (H := simple_libs) user_response "missing" JNull None tt []
  = (Ok tt, tt,
     [LogEntry INFO "🔍 Asserting key value: missing = None";
      LogEntry INFO "✅ Key value assertion passed: missing = None"]).
Proof. split; reflexivity. Qed.

(** * Further properties of the configuration resolver *)

(** The environment [Config(...)] resolves: the argument when it is a
    non-empty string, else the [ENVIRONMENT] variable, else "dev". *)
Lemma config_environment_name (arg env_var : option string) (config_file : string)
    (read : result (gmap string (gmap string json))) (l : list entry)
    (cfg : config.Config) (l' : list entry) :
  config.__init__ arg env_var config_file read tt l = (Ok cfg, tt, l') ->
  config.environment cfg
  = match arg with
    | Some e => if String.eqb e "" then default "dev" env_var else e
    | None => default "dev" env_var
    end.
Proof.
  unfold config.__init__, mbind, M_bind, bind.
  destruct (config._load_config _ _ _ _ _) as [[[data|e] u] l2]; [|discriminate].
  intros [= <- _]. reflexivity.
Qed.

(** X1: loading a parsed file never raises and logs nothing; the mapping is
    the entry of the resolved environment when the file has one, else the
    entry of "dev", and when the file has neither the mapping is empty, so
    that every property answers with its hard-coded default. *)
Theorem config_environment_selection (arg env_var : option string)
    (config_file : string) (all_configs : gmap string (gmap string json))
    (l : list entry) :
  exists cfg : config.Config,
    config.__init__ arg env_var config_file (Ok all_configs) tt l = (Ok cfg, tt, l) /\
    (forall m, all_configs !! config.environment cfg = Some m ->
               config.config_data cfg = m) /\
    (forall m, all_configs !! config.environment cfg = None ->
               all_configs !! "dev" = Some m -> config.config_data cfg = m) /\
    (all_configs !! config.environment cfg = None ->
     all_configs !! "dev" = None ->
     config.base_url cfg = JStr "https://jsonplaceholder.typicode.com" /\
     config.timeout cfg = JInt 30 /\
     config.retry_count cfg = JInt 3 /\
     config.retry_delay cfg = JInt 1 /\
     config.headers cfg = JObj [("Content-Type", JStr "application/json");
                                ("Accept", JStr "application/json")] /\
     forall key dflt, config.get cfg key dflt = dflt).
Proof.
  eexists. split; [reflexivity|]. simpl. split; [|split].
  - intros m ->. reflexivity.
  - intros m -> ->. reflexivity.
  - intros -> ->. simpl.
    unfold config.base_url, config.timeout, config.retry_count, config.retry_delay,
      config.headers, config.get. simpl. repeat split.
Qed.

Lemma config_environment_selection_witness :
  exists cfg : config.Config,
    config.__init__ (Some "staging") None "config/environments.json"
      (Ok {["dev" := {["timeout" := JInt 10]}]}) tt [] = (Ok cfg, tt, []) /\
    config.timeout cfg = JInt 10 /\
    config.retry_count cfg = JInt 3.
Proof.
  destruct (config_environment_selection (Some "staging") None
              "config/environments.json" {["dev" := {["timeout" := JInt 10]}]} [])
    as [cfg [Hrun [_ [Hdev _]]]].
  exists cfg. split; [exact Hrun|].
  assert (Henv : config.environment cfg = "staging").
  { exact (config_environment_name _ _ _ _ _ _ _ Hrun). }
  rewrite Henv in Hdev.
  assert (Hdata : config.config_data cfg = {["timeout" := JInt 10]}).
  { apply Hdev; reflexivity. }
  unfold config.timeout, config.retry_count. rewrite Hdata. split; reflexivity.
Defined.

(** X2: an exception of [open] or [json.load] other than
    [FileNotFoundError] and [JSONDecodeError] is not handled: [Config(...)]
    raises it unchanged, and nothing is logged. *)
Theorem config_other_errors_propagate (arg env_var : option string)
    (config_file : string) (e : exn) (l : list entry) :
  (forall m, e <> FileNotFoundError m) ->
  (forall m, e <> JSONDecodeError m) ->
  config.__init__ arg env_var config_file (Raise e) tt l = (Raise e, tt, l).
Proof.
  intros Hnf Hjd.
  unfold config.__init__, config._load_config, mbind, M_bind, bind, try_except, lift.
  destruct e; try reflexivity.
  - exfalso. exact (Hnf _ eq_refl).
  - exfalso. exact (Hjd _ eq_refl).
Qed.

Lemma config_other_errors_witness :
  config.__init__ (Some "dev") None "config/environments.json"
    (Raise (OtherError "PermissionError" "Permission denied")) tt []
  = (Raise (OtherError "PermissionError" "Permission denied"), tt, []).
Proof.
  apply config_other_errors_propagate; discriminate.
Defined.

Section ConfigRoundTrip.
Context `{Libs}.

(** X3: [update] followed by [get] reads the written value back, whatever
    the default; every other key reads as before, the environment name is
    kept, a later write under the same key wins, and each update logs
    exactly one info line and never raises. *)
Theorem config_update_then_get (c : config.Config) (l : list entry)
    (key : string) (value : json) :
  (config.update key value c l).1.1 = Ok tt /\
  (config.update key value c l).2
    = l ++ [LogEntry INFO ("Updated config: " +:+ key +:+ " = " +:+ py_str value)] /\
  config.environment (config.update key value c l).1.2 = config.environment c /\
  (forall dflt, config.get (config.update key value c l).1.2 key dflt = value) /\
  (forall k dflt, k <> key ->
     config.get (config.update key value c l).1.2 k dflt = config.get c k dflt) /\
  (forall value' l' dflt,
     config.get
       (config.update key value' (config.update key value c l).1.2 l').1.2 key dflt
     = value').
Proof.
  rewrite config_update_run. simpl. repeat split.
  - intros dflt. unfold config.get. simpl. rewrite lookup_insert_eq. reflexivity.
  - intros k dflt Hk. unfold config.get. simpl.
    rewrite lookup_insert_ne by congruence. reflexivity.
  - intros value' l' dflt. unfold config.get. simpl.
    rewrite lookup_insert_eq. reflexivity.
Qed.

End ConfigRoundTrip.

Lemma config_update_then_get_witness :
  config.get (config.update (H := simple_libs) "timeout" (JInt 5) default_config []).1.2
    "retry_count" JNull = JInt 3.
Proof.
  destruct (config_update_then_get (H := simple_libs) default_config []
              "timeout" (JInt 5)) as [_ [_ [_ [_ [Hother _]]]]].
  rewrite (Hother "retry_count" JNull); [reflexivity | discriminate].
Defined.

(** * Further properties of the client *)

Lemma upper_char_idempotent (a : ascii) : upper_char (upper_char a) = upper_char a.
Proof. destruct a as [[] [] [] [] [] [] [] []]; reflexivity. Qed.

Lemma upper_idempotent (s : string) : upper (upper s) = upper s.
Proof.
  induction s as [|a s IH]; simpl; [reflexivity|].
  rewrite upper_char_idempotent, IH. reflexivity.
Qed.

Section ClientFrame.
Context `{Libs}.

(** X4: [request] assigns only [last_response] and [response_time]: the
    base URL, the default headers and the whole session come out as they
    went in, whatever the transport does; and when the URL cannot be built
    the exception leaves [request] before anything is logged, timed or sent,
    with the client untouched. *)
Theorem request_frame (env : Env) (a : Args) (self : APIClient) (l : list entry) :
  base_url (request env a self l).1.2 = base_url self /\
  default_headers (request env a self l).1.2 = default_headers self /\
  session (request env a self l).1.2 = session self /\
  (forall e, _build_url self (endpoint a) = Raise e ->
             request env a self l = (Raise e, self, l)).
Proof.
  destruct (_build_url self (endpoint a)) as [url|e] eqn:Hurl.
  - destruct (net env (session self) (call_of env a url)) as [r|e] eqn:Hnet.
    + rewrite (request_return env a self l url r Hurl Hnet).
      repeat split. discriminate.
    + rewrite (request_raise env a self l url e Hurl Hnet).
      destruct (is_request_exception e); repeat split; discriminate.
  - assert (Hrun : request env a self l = (Raise e, self, l)).
    { unfold request, mbind, M_bind, bind, get_state, lift. rewrite Hurl. reflexivity. }
    rewrite Hrun. repeat split. intros e' [= <-]. reflexivity.
Qed.

(** X5: the case of the method name does not matter: [request] with a
    method and with its upper-case form log the same lines, make the same
    transport call and leave the same client and result. *)
Theorem request_method_case_insensitive (env : Env) (a : Args) (m : string) :
  request env (with_method m a) = request env (with_method (upper m) a).
Proof.
  unfold request, call_of, _log_request, with_method. simpl.
  rewrite upper_idempotent. reflexivity.
Qed.

Lemma max_retries_step (st : APIClient * list entry) (o : op) :
  max_retries (session (step st o).1) = max_retries (session st.1).
Proof.
  destruct st as [c l]. destruct o as [env a| | | |key]; simpl; try reflexivity.
  - unfold mbind, M_bind, bind.
    pose proof (request_session env a c l) as Hs.
    destruct (request env a c l) as [[[r|e] c'] l']; simpl in *; rewrite Hs; reflexivity.
  - unfold remove_header, mbind, M_bind, bind, get_state. simpl.
    destruct (ci_in key (session_headers (session c))); reflexivity.
Qed.

(** X6: the retry strategy of a client is the one built from the
    configuration at construction, with [retry_count] as [total] and
    [retry_delay] as [backoff_factor], and no sequence of calls, header
    changes and authentication changes alters it; a later [Config.update]
    of the timeout, in contrast, is what the next call without a per-call
    timeout sends. *)
Theorem retry_strategy_fixed_at_construction (cfg : config.Config)
    (b : option string) (h : option (list (string * json))) (c : APIClient) :
  __init__ cfg b h = Ok c ->
  (forall (l : list entry) (ops : list op),
     max_retries (session (run_ops (c, l) ops).1)
     = MkRetry (config.retry_count cfg) (config.retry_delay cfg)
               [429; 500; 502; 503; 504]
               ["HEAD"; "GET"; "PUT"; "DELETE"; "OPTIONS"; "TRACE"; "POST"]) /\
  (forall (value : json) (l : list entry) (env : Env) (a : Args) (url : string),
     config_instance env = (config.update "timeout" value cfg l).1.2 ->
     timeout a = None ->
     call_timeout (call_of env a url) = value).
Proof.
  intros Hinit. split.
  - intros l ops.
    assert (Hc : max_retries (session c)
                 = MkRetry (config.retry_count cfg) (config.retry_delay cfg)
                     [429; 500; 502; 503; 504]
                     ["HEAD"; "GET"; "PUT"; "DELETE"; "OPTIONS"; "TRACE"; "POST"]).
    { unfold __init__, _create_session in Hinit.
      destruct (py_or (opt_dict h) (config.headers cfg)); try discriminate.
      injection Hinit as <-. reflexivity. }
    rewrite <- Hc. unfold run_ops.
    change c with (c, l).1 at 2. generalize (c, l). clear.
    induction ops as [|o ops IH]; intros st; simpl; [reflexivity|].
    rewrite IH. apply max_retries_step.
  - intros value l env a url Henv Hnone.
    unfold call_of. simpl. rewrite Hnone, Henv, config_update_run. simpl.
    unfold py_or, config.timeout. simpl. rewrite lookup_insert_eq. reflexivity.
Qed.

End ClientFrame.

Lemma request_frame_witness :
  request (H := simple_libs) refusing_env get_users
    (MkClient (JInt 7) (default_headers example_client) (session example_client)
              None 0%Q) []
  = (Raise (AttributeError "object has no attribute 'rstrip'"),
     MkClient (JInt 7) (default_headers example_client) (session example_client)
              None 0%Q, []).
Proof.
  apply (request_frame (H := simple_libs)). reflexivity.
Defined.

Lemma retry_strategy_witness :
  total (max_retries (session
    (run_ops (H := simple_libs) (example_client, [])
       [Call answering_env get_users; SetAuthToken "abc" "Bearer";
        RemoveHeader "Accept"]).1)) = JInt 3.
Proof.
  rewrite (proj1 (retry_strategy_fixed_at_construction (H := simple_libs)
                    default_config (Some "https://api.example.com") None
                    example_client eq_refl)).
  reflexivity.
Defined.

(** ** Header mutators *)

Lemma ci_get_none (key : string) (h : CaseInsensitiveDict) :
  ci_get key h = None <-> h !! lower key = None.
Proof.
  unfold ci_get. destruct (h !! lower key); split; intros Heq;
    try discriminate; reflexivity.
Qed.

Lemma ci_in_spelling (key key' : string) (h : CaseInsensitiveDict) :
  lower key' = lower key -> ci_in key' h = ci_in key h.
Proof. unfold ci_in. intros ->. reflexivity. Qed.

Lemma ci_in_get (key : string) (h : CaseInsensitiveDict) :
  ci_in key h = match ci_get key h with Some _ => true | None => false end.
Proof.
  unfold ci_in, ci_get. case_bool_decide as Hin.
  - destruct Hin as [x ->]. reflexivity.
  - destruct (h !! lower key) eqn:E; [|reflexivity].
    exfalso. apply Hin. eexists. reflexivity.
Qed.

(** X7: the session holds its headers without regard to the case of their
    names.  For two spellings of one name: [remove_header] under one
    spelling changes nothing and logs nothing when the session holds no
    header under the other, and otherwise deletes that header and logs one
    debug line; [add_header] followed by [remove_header] under another
    spelling leaves the session headers as they were without that name
    (exactly as they were when the name was absent) and everything else of
    the client untouched; and of two [add_header] calls the later value
    stays, under the later spelling. *)
Theorem add_then_remove_header (c : APIClient) (l : list entry)
    (key key' value : string) :
  lower key' = lower key ->
  (ci_get key (session_headers (session c)) = None ->
   remove_header key' c l = (Ok tt, c, l)) /\
  (forall held, ci_get key (session_headers (session c)) = Some held ->
     (remove_header key' c l).1.1 = Ok tt /\
     (remove_header key' c l).2 = l ++ [LogEntry DEBUG ("Removed header: " +:+ key')] /\
     ci_get key (session_headers (session (remove_header key' c l).1.2)) = None) /\
  (let c1 := (add_header key value c l).1.2 in
   let c2 := (remove_header key' c1 (add_header key value c l).2).1.2 in
   ci_get key' (session_headers (session c1)) = Some (JStr value) /\
   session_headers (session c2) = ci_del key (session_headers (session c)) /\
   (ci_get key (session_headers (session c)) = None ->
    session_headers (session c2) = session_headers (session c)) /\
   base_url c2 = base_url c /\ default_headers c2 = default_headers c /\
   auth (session c2) = auth (session c) /\
   max_retries (session c2) = max_retries (session c) /\
   last_response c2 = last_response c /\ response_time c2 = response_time c) /\
  (forall value' l',
     session_headers
       (session (add_header key' value' (add_header key value c l).1.2 l').1.2)
       !! lower key
     = Some (key', JStr value')).
Proof.
  intros Hcase. split; [|split; [|split]].
  - intros Hnone. unfold remove_header, mbind, M_bind, bind, get_state.
    rewrite (ci_in_spelling key key' _ Hcase), ci_in_get, Hnone. reflexivity.
  - intros held Hheld. unfold remove_header, mbind, M_bind, bind, get_state.
    rewrite (ci_in_spelling key key' _ Hcase), ci_in_get, Hheld. simpl.
    repeat split. apply ci_get_none. unfold ci_del. rewrite Hcase.
    apply lookup_delete_eq.
  - cbv zeta.
    assert (Hheld : ci_get key (session_headers (session (add_header key value c l).1.2))
                    = Some (JStr value)).
    { simpl. apply ci_get_set. }
    assert (Hheld' : ci_get key' (session_headers (session (add_header key value c l).1.2))
                     = Some (JStr value)).
    { rewrite <- Hheld. unfold ci_get. rewrite Hcase. reflexivity. }
    split; [exact Hheld'|]. clear Hheld'.
    unfold remove_header, mbind, M_bind, bind, get_state.
    rewrite (ci_in_spelling key key' _ Hcase), ci_in_get, Hheld. simpl.
    assert (Hdel : ci_del key' (ci_set key (JStr value) (session_headers (session c)))
                   = ci_del key (session_headers (session c))).
    { unfold ci_del, ci_set. rewrite Hcase.
      apply (delete_insert_eq (M := gmap string)). }
    rewrite Hdel. split; [reflexivity|split].
    + intros Hnone. unfold ci_del. apply (delete_id (M := gmap string)).
      apply ci_get_none. exact Hnone.
    + repeat split.
  - intros value' l'. simpl. unfold ci_set. rewrite Hcase.
    apply (lookup_insert_eq (M := gmap string)).
Qed.

Lemma add_then_remove_header_witness :
  (remove_header "accept" example_client []).2
  = [LogEntry DEBUG "Removed header: accept"] /\
  ci_get "Accept"
    (session_headers (session (remove_header "accept" example_client []).1.2))
  = None.
Proof.
  apply (proj1 (proj2 (add_then_remove_header example_client [] "Accept" "accept" ""
                         eq_refl))
           (JStr "application/json")).
  reflexivity.
Defined.

(** ** Accessors of the last response *)

Section AccessorClaims.
Context `{Libs}.
Variable response_bool : Response -> bool.

(** X8: with the truth value [requests] gives a response (its [ok] flag),
    the accessors of the last response answer for a response below 400
    only: after a call that was answered with a 4xx or 5xx response the
    client holds that response in [last_response], yet [get_status_code]
    is 0, [get_response_text] is empty, [get_response_headers] is empty and
    [get_response_json] is the empty dictionary, as on a fresh client; after
    a call answered with a status from 0 to 399 they return the response's
    own status, text and headers. *)
Theorem accessors_ignore_error_responses (env : Env) (a : Args)
    (self : APIClient) (l : list entry) (url : string) (r : Response) :
  (forall x, response_bool x = requests_ok x) ->
  _build_url self (endpoint a) = Ok url ->
  net env (session self) (call_of env a url) = Ok r ->
  let after := (request env a self l).1.2 in
  last_response after = Some r /\
  (400 <= status_code r < 600 ->
   get_status_code response_bool after = 0 /\
   get_response_text response_bool after = "" /\
   get_response_headers response_bool after = ∅ /\
   forall l', get_response_json response_bool after l' = (Ok (JObj []), after, l')) /\
  (0 <= status_code r < 400 ->
   get_status_code response_bool after = status_code r /\
   get_response_text response_bool after = text r /\
   get_response_headers response_bool after = resp_headers r).
Proof.
  intros Hbool Hurl Hnet after. subst after.
  rewrite (request_return env a self l url r Hurl Hnet). simpl.
  split; [reflexivity|].
  unfold get_status_code, get_response_text, get_response_headers,
    get_response_json, truthy_last_response, mbind, M_bind, bind, get_state.
  simpl. rewrite Hbool. unfold requests_ok. split.
  - intros [Hlo Hhi].
    destruct (Z.leb_spec 400 (status_code r)); [|lia].
    destruct (Z.ltb_spec (status_code r) 600); [|lia].
    simpl. repeat split.
  - intros [Hlo Hhi].
    destruct (Z.leb_spec 400 (status_code r)); [lia|].
    simpl. repeat split.
Qed.

(** X9: [get_response_json] never raises: on a client without a truthy
    last response it is the empty dictionary with no log line, for a truthy
    response with a JSON body it is that body, and for a truthy response
    whose body is not JSON it is the empty dictionary after one warning;
    the client is never changed. *)
Theorem get_response_json_total (self : APIClient) (l : list entry) :
  (get_response_json response_bool self l).1.2 = self /\
  match truthy_last_response response_bool self with
  | None => get_response_json response_bool self l = (Ok (JObj []), self, l)
  | Some r =>
      match json_body r with
      | Some j => get_response_json response_bool self l = (Ok j, self, l)
      | None =>
          get_response_json response_bool self l
          = (Ok (JObj []), self, l ++ [LogEntry WARNING "Response is not valid JSON"])
      end
  end.
Proof.
  unfold get_response_json, mbind, M_bind, bind, get_state.
  destruct (truthy_last_response response_bool self) as [r|]; [|split; reflexivity].
  unfold try_except, lift, Response_json.
  destruct (json_body r); split; reflexivity.
Qed.

End AccessorClaims.

Lemma accessors_witness :
  last_response (request (H := simple_libs) answering_env get_users example_client []).1.2
    = Some not_found /\
  get_status_code requests_ok
    (request (H := simple_libs) answering_env get_users example_client []).1.2 = 0.
Proof.
  destruct (accessors_ignore_error_responses (H := simple_libs) requests_ok
              answering_env get_users example_client []
              "https://api.example.com/users/1" not_found
              (fun _ => eq_refl) eq_refl eq_refl) as [Hlast [Herr _]].
  split; [exact Hlast|].
  apply Herr. simpl. lia.
Defined.

(** ** Response logging *)

Lemma substring_length_le (n : nat) (s : string) :
  (String.length (substring 0 n s) <= n)%nat.
Proof.
  revert s. induction n as [|n IH]; intros [|a s]; simpl; try lia.
  specialize (IH s). lia.
Qed.

Lemma substring_whole (n : nat) (s : string) :
  (String.length s <= n)%nat -> substring 0 n s = s.
Proof.
  revert s. induction n as [|n IH]; intros [|a s]; simpl; intros Hlen;
    try reflexivity; try lia.
  rewrite IH by lia. reflexivity.
Qed.

Lemma append_length (s t : string) :
  String.length (s +:+ t) = (String.length s + String.length t)%nat.
Proof.
  induction s as [|a s IH]; [reflexivity|].
  rewrite append_cons. simpl. rewrite IH. reflexivity.
Qed.

Section ResponseLog.
Context `{Libs}.

(** X10: [_log_response] never raises and never touches the client; it
    writes the info line with the status, then for a JSON body one debug
    line with the dumped body, for an empty non-JSON body nothing, and for
    any other body one debug line with a preview that is the whole text when
    it has at most 500 characters and otherwise its first 500 characters
    followed by "...", so never more than 503 characters. *)
Theorem log_response_preview_bounded (response : Response) (response_time : Q)
    (self : APIClient) (l : list entry) :
  exists rest : list entry,
    _log_response response response_time self l
    = (Ok tt, self,
       l ++ LogEntry INFO ("📋 Response: " +:+ str_of_int (status_code response) +:+
                           " (" +:+ format_3f response_time +:+ "s)") :: rest) /\
    (forall j, json_body response = Some j ->
       rest = [LogEntry DEBUG ("Response Body: " +:+ json_dumps j)]) /\
    (json_body response = None -> text response = "" -> rest = []) /\
    (json_body response = None -> text response <> "" ->
     exists preview,
       rest = [LogEntry DEBUG ("Response Body: " +:+ preview)] /\
       (String.length preview <= 503)%nat /\
       ((String.length (text response) <= 500)%nat -> preview = text response) /\
       ((500 < String.length (text response))%nat ->
        preview = substring 0 500 (text response) +:+ "...")).
Proof.
  unfold _log_response, Response_json, try_except, mbind, M_bind, bind, log, lift,
    mret, M_ret, ret.
  destruct (json_body response) as [j|] eqn:Hbody; simpl.
  - eexists. rewrite <- app_assoc. simpl. split; [reflexivity|].
    split; [|split]; try discriminate. intros j' [= <-]. reflexivity.
  - destruct (String.eqb_spec (text response) "") as [Hempty|Hne]; simpl.
    + eexists. split; [reflexivity|]. split; [discriminate|].
      split; [reflexivity|]. intros _ Hne. contradiction.
    + eexists. rewrite <- app_assoc. simpl. split; [reflexivity|].
      split; [discriminate|]. split; [intros _ Hempty; contradiction|].
      intros _ _. eexists. split; [reflexivity|].
      destruct (Nat.ltb_spec 500 (String.length (text response))) as [Hlong|Hshort].
      * split; [|split]; [| lia | reflexivity].
        rewrite append_length. pose proof (substring_length_le 500 (text response)).
        simpl. lia.
      * rewrite append_empty_r. split; [|split]; [| | lia].
        -- pose proof (substring_length_le 500 (text response)). lia.
        -- intros _. apply substring_whole. exact Hshort.
Qed.

End ResponseLog.

Lemma log_response_preview_witness :
  exists preview,
    (_log_response (H := simple_libs) unavailable 0%Q example_client []).2
    = [LogEntry INFO "📋 Response: 503 (0.000s)";
       LogEntry DEBUG ("Response Body: " +:+ preview)] /\
    preview = "Service Unavailable".
Proof.
  destruct (log_response_preview_bounded (H := simple_libs) unavailable 0%Q
              example_client []) as [rest [Hrun [_ [_ Hprev]]]].
  destruct Hprev as [preview [Hrest [_ [Hshort _]]]]; [reflexivity|discriminate|].
  exists preview. rewrite Hrun, Hrest. split; [reflexivity|].
  apply Hshort. simpl. lia.
Defined.

(** * Further properties of the assertion layer *)

Lemma run_assert {S} (cond : bool) (msg : string) (s : S) (l : list entry) :
  py_assert cond msg s l
  = if cond then (Ok tt, s, l) else (Raise (AssertionError msg), s, l).
Proof. unfold py_assert. destruct cond; reflexivity. Qed.

(** X11: [assert_status_code_in] passes exactly when the status code is one
    of the expected codes, and otherwise raises [AssertionError] after the
    one info line; with a one-element list it passes exactly when
    [assert_status_code] passes, and with the empty list it fails for every
    response. *)
Theorem status_code_in_iff_member (response : Response) (expected_codes : list Z)
    (message : option string) (l : list entry) :
  ((assert_status_code_in response expected_codes message tt l).1.1 = Ok tt
   <-> In (status_code response) expected_codes) /\
  (~ In (status_code response) expected_codes ->
   exists msg,
     assert_status_code_in response expected_codes message tt l
     = (Raise (AssertionError msg), tt,
        l ++ [LogEntry INFO ("🔍 Asserting status code in: " +:+
                             str_of_int_list expected_codes)])) /\
  (forall code,
     (assert_status_code_in response [code] message tt l).1.1 = Ok tt
     <-> (assert_status_code response code message tt l).1.1 = Ok tt) /\
  (assert_status_code_in response [] message tt l).1.1 <> Ok tt.
Proof.
  assert (Hmem : forall codes,
            existsb (Z.eqb (status_code response)) codes = true
            <-> In (status_code response) codes).
  { intros codes. rewrite existsb_exists. split.
    - intros [x [Hin Hx]]. apply Z.eqb_eq in Hx. subst x. exact Hin.
    - intros Hin. exists (status_code response). split; [exact Hin|apply Z.eqb_refl]. }
  assert (Hrun : forall codes,
            (assert_status_code_in response codes message tt l).1.1 = Ok tt
            <-> existsb (Z.eqb (status_code response)) codes = true).
  { intros codes.
    unfold assert_status_code_in, mbind, M_bind, bind, log. rewrite run_assert.
    destruct (existsb _ codes); simpl; split; congruence. }
  split; [|split; [|split]].
  - rewrite Hrun. apply Hmem.
  - intros Hnot.
    unfold assert_status_code_in, mbind, M_bind, bind, log. rewrite run_assert.
    destruct (existsb _ expected_codes) eqn:E.
    + exfalso. apply Hnot. apply Hmem. exact E.
    + eexists. reflexivity.
  - intros code. rewrite Hrun. simpl. rewrite orb_false_r.
    unfold assert_status_code, mbind, M_bind, bind, log. rewrite run_assert.
    destruct (status_code response =? code); simpl; split; congruence.
  - rewrite Hrun. simpl. discriminate.
Qed.

Lemma status_code_in_witness :
  exists msg,
    assert_status_code_in not_found [200; 204] None tt []
    = (Raise (AssertionError msg), tt,
       [LogEntry INFO "🔍 Asserting status code in: [200, 204]"]).
Proof.
  apply (proj1 (proj2 (status_code_in_iff_member not_found [200; 204] None []))).
  simpl. intros [H|[H|[]]]; discriminate.
Defined.

Lemma split_first_before (c : ascii) (t p : string) :
  contains (String c EmptyString) t = false ->
  split_first c (t +:+ String c p) = t.
Proof.
  induction t as [|a t IH]; intros Hno.
  - rewrite append_nil. simpl. rewrite Ascii.eqb_refl. reflexivity.
  - rewrite append_cons. simpl in *.
    apply orb_false_elim in Hno as [Hhead Hrest].
    destruct (Ascii.eqb_spec a c) as [->|Hne].
    + exfalso. unfold String.prefix in Hhead.
      destruct (ascii_dec c c) as [_|Hcc]; [|contradiction].
      destruct t; discriminate.
    + rewrite (IH Hrest). reflexivity.
Qed.

Lemma split_first_none (c : ascii) (t : string) :
  contains (String c EmptyString) t = false -> split_first c t = t.
Proof.
  induction t as [|a t IH]; intros Hno; [reflexivity|]. simpl in *.
  apply orb_false_elim in Hno as [Hhead Hrest].
  destruct (Ascii.eqb_spec a c) as [->|Hne].
  - exfalso. destruct (ascii_dec c c) as [_|Hcc]; [|contradiction].
    destruct t; discriminate.
  - rewrite (IH Hrest). reflexivity.
Qed.

(** X12: [assert_content_type] compares only what stands before the first
    semicolon of the [Content-Type] header: with an expected type free of
    semicolons it passes when the header is that type, alone or followed by
    a semicolon and any parameters, and it fails with [AssertionError] when
    the response has no [Content-Type] header and the expected type is not
    empty. *)
Theorem content_type_ignores_parameters (response : Response)
    (expected_type : string) (message : option string) (l : list entry) :
  contains ";" expected_type = false ->
  (forall parameters,
     header_get response "Content-Type" = Some (expected_type +:+ String ";" parameters) ->
     (assert_content_type response expected_type message tt l).1.1 = Ok tt) /\
  (header_get response "Content-Type" = Some expected_type ->
   (assert_content_type response expected_type message tt l).1.1 = Ok tt) /\
  (header_get response "Content-Type" = None -> expected_type <> "" ->
   exists msg, (assert_content_type response expected_type message tt l).1.1
               = Raise (AssertionError msg)).
Proof.
  intros Hno.
  unfold assert_content_type, mbind, M_bind, bind, log. rewrite run_assert.
  split; [|split].
  - intros parameters ->. simpl. rewrite (split_first_before _ _ _ Hno).
    rewrite String.eqb_refl. reflexivity.
  - intros ->. simpl. rewrite (split_first_none _ _ Hno).
    rewrite String.eqb_refl. reflexivity.
  - intros -> Hne. simpl.
    destruct expected_type; [contradiction|]. eexists. reflexivity.
Qed.

Lemma content_type_witness :
  (assert_content_type json_utf8_response "application/json" None tt []).1.1 = Ok tt.
Proof.
  apply (proj1 (content_type_ignores_parameters json_utf8_response
                  "application/json" None [] eq_refl) " charset=utf-8").
  reflexivity.
Defined.

Lemma prefix_lower (e t : string) :
  String.prefix e t = true -> String.prefix (lower e) (lower t) = true.
Proof.
  revert t. induction e as [|a e IH]; intros t Hp; [destruct t; reflexivity|].
  destruct t as [|b t]; [discriminate|]. simpl in *.
  destruct (ascii_dec a b) as [->|Hne]; [|discriminate].
  destruct (ascii_dec (lower_char b) (lower_char b)) as [_|Hcc]; [|contradiction].
  apply IH. exact Hp.
Qed.

Lemma contains_lower (e t : string) :
  contains e t = true -> contains (lower e) (lower t) = true.
Proof.
  induction t as [|b t IH]; simpl; intros Hc.
  - rewrite orb_false_r in *. apply (prefix_lower e ""). exact Hc.
  - apply orb_true_iff in Hc as [Hp|Hc].
    + apply orb_true_iff. left. apply (prefix_lower e (String b t)). exact Hp.
    + apply orb_true_iff. right. apply IH. exact Hc.
Qed.

Lemma contains_empty (t : string) : contains "" t = true.
Proof. destruct t; reflexivity. Qed.

Lemma lower_char_idempotent (a : ascii) : lower_char (lower_char a) = lower_char a.
Proof. destruct a as [[] [] [] [] [] [] [] []]; reflexivity. Qed.

Lemma lower_idempotent (s : string) : lower (lower s) = lower s.
Proof.
  induction s as [|a s IH]; simpl; [reflexivity|].
  rewrite lower_char_idempotent, IH. reflexivity.
Qed.

Lemma is_ascii_lower (s : string) : is_ascii (lower s) = is_ascii s.
Proof.
  induction s as [|a s IH]; [reflexivity|].
  cbn [lower is_ascii]. rewrite IH.
  destruct a as [[] [] [] [] [] [] [] []]; reflexivity.
Qed.

Section TextContains.
Variable str_lower : string -> string.

Lemma text_contains_run (response : Response) (expected_text : string)
    (case_sensitive : bool) (message : option string) (l : list entry) :
  (assert_text_contains str_lower response expected_text case_sensitive message tt l).1.1
  = Ok tt
  <-> contains (if case_sensitive then expected_text else str_lower expected_text)
               (if case_sensitive then text response else str_lower (text response))
      = true.
Proof.
  unfold assert_text_contains, mbind, M_bind, bind, log. rewrite run_assert.
  destruct (contains _ _); simpl; split; congruence.
Qed.

(** X13: on ASCII text, where [lower()] folds the letters A to Z and
    nothing else: whenever the case-sensitive [assert_text_contains]
    passes, the case-insensitive one passes too; the case-insensitive check
    does not depend on the case of the expected text; and the empty text is
    found in both modes. *)
Theorem text_contains_case_insensitive_is_weaker (response : Response)
    (expected_text : string) (message : option string) (l : list entry) :
  (forall s, is_ascii s = true -> str_lower s = lower s) ->
  is_ascii (text response) = true ->
  is_ascii expected_text = true ->
  ((assert_text_contains str_lower response expected_text true message tt l).1.1
   = Ok tt ->
   (assert_text_contains str_lower response expected_text false message tt l).1.1
   = Ok tt) /\
  ((assert_text_contains str_lower response expected_text false message tt l).1.1
   = Ok tt
   <-> (assert_text_contains str_lower response (lower expected_text) false message
          tt l).1.1
       = Ok tt) /\
  (forall case_sensitive,
     (assert_text_contains str_lower response "" case_sensitive message tt l).1.1
     = Ok tt).
Proof.
  intros Hlower Htext Hexpected.
  rewrite !text_contains_run.
  rewrite (Hlower _ Htext), (Hlower _ Hexpected).
  rewrite (Hlower (lower expected_text)) by (rewrite is_ascii_lower; exact Hexpected).
  split; [|split].
  - apply contains_lower.
  - rewrite lower_idempotent. reflexivity.
  - intros case_sensitive. rewrite text_contains_run.
    rewrite (Hlower "" eq_refl).
    destruct case_sensitive; apply contains_empty.
Qed.

End TextContains.

Lemma text_contains_witness :
  (assert_text_contains lower html_response "HELLO" false None tt []).1.1 = Ok tt <->
  (assert_text_contains lower html_response "hello" false None tt []).1.1 = Ok tt.
Proof.
  apply (proj1 (proj2 (text_contains_case_insensitive_is_weaker lower html_response
                         "HELLO" None [] (fun s _ => eq_refl) eq_refl eq_refl))).
Defined.

Section JsonChecks.
Context `{Libs}.
Variable DeepDiff : json -> json -> result json.

Lemma collect_missing_dict (kv expected : list (string * json)) (acc : list string) :
  exists ms,
    collect_missing expected (JObj kv) acc = Ok (acc ++ ms) /\
    (ms = [] <-> forallb (item_present kv) expected = true).
Proof.
  revert acc. induction expected as [|[k v] rest IH]; intros acc; simpl.
  - exists []. rewrite app_nil_r. split; [reflexivity|]. split; reflexivity.
  - unfold item_present at 1. simpl. destruct (assoc k kv) as [actual|] eqn:Ek.
    + destruct (py_eq actual v) eqn:Eeq; simpl.
      * exact (IH acc).
      * destruct (IH (acc ++ [k +:+ " (value mismatch)"])) as [ms [Hrun _]].
        exists ((k +:+ " (value mismatch)") :: ms). rewrite Hrun, <- app_assoc.
        split; [reflexivity|]. split; discriminate.
    + destruct (IH (acc ++ [k])) as [ms [Hrun _]].
      exists (k :: ms). rewrite Hrun, <- app_assoc.
      split; [reflexivity|]. split; discriminate.
Qed.

(** X14: for a response whose body decodes to a dictionary, and a
    [DeepDiff] call that returns, [assert_json_contains] passes exactly when
    every expected key is in the body with an equal value; keys of the body
    that are not expected play no part; otherwise it raises
    [AssertionError]; with nothing expected it passes. *)
Theorem json_contains_iff_items_present (response : Response)
    (kv expected_data : list (string * json)) (message : option string)
    (l : list entry) :
  json_body response = Some (JObj kv) ->
  (exists diff, DeepDiff (JObj expected_data) (JObj kv) = Ok diff) ->
  ((assert_json_contains DeepDiff response expected_data message tt l).1.1 = Ok tt
   <-> forallb (item_present kv) expected_data = true) /\
  (forallb (item_present kv) expected_data = false ->
   exists msg,
     (assert_json_contains DeepDiff response expected_data message tt l).1.1
     = Raise (AssertionError msg)).
Proof.
  intros Hbody [diff Hdiff].
  destruct (collect_missing_dict kv expected_data []) as [ms [Hrun Hms]].
  simpl in Hrun.
  unfold assert_json_contains, not_valid_json, try_except, Response_json,
    mbind, M_bind, bind, lift, log.
  rewrite Hbody, Hdiff, Hrun, run_assert.
  destruct ms as [|m ms]; simpl.
  - split; [split; [intros _; apply Hms; reflexivity | reflexivity]|].
    intros Hfalse. rewrite (proj1 Hms eq_refl) in Hfalse. discriminate.
  - split.
    + split; [discriminate|]. intros Hall. apply Hms in Hall. discriminate.
    + intros _. eexists. reflexivity.
Qed.

(** X15: on a response whose body is not JSON, each of the five JSON checks
    raises [AssertionError] with the caller's message or "Response is not
    valid JSON", after logging exactly one error line, without searching
    any path. *)
Theorem json_checks_reject_non_json_body (response : Response)
    (message : option string) (l : list entry) :
  json_body response = None ->
  let failure {A} : result A * unit * list entry :=
    (Raise (AssertionError (message_or message "Response is not valid JSON")), tt,
     l ++ [LogEntry ERROR "❌ Response is not valid JSON"]) in
  (forall key_path, assert_json_key_exists response key_path message tt l = failure) /\
  (forall key_path expected_value,
     assert_json_key_value response key_path expected_value message tt l = failure) /\
  (forall key_path expected_length,
     assert_json_array_length response key_path expected_length message tt l = failure) /\
  (forall type_mapping, assert_json_types response type_mapping message tt l = failure) /\
  (forall expected_data,
     assert_json_contains DeepDiff response expected_data message tt l = failure).
Proof.
  intros Hbody failure. subst failure.
  unfold assert_json_key_exists, assert_json_key_value, assert_json_array_length,
    assert_json_types, assert_json_contains, not_valid_json, try_except,
    Response_json, mbind, M_bind, bind, lift.
  rewrite Hbody. repeat split.
Qed.

Lemma check_types_iff (data : json) (message : option string)
    (type_mapping : list (string * pytype)) (l : list entry) :
  (check_types data type_mapping message tt l).1.1 = Ok tt
  <-> forallb (path_has_type search data) type_mapping = true.
Proof.
  revert l. induction type_mapping as [|[p t] rest IH]; intros l.
  - split; reflexivity.
  - change (forallb (path_has_type search data) ((p, t) :: rest))
      with (path_has_type search data (p, t)
            && forallb (path_has_type search data) rest).
    unfold path_has_type at 1. cbn [check_types fst snd].
    unfold mbind, M_bind, bind, lift.
    destruct (search p data) as [v|e]; [|split; discriminate].
    destruct (isinstance v t) eqn:Ei.
    + destruct v; cbn [negb]; try rewrite Ei; cbn [negb];
        try (split; discriminate); apply IH.
    + destruct v; cbn [negb]; try rewrite Ei; cbn [negb]; split; discriminate.
Qed.

(** X16: for a response whose body decodes, [assert_json_types] passes
    exactly when every path of the mapping resolves to a value other than
    [None] that is an instance of its expected type, where a JSON boolean
    also counts as an [int]; the empty mapping always passes. *)
Theorem json_types_iff_all_paths_typed (response : Response) (data : json)
    (type_mapping : list (string * pytype)) (message : option string)
    (l : list entry) :
  json_body response = Some data ->
  ((assert_json_types response type_mapping message tt l).1.1 = Ok tt
   <-> forallb (path_has_type search data) type_mapping = true) /\
  (assert_json_types response [] message tt l).1.1 = Ok tt /\
  (forall p b, search p data = Ok (JBool b) ->
     (assert_json_types response [(p, TInt)] message tt l).1.1 = Ok tt).
Proof.
  intros Hbody.
  assert (Hrun : forall m,
            (assert_json_types response m message tt l).1.1 = Ok tt
            <-> (check_types data m message tt l).1.1 = Ok tt).
  { intros m.
    unfold assert_json_types, not_valid_json, try_except, Response_json,
      mbind, M_bind, bind, lift.
    rewrite Hbody.
    destruct (check_types data m message tt l) as [[[[]|e] s] l']; simpl;
      [split; reflexivity|].
    destruct e; simpl; split; discriminate. }
  split; [|split].
  - rewrite Hrun. apply check_types_iff.
  - rewrite Hrun. reflexivity.
  - intros p b Hp. rewrite Hrun. apply check_types_iff.
    simpl. unfold path_has_type. simpl. rewrite Hp. reflexivity.
Qed.

End JsonChecks.

Lemma json_contains_witness :
  (assert_json_contains (H := simple_libs) no_diff json_utf8_response
     [("name", JStr "Leanne")] None tt []).1.1 = Ok tt.
Proof.
  apply (proj1 (json_contains_iff_items_present (H := simple_libs) no_diff
                  json_utf8_response [("id", JInt 1); ("name", JStr "Leanne")]
                  [("name", JStr "Leanne")] None [] eq_refl
                  (ex_intro _ (JObj []) eq_refl))).
  reflexivity.
Defined.

Lemma json_checks_reject_witness :
  assert_json_key_exists (H := simple_libs) html_response "id" None tt []
  = (Raise (AssertionError "Response is not valid JSON"), tt,
     [LogEntry ERROR "❌ Response is not valid JSON"]).
Proof.
  exact (proj1 (json_checks_reject_non_json_body (H := simple_libs) no_diff
                  html_response None [] eq_refl) "id").
Defined.

Lemma json_types_witness :
  (assert_json_types (H := simple_libs) json_utf8_response
     [("id", TInt); ("name", TStr)] None tt []).1.1 = Ok tt.
Proof.
  apply (proj1 (json_types_iff_all_paths_typed (H := simple_libs)
                  json_utf8_response (JObj [("id", JInt 1); ("name", JStr "Leanne")])
                  [("id", TInt); ("name", TStr)] None [] eq_refl)).
  reflexivity.
Defined.

(** * The template client *)

Lemma rstrip_fixed (c : ascii) (s : string) :
  endswith_char c s = false -> rstrip c s = s.
Proof.
  induction s as [|a s IH]; [reflexivity|]. simpl.
  destruct s as [|b s'].
  - simpl. intros ->. reflexivity.
  - intros Hend. rewrite (IH Hend). reflexivity.
Qed.

Lemma rstrip_idempotent (c : ascii) (s : string) : rstrip c (rstrip c s) = rstrip c s.
Proof. apply rstrip_fixed. apply rstrip_no_trailing. Qed.

Section TemplateClient.
Context `{Libs}.
Variable Retry_method_whitelist : Z -> list Z -> list string -> result Retry.
Variable base_only : string -> bool.

(** X17: constructing a [BaseAPIClient] stands and falls with the [Retry]
    constructor taking the keyword [method_whitelist].  When the
    constructor raises, the construction raises the same exception and logs
    nothing.  When it returns a strategy, the construction returns, after
    one info line, a client that holds this strategy and its base URL
    without trailing slashes; constructing again from the stored base URL
    stores the same, and for the same base URL string the client builds,
    for every endpoint, the very URL [APIClient] builds. *)
Theorem base_client_construction (class_name b : string)
    (headers : option (list (string * json))) (l : list entry) :
  let retry :=
    Retry_method_whitelist 3 [429; 500; 502; 503; 504]
      ["HEAD"; "GET"; "PUT"; "DELETE"; "OPTIONS"; "TRACE"; "POST"] in
  (forall e, retry = Raise e ->
     base_client.__init__ Retry_method_whitelist class_name b headers tt l
     = (Raise e, tt, l)) /\
  (forall retry_strategy, retry = Ok retry_strategy ->
     exists c : base_client.BaseAPIClient,
       base_client.__init__ Retry_method_whitelist class_name b headers tt l
       = (Ok c, tt,
          l ++ [LogEntry INFO ("🔧 Initialized " +:+ class_name +:+
                               " with base_url: " +:+ rstrip "/" b)]) /\
       max_retries (base_client.session c) = retry_strategy /\
       base_client.base_url c = rstrip "/" b /\
       endswith_char "/" (base_client.base_url c) = false /\
       (exists c',
          (base_client.__init__ Retry_method_whitelist class_name
             (base_client.base_url c) headers tt l).1.1 = Ok c' /\
          base_client.base_url c' = base_client.base_url c) /\
       (forall (self : APIClient) (endpoint : string),
          base_url self = JStr b ->
          _build_url self endpoint = Ok (base_client._build_url c endpoint))).
Proof.
  cbv zeta.
  unfold base_client.__init__, base_client._create_session, mbind, M_bind, bind, lift.
  split.
  - intros e ->. reflexivity.
  - intros retry_strategy ->. eexists. split; [reflexivity|]. simpl.
    split; [reflexivity|]. split; [reflexivity|].
    split; [apply rstrip_no_trailing|]. split.
    + eexists. split; [reflexivity|]. simpl. apply rstrip_idempotent.
    + intros self endpoint Hb. unfold _build_url, base_client._build_url.
      rewrite Hb.
      destruct (startswith_any ["http://"; "https://"] endpoint); reflexivity.
Qed.

Lemma base_log_response_total (response : Response) (response_time : Q)
    (self : base_client.BaseAPIClient) (l : list entry) :
  exists l', base_client._log_response response response_time self l = (Ok tt, self, l').
Proof.
  unfold base_client._log_response, try_except, mbind, M_bind, bind, log, lift,
    Response_json, mret, M_ret, ret.
  destruct (negb (String.eqb (text response) "")); simpl; [|eexists; reflexivity].
  destruct (json_body response); simpl; eexists; reflexivity.
Qed.

Lemma base_log_request_total (method url : string) (kwargs : list (string * json))
    (self : base_client.BaseAPIClient) (l : list entry) :
  exists l', base_client._log_request method url kwargs self l = (Ok tt, self, l').
Proof.
  unfold base_client._log_request, mbind, M_bind, bind, log.
  destruct (assoc "json" kwargs) as [body|]; [|eexists; reflexivity].
  destruct (truthy body); eexists; reflexivity.
Qed.

(** What [request] of the template client returns is what the transport
    call gave. *)
Lemma base_request_result (env : base_client.Env) (method endpoint : string)
    (kwargs : list (string * json)) (self : base_client.BaseAPIClient)
    (l : list entry) :
  (base_client.request env method endpoint kwargs self l).1.1
  = base_client.net env (base_client.session self)
      (base_client.MkBaseCall method (base_client._build_url self endpoint) kwargs).
Proof.
  unfold base_client.request, mbind, M_bind, bind, get_state.
  destruct (base_log_request_total method (base_client._build_url self endpoint)
              kwargs self l) as [l1 Hl1].
  cbv beta iota zeta. rewrite Hl1. cbv beta iota zeta.
  unfold try_except, lift, mbind, M_bind, bind.
  destruct (base_client.net env (base_client.session self) _) as [r|e].
  - unfold modify. cbv beta iota zeta.
    match goal with
    | |- context [base_client._log_response ?r ?t ?c ?l0] =>
        destruct (base_log_response_total r t c l0) as [l2 Hl2]; rewrite Hl2
    end.
    reflexivity.
  - destruct (is_request_exception e); reflexivity.
Qed.

(** X18: [health_check] handles every exception that derives from
    [Exception], and no other.  It returns [True] or [False] as the status
    code of the answer to the GET is 200 or not; when the subclass's
    endpoint method or the transport raises, it returns [False] for an
    exception that derives from [Exception], and lets any other (a
    [KeyboardInterrupt], say) through unchanged.  So it never raises an
    exception that derives from [Exception]. *)
Theorem health_check_handles_exceptions (env : base_client.Env)
    (health_endpoint : result string) (self : base_client.BaseAPIClient)
    (l : list entry) :
  let outcome := (base_client.health_check base_only env health_endpoint self l).1.1 in
  let handled (e : exn) : result bool :=
    if isinstance_Exception base_only e then Ok false else Raise e in
  match health_endpoint with
  | Raise e => outcome = handled e
  | Ok endpoint =>
      match base_client.net env (base_client.session self)
              (base_client.MkBaseCall "GET" (base_client._build_url self endpoint) [])
      with
      | Raise e => outcome = handled e
      | Ok response => outcome = Ok (status_code response =? 200)
      end
  end /\
  (forall e, outcome = Raise e -> isinstance_Exception base_only e = false).
Proof.
  cbv zeta.
  assert (Hcases :
    match health_endpoint with
    | Raise e =>
        (base_client.health_check base_only env health_endpoint self l).1.1
        = if isinstance_Exception base_only e then Ok false else Raise e
    | Ok endpoint =>
        match base_client.net env (base_client.session self)
                (base_client.MkBaseCall "GET" (base_client._build_url self endpoint) [])
        with
        | Raise e =>
            (base_client.health_check base_only env health_endpoint self l).1.1
            = if isinstance_Exception base_only e then Ok false else Raise e
        | Ok response =>
            (base_client.health_check base_only env health_endpoint self l).1.1
            = Ok (status_code response =? 200)
        end
    end).
  { unfold base_client.health_check, try_except, mbind, M_bind, bind, lift.
    destruct health_endpoint as [endpoint|e].
    - pose proof (base_request_result env "GET" endpoint [] self l) as Hres.
      unfold base_client.get.
      destruct (base_client.request env "GET" endpoint [] self l) as [[res c1] l1].
      cbn [fst] in Hres. subst res.
      destruct (base_client.net env (base_client.session self) _) as [r|e].
      + reflexivity.
      + destruct (isinstance_Exception base_only e); reflexivity.
    - destruct (isinstance_Exception base_only e); reflexivity. }
  split; [exact Hcases|].
  intros e Hraise. rewrite Hraise in Hcases.
  destruct health_endpoint as [endpoint|e0].
  - destruct (base_client.net env (base_client.session self) _) as [r|e0];
      [discriminate|].
    destruct (isinstance_Exception base_only e0) eqn:E; [discriminate|].
    injection Hcases as ->. exact E.
  - destruct (isinstance_Exception base_only e0) eqn:E; [discriminate|].
    injection Hcases as ->. exact E.
Qed.

End TemplateClient.

Lemma base_client_construction_witness :
  base_client.__init__ (H := simple_libs) retry_refusing_whitelist "ExampleAPIClient"
    "https://api.example.com/" None tt []
  = (Raise (OtherError "TypeError"
              "Retry.__init__() got an unexpected keyword argument 'method_whitelist'"),
     tt, []) /\
  exists c : base_client.BaseAPIClient,
    (base_client.__init__ (H := simple_libs) retry_taking_whitelist "ExampleAPIClient"
       "https://api.example.com/" None tt []).1.1 = Ok c /\
    base_client.base_url c = "https://api.example.com".
Proof.
  split.
  - apply (proj1 (base_client_construction (H := simple_libs) retry_refusing_whitelist
                    "ExampleAPIClient" "https://api.example.com/" None [])).
    reflexivity.
  - destruct (proj2 (base_client_construction (H := simple_libs) retry_taking_whitelist
                       "ExampleAPIClient" "https://api.example.com/" None [])
                _ eq_refl) as [c [Hrun [_ [Hurl _]]]].
    exists c. rewrite Hrun. split; [reflexivity|exact Hurl].
Defined.

(** * Helpers *)

Lemma split_nonempty (c : ascii) (s : string) : helpers.split c s <> [].
Proof.
  induction s as [|a s IH]; simpl; [discriminate|].
  destruct (Ascii.eqb a c); [discriminate|].
  destruct (helpers.split c s); discriminate.
Qed.

Lemma last_cons_nonempty {A} (x : A) (xs : list A) (d : A) :
  xs <> [] -> List.last (x :: xs) d = List.last xs d.
Proof. destruct xs; [contradiction|reflexivity]. Qed.

Lemma no_char_cons (c a : ascii) (s : string) :
  contains (String c EmptyString) (String a s) = false ->
  a <> c /\ contains (String c EmptyString) s = false.
Proof.
  simpl. intros Hno. apply orb_false_elim in Hno as [Hhead Hrest].
  split; [|exact Hrest]. intros ->.
  destruct (ascii_dec c c) as [_|Hcc]; [|contradiction].
  destruct s; discriminate.
Qed.

Lemma split_no_char (c : ascii) (s : string) :
  contains (String c EmptyString) s = false -> helpers.split c s = [s].
Proof.
  induction s as [|a s IH]; intros Hno; [reflexivity|].
  apply no_char_cons in Hno as [Hne Hrest]. simpl.
  destruct (Ascii.eqb_spec a c) as [->|_]; [contradiction|].
  rewrite (IH Hrest). reflexivity.
Qed.

Lemma last_split_no_char (c : ascii) (s : string) :
  contains (String c EmptyString) (List.last (helpers.split c s) "") = false.
Proof.
  induction s as [|a s IH]; [reflexivity|]. simpl.
  destruct (Ascii.eqb_spec a c) as [->|Hne].
  - rewrite last_cons_nonempty by apply split_nonempty. exact IH.
  - pose proof (split_nonempty c s) as Hs.
    destruct (helpers.split c s) as [|piece pieces]; [contradiction|].
    destruct pieces as [|p2 ps].
    + simpl in *. rewrite IH, orb_false_r.
      destruct (ascii_dec c a) as [->|_]; [contradiction|reflexivity].
    + exact IH.
Qed.

Lemma split_length_after (c : ascii) (p id : string) :
  (2 <= length (helpers.split c (p +:+ String c id)))%nat.
Proof.
  induction p as [|a p IH].
  - rewrite append_nil. simpl. rewrite Ascii.eqb_refl.
    pose proof (split_nonempty c id). destruct (helpers.split c id); [contradiction|].
    simpl. lia.
  - rewrite append_cons. simpl. destruct (Ascii.eqb a c); [simpl; lia|].
    destruct (helpers.split c (p +:+ String c id)); simpl in *; lia.
Qed.

Lemma last_split_after (c : ascii) (p id : string) :
  contains (String c EmptyString) id = false ->
  List.last (helpers.split c (p +:+ String c id)) "" = id.
Proof.
  intros Hno. induction p as [|a p IH].
  - rewrite append_nil. simpl. rewrite Ascii.eqb_refl.
    rewrite (split_no_char c id Hno). reflexivity.
  - rewrite append_cons. simpl.
    destruct (Ascii.eqb a c).
    + rewrite last_cons_nonempty by apply split_nonempty. exact IH.
    + pose proof (split_length_after c p id) as Hlen.
      destruct (helpers.split c (p +:+ String c id)) as [|piece pieces];
        [simpl in Hlen; lia|].
      destruct pieces as [|p2 ps]; [simpl in Hlen; lia|].
      exact IH.
Qed.

Lemma last_split_lstrip (c : ascii) (s : string) :
  List.last (helpers.split c (lstrip c s)) ""
  = List.last (helpers.split c s) "".
Proof.
  induction s as [|a s IH]; [reflexivity|]. simpl.
  destruct (Ascii.eqb a c) eqn:E; [|simpl; rewrite E; reflexivity].
  rewrite last_cons_nonempty by apply split_nonempty. exact IH.
Qed.

Lemma rstrip_repeat (c : ascii) (k : nat) : rstrip c (repeat_char c k) = "".
Proof.
  induction k as [|k IH]; [reflexivity|]. simpl. rewrite IH, Ascii.eqb_refl.
  reflexivity.
Qed.

Lemma rstrip_app_repeat (c : ascii) (s : string) (k : nat) :
  rstrip c (s +:+ repeat_char c k) = rstrip c s.
Proof.
  induction s as [|a s IH].
  - rewrite append_nil. apply rstrip_repeat.
  - rewrite append_cons. simpl. rewrite IH. reflexivity.
Qed.

Lemma endswith_no_char (c : ascii) (id : string) :
  contains (String c EmptyString) id = false -> endswith_char c id = false.
Proof.
  induction id as [|a id IH]; intros Hno; [reflexivity|].
  apply no_char_cons in Hno as [Hne Hrest]. simpl.
  destruct id as [|b id'].
  - destruct (Ascii.eqb_spec a c); [contradiction|reflexivity].
  - apply IH. exact Hrest.
Qed.

Lemma endswith_app (c : ascii) (p s : string) :
  s <> "" -> endswith_char c (p +:+ s) = endswith_char c s.
Proof.
  intros Hs. induction p as [|a p IH]; [reflexivity|].
  rewrite append_cons. simpl.
  destruct (p +:+ s) as [|b r] eqn:E.
  - destruct p; [rewrite append_nil in E; contradiction | discriminate].
  - exact IH.
Qed.

(** X19: [extract_id_from_location_header] is [None] exactly when the
    response has no [Location] header or an empty one; otherwise it is the
    last slash-separated segment of the header without its leading and
    trailing slashes, which never contains a slash; for a location ending in
    a slash, a non-empty slash-free id and any number of trailing slashes it
    is that id. *)
Theorem extract_id_is_last_segment (response : Response) :
  (helpers.extract_id_from_location_header response = None
   <-> default "" (assertions.header_get response "Location") = "") /\
  (forall segment,
     helpers.extract_id_from_location_header response = Some segment ->
     contains "/" segment = false) /\
  (forall (prefix id : string) (k : nat),
     id <> "" -> contains "/" id = false ->
     assertions.header_get response "Location"
     = Some (prefix +:+ String "/" id +:+ repeat_char "/" k) ->
     helpers.extract_id_from_location_header response = Some id).
Proof.
  unfold helpers.extract_id_from_location_header, helpers.strip.
  split; [|split].
  - destruct (String.eqb_spec (default "" (assertions.header_get response "Location")) "")
      as [->|Hne]; simpl; [split; reflexivity|].
    pose proof (split_nonempty "/"
      (lstrip "/" (rstrip "/" (default "" (assertions.header_get response "Location"))))).
    destruct (helpers.split _ _); [contradiction|]. split; [discriminate|contradiction].
  - intros segment.
    destruct (String.eqb (default "" (assertions.header_get response "Location")) "");
      simpl; [discriminate|].
    pose proof (last_split_no_char "/"
      (lstrip "/" (rstrip "/" (default "" (assertions.header_get response "Location")))))
      as Hlast.
    destruct (helpers.split _ _); [discriminate|].
    intros [= <-]. exact Hlast.
  - intros prefix id k Hid Hno ->. simpl.
    assert (Hloc : String.eqb (prefix +:+ String "/" id +:+ repeat_char "/" k) "" = false).
    { destruct prefix; reflexivity. }
    rewrite Hloc. simpl.
    assert (Hstrip : rstrip "/" (prefix +:+ String "/" id +:+ repeat_char "/" k)
                     = prefix +:+ String "/" id).
    { replace (prefix +:+ String "/" id +:+ repeat_char "/" k)
        with ((prefix +:+ String "/" id) +:+ repeat_char "/" k).
      - rewrite rstrip_app_repeat. apply rstrip_fixed.
        rewrite endswith_app by discriminate.
        change (endswith_char "/" (String "/" id)) with
          (match id with "" => Ascii.eqb "/" "/" | _ => endswith_char "/" id end).
        destruct id; [contradiction|]. apply endswith_no_char. exact Hno.
      - clear. induction prefix as [|a p IH]; [reflexivity|].
        rewrite !append_cons, IH. reflexivity. }
    rewrite Hstrip.
    pose proof (split_nonempty "/" (lstrip "/" (prefix +:+ String "/" id))) as Hne.
    pose proof (last_split_lstrip "/" (prefix +:+ String "/" id)) as Hl.
    rewrite (last_split_after "/" prefix id Hno) in Hl.
    destruct (helpers.split "/" (lstrip "/" (prefix +:+ String "/" id)));
      [contradiction|].
    rewrite Hl. reflexivity.
Qed.

Lemma extract_id_witness :
  helpers.extract_id_from_location_header created_response = Some "123".
Proof.
  apply (proj2 (proj2 (extract_id_is_last_segment created_response))
           "https://api.example.com/users" "123" 1%nat).
  - discriminate.
  - reflexivity.
  - reflexivity.
Defined.

Lemma assoc_dict_set_eq (key : string) (value : json) (kv : list (string * json)) :
  assoc key (helpers.dict_set key value kv) = Some value.
Proof.
  induction kv as [|[k v] kv IH]; simpl.
  - rewrite String.eqb_refl. reflexivity.
  - destruct (String.eqb key k) eqn:E; simpl; rewrite E; [reflexivity|exact IH].
Qed.

Lemma assoc_dict_set_ne (key k' : string) (value : json) (kv : list (string * json)) :
  k' <> key -> assoc k' (helpers.dict_set key value kv) = assoc k' kv.
Proof.
  intros Hne. induction kv as [|[k v] kv IH]; simpl.
  - destruct (String.eqb_spec k' key); [contradiction|reflexivity].
  - destruct (String.eqb_spec key k) as [->|Hk]; simpl.
    + destruct (String.eqb_spec k' k); [contradiction|reflexivity].
    + rewrite IH. reflexivity.
Qed.

Lemma deep_merge_step (key : string) (value : json)
    (rest dict1 : list (string * json)) :
  helpers.deep_merge_dicts dict1 ((key, value) :: rest)
  = helpers.deep_merge_dicts
      (helpers.dict_set key (merged_value (assoc key dict1) value) dict1) rest.
Proof.
  unfold helpers.deep_merge_dicts, merged_value. simpl.
  destruct (assoc key dict1) as [[]|]; destruct value; reflexivity.
Qed.

Lemma assoc_not_in (k : string) (kv : list (string * json)) :
  k ∉ map fst kv -> assoc k kv = None.
Proof.
  rewrite list_elem_of_In.
  induction kv as [|[k' v] kv IH]; simpl; intros Hnot; [reflexivity|].
  destruct (String.eqb_spec k k') as [->|_].
  - exfalso. apply Hnot. left. reflexivity.
  - apply IH. intros Hin. apply Hnot. right. exact Hin.
Qed.

(** X20: [deep_merge_dicts] with an empty second dictionary is the first;
    and for a second dictionary (its keys distinct, as in any [dict]) the
    result holds, under every key, the first dictionary's value when the
    second lacks the key, and otherwise the second's value, except that two
    dictionary values under one key are merged recursively; so no key of
    either dictionary is lost. *)
Theorem deep_merge_lookup (dict1 dict2 : list (string * json)) :
  NoDup (map fst dict2) ->
  helpers.deep_merge_dicts dict1 [] = dict1 /\
  (forall k,
     assoc k (helpers.deep_merge_dicts dict1 dict2)
     = match assoc k dict2 with
       | None => assoc k dict1
       | Some value2 => Some (merged_value (assoc k dict1) value2)
       end) /\
  (forall required_keys,
     helpers.has_required_keys dict1 required_keys = true ->
     helpers.has_required_keys (helpers.deep_merge_dicts dict1 dict2) required_keys
     = true).
Proof.
  intros Hnodup. split; [reflexivity|].
  assert (Hlookup : forall k,
            assoc k (helpers.deep_merge_dicts dict1 dict2)
            = match assoc k dict2 with
              | None => assoc k dict1
              | Some value2 => Some (merged_value (assoc k dict1) value2)
              end).
  { revert dict1. induction dict2 as [|[k0 v0] rest IH]; intros dict1 k.
    - reflexivity.
    - rewrite deep_merge_step. inversion Hnodup as [|? ? Hnotin Hrest]; subst.
      rewrite (IH Hrest). simpl.
      destruct (String.eqb_spec k k0) as [->|Hne].
      + rewrite (assoc_not_in k0 rest Hnotin). rewrite assoc_dict_set_eq. reflexivity.
      + rewrite (assoc_dict_set_ne k0 k _ dict1 Hne). reflexivity. }
  split; [exact Hlookup|].
  intros required_keys. unfold helpers.has_required_keys.
  rewrite !forallb_forall. intros Hall key Hin. specialize (Hall key Hin).
  rewrite Hlookup. destruct (assoc key dict2); [reflexivity|exact Hall].
Qed.

Lemma deep_merge_witness :
  assoc "headers"
    (helpers.deep_merge_dicts
       [("timeout", JInt 30); ("headers", JObj [("Accept", JStr "*/*")])]
       [("headers", JObj [("X-Trace", JStr "1")]); ("retries", JInt 2)])
  = Some (JObj [("Accept", JStr "*/*"); ("X-Trace", JStr "1")]).
Proof.
  rewrite (proj1 (proj2 (deep_merge_lookup
             [("timeout", JInt 30); ("headers", JObj [("Accept", JStr "*/*")])]
             [("headers", JObj [("X-Trace", JStr "1")]); ("retries", JInt 2)]
             ltac:(apply (bool_decide_unpack _); vm_compute; exact I)))).
  reflexivity.
Defined.

(** * Decorators *)

Section DecoratorClaims.
Context `{Libs}.
Context {S A : Type}.
Variable str_of_float : Q -> string.

(** X21: [measure_response_time] lets an exception of the wrapped function
    through untouched, with nothing measured or logged; when the function
    returns, a limit of [None] or of 0 never fails the call, however long it
    took; a non-zero limit fails it with [AssertionError], after an error
    line, exactly when the measured time is greater than the limit, and
    then what the function did to the state stays done. *)
Theorem measure_response_time_limit (max_time : option Q) (attach : Q -> A -> A)
    (t_start t_end : Q) (func : M S A) (s : S) (l : list entry) :
  (forall e s' l',
     func s l = (Raise e, s', l') ->
     decorators.measure_response_time str_of_float max_time attach t_start t_end
       func s l = (Raise e, s', l')) /\
  (forall r s' l',
     func s l = (Ok r, s', l') ->
     let response_time := (t_end - t_start)%Q in
     let timed :=
       l' ++ [LogEntry INFO ("📊 Response time: " +:+ format_3f response_time +:+ "s")] in
     (max_time = None \/ (exists limit, max_time = Some limit /\ limit == 0)%Q ->
      decorators.measure_response_time str_of_float max_time attach t_start t_end
        func s l = (Ok (attach response_time r), s', timed)) /\
     (forall limit,
        max_time = Some limit -> ~ (limit == 0)%Q -> (response_time <= limit)%Q ->
        decorators.measure_response_time str_of_float max_time attach t_start t_end
          func s l = (Ok (attach response_time r), s', timed)) /\
     (forall limit,
        max_time = Some limit -> ~ (limit == 0)%Q -> (limit < response_time)%Q ->
        decorators.measure_response_time str_of_float max_time attach t_start t_end
          func s l
        = (Raise (AssertionError ("Response time " +:+ format_3f response_time +:+
                                  "s exceeded limit " +:+ str_of_float limit +:+ "s")),
           s',
           timed ++ [LogEntry ERROR ("❌ Response time " +:+ format_3f response_time +:+
                                     "s exceeded limit " +:+ str_of_float limit +:+
                                     "s")]))).
Proof.
  unfold decorators.measure_response_time, mbind, M_bind, bind, log.
  split.
  - intros e s' l' ->. reflexivity.
  - intros r s' l' ->. cbv zeta.
    split; [|split].
    + intros [->|[limit [-> Hzero]]]; [reflexivity|].
      apply Qeq_bool_iff in Hzero. rewrite Hzero. reflexivity.
    + intros limit -> Hnz Hle.
      apply Qle_bool_iff in Hle. rewrite Hle, andb_false_r. reflexivity.
    + intros limit -> Hnz Hlt.
      destruct (Qeq_bool limit 0) eqn:Ez.
      { exfalso. apply Hnz. apply Qeq_bool_iff. exact Ez. }
      destruct (Qle_bool (t_end - t_start) limit) eqn:El.
      { exfalso. apply Qle_bool_iff in El. apply (Qlt_not_le _ _ Hlt). exact El. }
      reflexivity.
Qed.

Lemma insert_sorted_length (t : Q) (sorted : list Q) :
  length (decorators.insert_sorted t sorted) = Datatypes.S (length sorted).
Proof.
  induction sorted as [|u rest IH]; simpl; [reflexivity|].
  destruct (Qle_bool t u); simpl; [reflexivity|]. rewrite IH. reflexivity.
Qed.

Lemma sort_length (times : list Q) :
  length (decorators.sort times) = length times.
Proof.
  induction times as [|t rest IH]; simpl; [reflexivity|].
  rewrite insert_sorted_length, IH. reflexivity.
Qed.

End DecoratorClaims.

Section RepeatedRuns.
Context `{Libs}.
Context {S A : Type}.
Variable str_of_float : Q -> string.
Variable int_true_div : Z -> Z -> result Z.
Variable float_mean : list Q -> Q.

Lemma timed_runs_total (func : M S A) (clock : nat -> Q * Q) :
  (forall s l, exists r s' l', func s l = (Ok r, s', l')) ->
  forall (runs i : nat) (times : list Q) (res : option A) (s : S) (l : list entry),
  exists res',
    decorators.timed_runs func clock runs i times res s l
    = (Ok (times ++ durations clock i runs, res'),
       (after_runs func runs s l).1, (after_runs func runs s l).2) /\
    (runs = O -> res' = res) /\
    (forall k, runs = Datatypes.S k ->
       exists r s' l',
         func (after_runs func k s l).1 (after_runs func k s l).2 = (Ok r, s', l') /\
         res' = Some r).
Proof.
  intros Hfunc runs. induction runs as [|k IH]; intros i times res s l.
  - exists res. unfold durations. simpl. rewrite app_nil_r.
    repeat split. intros k [=].
  - cbn [decorators.timed_runs after_runs]. unfold mbind, M_bind, bind.
    destruct (Hfunc s l) as [r [s1 [l1 Hrun]]]. rewrite Hrun. cbn [fst snd].
    destruct (IH (Datatypes.S i) (times ++ [((clock i).2 - (clock i).1)%Q])
                 (Some r) s1 l1) as [res' [Hk [Hz Hnz]]].
    exists res'. split; [|split].
    + rewrite Hk. unfold durations. cbn [seq map]. rewrite <- app_assoc. reflexivity.
    + discriminate.
    + intros k' [= <-]. destruct k as [|k''].
      * exists r, s1, l1. split; [exact Hrun|]. apply Hz. reflexivity.
      * destruct (Hnz k'' eq_refl) as [r' [s' [l' [Hlast Hres]]]].
        exists r', s', l'. split; [|exact Hres].
        cbn [after_runs]. rewrite Hrun. exact Hlast.
Qed.

Lemma durations_length (clock : nat -> Q * Q) (i n : nat) :
  length (durations clock i n) = n.
Proof. unfold durations. rewrite length_map, length_seq. reflexivity. Qed.

(** X22: [performance_test], where [int(a / 100)] is the exact quotient for
    the integers a float holds exactly, and for a wrapped function that
    returns on each run.  With a percentile from 100 up to 2^49 it raises
    [IndexError], whatever the limit and the measured times: the index into
    the ten sorted times is then at least 10.  With a percentile [p] from 0
    to 99 the time checked is the one at index [p / 10] of the ten sorted
    durations; when it is within the limit the outcome is the result of the
    tenth run, and otherwise an [AssertionError]. *)
Theorem performance_test_percentile_index (max_response_time : Q)
    (percentile : Z) (clock : nat -> Q * Q) (func : M S A) (s : S) (l : list entry) :
  (forall a, 0 <= a < 2 ^ 53 -> int_true_div a 100 = Ok (Z.quot a 100)) ->
  (forall s l, exists r s' l', func s l = (Ok r, s', l')) ->
  let outcome :=
    (decorators.performance_test str_of_float int_true_div float_mean
       max_response_time percentile clock func s l).1.1 in
  (100 <= percentile < 2 ^ 49 ->
   outcome = Raise (OtherError "IndexError" "list index out of range")) /\
  (0 <= percentile < 100 ->
   exists r s' l' percentile_time,
     func (after_runs func 9 s l).1 (after_runs func 9 s l).2 = (Ok r, s', l') /\
     nth_error (decorators.sort (durations clock 0 10)) (Z.to_nat (percentile / 10))
     = Some percentile_time /\
     ((percentile_time <= max_response_time)%Q -> outcome = Ok r) /\
     (~ (percentile_time <= max_response_time)%Q ->
      exists msg, outcome = Raise (AssertionError msg))).
Proof.
  intros Hdiv Hfunc outcome. subst outcome.
  destruct (timed_runs_total func clock Hfunc 10 0 [] None s l)
    as [res [Hruns [_ Hres]]].
  destruct (Hres 9%nat eq_refl) as [r [s' [l' [Hlast ->]]]].
  unfold decorators.performance_test, mbind, M_bind, bind, lift.
  rewrite Hruns. cbv beta iota zeta. rewrite app_nil_l.
  rewrite sort_length, durations_length. change (Z.of_nat 10) with 10.
  assert (Hquot : 0 <= percentile -> Z.quot (10 * percentile) 100 = percentile / 10).
  { intros Hp. rewrite Z.quot_div_nonneg by lia.
    change 100 with (10 * 10). apply Z.div_mul_cancel_l; lia. }
  split.
  - intros [Hlo Hhi].
    rewrite Hdiv by lia. cbv beta iota.
    unfold decorators.py_index. rewrite sort_length, durations_length.
    change (Z.of_nat 10) with 10. rewrite Hquot by lia.
    assert (Hq : 10 <= percentile / 10) by (apply Z.div_le_lower_bound; lia).
    destruct (Z.ltb_spec (percentile / 10) 0); [lia|].
    destruct (Z.leb_spec 0 (percentile / 10)); [|lia].
    destruct (Z.ltb_spec (percentile / 10) 10); [lia|].
    reflexivity.
  - intros [Hlo Hhi].
    rewrite Hdiv by lia. cbv beta iota.
    unfold decorators.py_index. rewrite sort_length, durations_length.
    change (Z.of_nat 10) with 10. rewrite Hquot by lia.
    assert (Hq : 0 <= percentile / 10 < 10).
    { split; [apply Z.div_pos; lia|apply Z.div_lt_upper_bound; lia]. }
    destruct (Z.ltb_spec (percentile / 10) 0); [lia|].
    destruct (Z.leb_spec 0 (percentile / 10)); [|lia].
    destruct (Z.ltb_spec (percentile / 10) 10); [|lia].
    simpl andb. cbv iota.
    destruct (nth_error (decorators.sort (durations clock 0 10))
                (Z.to_nat (percentile / 10))) as [t|] eqn:Enth.
    + exists r, s', l', t. split; [exact Hlast|]. split; [reflexivity|].
      unfold log. cbv beta iota zeta.
      destruct (Qle_bool t max_response_time) eqn:El; simpl.
      * split; [reflexivity|]. intros Hnot. exfalso. apply Hnot.
        apply Qle_bool_iff. exact El.
      * split; [|intros _; eexists; reflexivity].
        intros Hle. apply Qle_bool_iff in Hle. congruence.
    + exfalso. apply nth_error_None in Enth.
      rewrite sort_length, durations_length in Enth. lia.
Qed.

End RepeatedRuns.

Section LoggingDecorator.
Context `{Libs}.
Context {S A : Type}.

(** X23: [log_test_execution] never changes what the wrapped function
    returns or raises, nor what it did to the state: it only logs.  It
    writes the start line before the function runs; after it, one info line
    when the function returned, one error line with the exception's text
    when it raised an exception that derives from [Exception], and nothing
    when it raised any other (a [KeyboardInterrupt], or the exception of
    [pytest.skip]). *)
Theorem log_test_execution_transparent (test_name : string)
    (base_only : string -> bool) (t_start t_end : Q)
    (func : M S A) (s : S) (l : list entry) :
  let started := l ++ [LogEntry INFO ("🚀 Starting test: " +:+ test_name)] in
  (decorators.log_test_execution test_name base_only t_start t_end func s l).1
  = (func s started).1 /\
  (decorators.log_test_execution test_name base_only t_start t_end func s l).2
  = (func s started).2 ++
    match (func s started).1.1 with
    | Ok _ =>
        [LogEntry INFO ("✅ Test passed: " +:+ test_name +:+ " (" +:+
                        format_3f (t_end - t_start)%Q +:+ "s)")]
    | Raise e =>
        if isinstance_Exception base_only e
        then [LogEntry ERROR ("❌ Test failed: " +:+ test_name +:+ " (" +:+
                              format_3f (t_end - t_start)%Q +:+ "s) - " +:+
                              str_of_exn e)]
        else []
    end.
Proof.
  cbv zeta.
  unfold decorators.log_test_execution, try_except, mbind, M_bind, bind, log.
  destruct (func s (l ++ [LogEntry INFO ("🚀 Starting test: " +:+ test_name)]))
    as [[[r|e] s'] l']; cbn [fst snd].
  - split; reflexivity.
  - destruct (isinstance_Exception base_only e); cbn [fst snd];
      split; try reflexivity.
    rewrite app_nil_r. reflexivity.
Qed.

End LoggingDecorator.

Lemma measure_response_time_witness :
  decorators.measure_response_time (H := simple_libs) (fun _ => "0.0") (Some 0%Q)
    (fun _ r => r) 0%Q (30 # 1) quick_test tt []
  = (Ok tt, tt, [LogEntry INFO "📊 Response time: 0.000s"]).
Proof.
  apply (proj1 (proj2 (measure_response_time_limit (H := simple_libs)
                         (fun _ => "0.0") (Some 0%Q) (fun _ r => r) 0%Q (30 # 1)
                         quick_test tt []) tt tt [] eq_refl)).
  right. exists 0%Q. split; reflexivity.
Defined.

Lemma performance_test_witness :
  (decorators.performance_test (H := simple_libs) (fun _ => "5.0") exact_int_true_div
     exact_mean (5 # 1) 100 one_second_clock quick_test tt []).1.1
  = Raise (OtherError "IndexError" "list index out of range").
Proof.
  apply (proj1 (performance_test_percentile_index (H := simple_libs)
                  (fun _ => "5.0") exact_int_true_div exact_mean (5 # 1) 100
                  one_second_clock
                  quick_test tt []
                  (fun a _ => eq_refl)
                  (fun s l => ex_intro _ tt (ex_intro _ s (ex_intro _ l eq_refl))))).
  lia.
Defined.

(** * Header and response-time checks *)

Section HeaderChecks.

Lemma header_get_lower (response : Response) (name name' : string) :
  lower name = lower name' -> header_get response name = header_get response name'.
Proof. intros E. unfold header_get. rewrite E. reflexivity. Qed.

Lemma header_exists_run (response : Response) (name : string)
    (message : option string) (l : list entry) :
  (assert_header_exists response name message tt l).1.1 = Ok tt
  <-> header_in response name = true.
Proof.
  unfold assert_header_exists, mbind, M_bind, bind, log. rewrite run_assert.
  destruct (header_in response name); simpl; split; congruence.
Qed.

Lemma header_value_run (response : Response) (name expected : string)
    (message : option string) (l : list entry) :
  (assert_header_value response name expected message tt l).1.1 = Ok tt
  <-> header_get response name = Some expected.
Proof.
  unfold assert_header_value, mbind, M_bind, bind, log. rewrite run_assert.
  destruct (header_get response name) as [v|]; simpl.
  - destruct (String.eqb_spec v expected) as [->|Hne]; simpl; split; congruence.
  - split; congruence.
Qed.

(** X24: the header checks do not depend on the case of the header name:
    for two names that differ in case only, [assert_header_exists] passes on
    one exactly when it passes on the other, and so does
    [assert_header_value]; a header that the response holds under a name
    differing in case only from the one asked for is found; and whenever
    [assert_header_value] passes, [assert_header_exists] passes too. *)
Theorem header_checks_ignore_name_case (response : Response)
    (name name' expected : string) (message : option string) (l : list entry) :
  lower name = lower name' ->
  ((assert_header_exists response name message tt l).1.1 = Ok tt
   <-> (assert_header_exists response name' message tt l).1.1 = Ok tt) /\
  ((assert_header_value response name expected message tt l).1.1 = Ok tt
   <-> (assert_header_value response name' expected message tt l).1.1 = Ok tt) /\
  (forall v, resp_headers response !! name' = Some v ->
     (assert_header_exists response name message tt l).1.1 = Ok tt) /\
  ((assert_header_value response name expected message tt l).1.1 = Ok tt ->
   (assert_header_exists response name message tt l).1.1 = Ok tt).
Proof.
  intros Hcase. split; [|split; [|split]].
  - rewrite !header_exists_run. unfold header_in.
    rewrite (header_get_lower response name name' Hcase). reflexivity.
  - rewrite !header_value_run.
    rewrite (header_get_lower response name name' Hcase). reflexivity.
  - intros v Hv. apply header_exists_run. unfold header_in, header_get.
    destruct (List.find _ _) as [kv|] eqn:Hfind; [reflexivity|].
    exfalso.
    pose proof (find_none _ _ Hfind (name', v)) as Hnone.
    simpl in Hnone. rewrite Hcase, String.eqb_refl in Hnone.
    assert (Hin : In (name', v) (map_to_list (resp_headers response))).
    { apply list_elem_of_In. apply elem_of_map_to_list. exact Hv. }
    specialize (Hnone Hin). discriminate.
  - rewrite header_exists_run, header_value_run. unfold header_in.
    intros ->. reflexivity.
Qed.

End HeaderChecks.

Lemma header_checks_witness :
  (assert_header_exists json_utf8_response "content-type" None tt []).1.1
  = Ok tt.
Proof.
  apply (proj1 (proj2 (proj2 (header_checks_ignore_name_case
                                json_utf8_response "content-type" "Content-Type"
                                "" None [] eq_refl)))
           "application/json; charset=utf-8").
  reflexivity.
Defined.

Section ResponseTimeCheck.
Context `{Libs}.
Context {S A : Type}.
Variable str_of_float : Q -> string.

Lemma response_time_run (response_time max_time : Q) (message : option string)
    (l : list entry) :
  assert_response_time str_of_float response_time max_time message tt l
  = if Qle_bool response_time max_time
    then (Ok tt, tt,
          l ++ [LogEntry INFO ("🔍 Asserting response time: " +:+
                               format_3f response_time +:+ "s <= " +:+
                               str_of_float max_time +:+ "s");
                LogEntry INFO ("✅ Response time assertion passed: " +:+
                               format_3f response_time +:+ "s")])
    else (Raise (AssertionError
                   (message_or message
                      ("Response time " +:+ format_3f response_time +:+
                       "s exceeded limit " +:+ str_of_float max_time +:+ "s"))), tt,
          l ++ [LogEntry INFO ("🔍 Asserting response time: " +:+
                               format_3f response_time +:+ "s <= " +:+
                               str_of_float max_time +:+ "s")]).
Proof.
  unfold assert_response_time, mbind, M_bind, bind, log. rewrite run_assert.
  destruct (Qle_bool response_time max_time); [|reflexivity].
  rewrite <- app_assoc. reflexivity.
Qed.

(** X25: [assert_response_time] passes exactly when the time is at most the
    limit.  For a wrapped function that returns and a limit other than 0,
    the decorator [measure_response_time] raises an [AssertionError] exactly
    when the check on the measured time does, with the same message; at the
    limit 0 they part: the check fails every positive time, while the
    decorator takes 0 for no limit and returns the function's result. *)
Theorem response_time_check_and_decorator (attach : Q -> A -> A)
    (t_start t_end limit : Q) (func : M S A) (s s' : S) (l l' l0 : list entry)
    (r : A) :
  func s l = (Ok r, s', l') ->
  let response_time := (t_end - t_start)%Q in
  ((assert_response_time str_of_float response_time limit None tt l0).1.1 = Ok tt
   <-> (response_time <= limit)%Q) /\
  (~ (limit == 0)%Q ->
   forall msg,
     (decorators.measure_response_time str_of_float (Some limit) attach t_start t_end
        func s l).1.1 = Raise (AssertionError msg)
     <-> (assert_response_time str_of_float response_time limit None tt l0).1.1
         = Raise (AssertionError msg)) /\
  ((limit == 0)%Q -> (0 < response_time)%Q ->
   (decorators.measure_response_time str_of_float (Some limit) attach t_start t_end
      func s l).1.1 = Ok (attach response_time r) /\
   exists msg,
     (assert_response_time str_of_float response_time limit None tt l0).1.1
     = Raise (AssertionError msg)).
Proof.
  intros Hfunc. cbv zeta. rewrite response_time_run.
  unfold decorators.measure_response_time, mbind, M_bind, bind, log.
  rewrite Hfunc. cbv beta iota zeta.
  split; [|split].
  - destruct (Qle_bool (t_end - t_start) limit) eqn:El; simpl.
    + apply Qle_bool_iff in El. split; [intros _; exact El|reflexivity].
    + split; [discriminate|]. intros Hle. apply Qle_bool_iff in Hle. congruence.
  - intros Hnz msg.
    destruct (Qeq_bool limit 0) eqn:Ez.
    { exfalso. apply Hnz. apply Qeq_bool_iff. exact Ez. }
    destruct (Qle_bool (t_end - t_start) limit); simpl; [split; discriminate|].
    split; intros [= <-]; reflexivity.
  - intros Hz Hpos.
    apply Qeq_bool_iff in Hz. rewrite Hz. simpl. split; [reflexivity|].
    destruct (Qle_bool (t_end - t_start) limit) eqn:El; simpl.
    + exfalso. apply Qle_bool_iff in El. apply Qeq_bool_iff in Hz.
      rewrite Hz in El. apply (Qlt_not_le _ _ Hpos). exact El.
    + eexists. reflexivity.
Qed.

End ResponseTimeCheck.

Lemma response_time_check_witness :
  (decorators.measure_response_time (H := simple_libs) (fun _ => "0.0") (Some 0%Q)
     (fun _ r => r) 0%Q (30 # 1) quick_test tt []).1.1 = Ok tt /\
  exists msg,
    (assert_response_time (H := simple_libs) (fun _ => "0.0") ((30 # 1) - 0)%Q 0%Q None
       tt []).1.1 = Raise (AssertionError msg).
Proof.
  apply (proj2 (proj2 (response_time_check_and_decorator (H := simple_libs)
                         (fun _ => "0.0") (fun _ r => r) 0%Q (30 # 1) 0%Q
                         quick_test tt tt [] [] [] tt eq_refl)));
    reflexivity.
Defined.

(** * Helpers on decoded bodies *)

Section CompareResponses.

Lemma without_no_keys (kv : list (string * json)) : without_keys [] kv = kv.
Proof.
  unfold without_keys. induction kv as [|item kv IH]; [reflexivity|].
  cbn [List.filter existsb negb]. f_equal. exact IH.
Qed.

Lemma without_keys_pop (key : string) (keys : list string)
    (kv : list (string * json)) :
  without_keys keys (List.filter (fun item => negb (String.eqb key item.1)) kv)
  = without_keys (key :: keys) kv.
Proof.
  unfold without_keys. induction kv as [|[k v] kv IH]; simpl; [reflexivity|].
  rewrite (String.eqb_sym k key).
  destruct (String.eqb key k); simpl; rewrite IH; reflexivity.
Qed.

Lemma pop_ignored_dicts (keys : list string) (kv1 kv2 : list (string * json)) :
  helpers.pop_ignored keys (JObj kv1) (JObj kv2)
  = Ok (JObj (without_keys keys kv1), JObj (without_keys keys kv2)).
Proof.
  revert kv1 kv2. induction keys as [|key keys IH]; intros kv1 kv2; simpl.
  - rewrite !without_no_keys. reflexivity.
  - rewrite IH, !without_keys_pop. reflexivity.
Qed.

Lemma pop_ignored_raises (keys : list string) (data1 data2 : json) (e : exn) :
  helpers.pop_ignored keys data1 data2 = Raise e ->
  keys <> [] /\
  (e = OtherError "TypeError" "pop expected at most 1 argument, got 2" \/
   exists msg, e = AttributeError msg).
Proof.
  revert data1 data2. induction keys as [|key keys IH]; intros data1 data2; simpl.
  - discriminate.
  - intros Hrun. split; [discriminate|].
    destruct data1; simpl in Hrun;
      try (injection Hrun as <-; right; eexists; reflexivity);
      try (injection Hrun as <-; left; reflexivity).
    destruct data2; simpl in Hrun;
      try (injection Hrun as <-; right; eexists; reflexivity);
      try (injection Hrun as <-; left; reflexivity).
    apply IH in Hrun. apply Hrun.
Qed.

(** X26: [compare_json_responses] answers [False] when either body is not
    JSON; without keys to ignore it is the equality of the two decoded
    bodies; for two dictionaries it is the equality of what is left of them
    without the ignored keys.  With at least one key to ignore, a first body
    that is neither a dictionary nor a list gives [False] even when the two
    bodies are equal, and a first body that is a list raises [TypeError];
    no other exception ever leaves the function. *)
Theorem compare_json_responses_cases (response1 response2 : Response)
    (ignore_keys : option (list string)) :
  let keys := default [] ignore_keys in
  (json_body response1 = None \/ json_body response2 = None ->
   helpers.compare_json_responses response1 response2 ignore_keys = Ok false) /\
  (forall data1 data2,
     json_body response1 = Some data1 -> json_body response2 = Some data2 ->
     (keys = [] ->
      helpers.compare_json_responses response1 response2 ignore_keys
      = Ok (py_eq data1 data2)) /\
     (forall kv1 kv2, data1 = JObj kv1 -> data2 = JObj kv2 ->
        helpers.compare_json_responses response1 response2 ignore_keys
        = Ok (py_eq (JObj (without_keys keys kv1)) (JObj (without_keys keys kv2)))) /\
     (keys <> [] -> (forall kv, data1 <> JObj kv) -> (forall l, data1 <> JList l) ->
      helpers.compare_json_responses response1 response2 ignore_keys = Ok false) /\
     (keys <> [] -> (exists l, data1 = JList l) ->
      helpers.compare_json_responses response1 response2 ignore_keys
      = Raise (OtherError "TypeError" "pop expected at most 1 argument, got 2"))) /\
  (forall e,
     helpers.compare_json_responses response1 response2 ignore_keys = Raise e ->
     keys <> [] /\ e = OtherError "TypeError" "pop expected at most 1 argument, got 2").
Proof.
  cbv zeta. unfold helpers.compare_json_responses, Response_json.
  split; [|split].
  - intros [-> | Hnone]; [reflexivity|].
    destruct (json_body response1); [|reflexivity]. rewrite Hnone. reflexivity.
  - intros data1 data2 -> ->. split; [|split; [|split]].
    + intros ->. reflexivity.
    + intros kv1 kv2 -> ->. rewrite pop_ignored_dicts. reflexivity.
    + intros Hkeys Hobj Hlist.
      destruct (default [] ignore_keys) as [|key keys]; [contradiction|].
      destruct data1; simpl; try reflexivity.
      * exfalso. apply (Hlist l). reflexivity.
      * exfalso. apply (Hobj kv). reflexivity.
    + intros Hkeys [l ->].
      destruct (default [] ignore_keys) as [|key keys]; [contradiction|].
      reflexivity.
  - intros e.
    destruct (json_body response1) as [data1|]; [|discriminate].
    destruct (json_body response2) as [data2|]; [|discriminate].
    destruct (helpers.pop_ignored (default [] ignore_keys) data1 data2)
      as [[d1 d2]|e'] eqn:Hpop; [discriminate|].
    apply pop_ignored_raises in Hpop as [Hkeys [-> | [msg ->]]].
    + intros [= <-]. split; [exact Hkeys|reflexivity].
    + discriminate.
Qed.

End CompareResponses.

Section Sanitize.

Lemma json_nested_ind (P : json -> Prop) :
  P JNull -> (forall b, P (JBool b)) -> (forall n, P (JInt n)) ->
  (forall s, P (JStr s)) ->
  (forall l, Forall P l -> P (JList l)) ->
  (forall kv, Forall (fun item => P item.2) kv -> P (JObj kv)) ->
  forall j, P j.
Proof.
  intros HN HB HI HS HL HO. fix IH 1. intros [| b | n | s | l | kv].
  - exact HN.
  - exact (HB b).
  - exact (HI n).
  - exact (HS s).
  - apply HL. induction l as [|x l IHl]; constructor; [exact (IH x)|exact IHl].
  - apply HO. induction kv as [|[k v] kv IHkv]; constructor; [exact (IH v)|exact IHkv].
Qed.

Lemma sanitize_obj (remove_none : bool) (items : list (string * json)) :
  helpers.sanitize_test_data (JObj items) remove_none
  = JObj (sanitize_loop remove_none items []).
Proof.
  simpl. f_equal. generalize (@nil (string * json)).
  induction items as [|[key value] rest IH]; intros sanitized; [reflexivity|].
  simpl. destruct (remove_none && _); rewrite IH; reflexivity.
Qed.

Lemma no_none_values_obj (items : list (string * json)) :
  no_none_values (JObj items) = forallb (fun item => value_clean item.2) items.
Proof.
  simpl. induction items as [|[k v] items IH]; [reflexivity|].
  simpl. rewrite IH. destruct v; reflexivity.
Qed.

Lemma clean_dict_set (key : string) (value : json) (kv : list (string * json)) :
  value_clean value = true ->
  forallb (fun item => value_clean item.2) kv = true ->
  forallb (fun item => value_clean item.2) (helpers.dict_set key value kv) = true.
Proof.
  intros Hv. induction kv as [|[k v] kv IH]; simpl.
  - intros _. rewrite Hv. reflexivity.
  - intros Hkv. apply andb_prop in Hkv as [Hhead Hrest].
    destruct (String.eqb key k); simpl.
    + rewrite Hv, Hrest. reflexivity.
    + rewrite Hhead, (IH Hrest). reflexivity.
Qed.

Lemma sanitize_loop_keeps (remove_none : bool) (k : string)
    (items sanitized : list (string * json)) :
  (exists v, assoc k sanitized = Some v) \/
  (exists v, assoc k items = Some v /\ (remove_none = false \/ v <> JNull)) ->
  exists v', assoc k (sanitize_loop remove_none items sanitized) = Some v'.
Proof.
  revert sanitized. induction items as [|[key value] rest IH]; intros sanitized.
  - intros [Hacc | [v [Hv _]]]; [exact Hacc|discriminate].
  - intros Hk. simpl.
    assert (Hset : forall x, (exists v, assoc k sanitized = Some v) \/ k = key ->
              exists v, assoc k (helpers.dict_set key x sanitized) = Some v).
    { intros x [[v Hv] | ->].
      - destruct (String.eqb_spec k key) as [->|Hne].
        + rewrite assoc_dict_set_eq. eexists. reflexivity.
        + rewrite assoc_dict_set_ne by exact Hne. exists v. exact Hv.
      - rewrite assoc_dict_set_eq. eexists. reflexivity. }
    destruct (remove_none && match value with JNull => true | _ => false end) eqn:Eskip.
    + apply IH. destruct Hk as [Hacc | [v [Hv Hkeep]]]; [left; exact Hacc|].
      simpl in Hv. destruct (String.eqb_spec k key) as [->|Hne].
      * exfalso. injection Hv as <-.
        apply andb_prop in Eskip as [-> Hnull].
        destruct Hkeep as [Hrn | Hnn]; [discriminate|].
        destruct value; try discriminate. apply Hnn. reflexivity.
      * right. exists v. split; assumption.
    + apply IH. destruct Hk as [Hacc | [v [Hv Hkeep]]].
      * left. apply Hset. left. exact Hacc.
      * simpl in Hv. destruct (String.eqb_spec k key) as [->|Hne].
        -- left. apply Hset. right. reflexivity.
        -- right. exists v. split; assumption.
Qed.

Lemma sanitize_loop_adds_no_key (remove_none : bool) (k : string)
    (items sanitized : list (string * json)) :
  assoc k sanitized = None -> assoc k items = None ->
  assoc k (sanitize_loop remove_none items sanitized) = None.
Proof.
  revert sanitized. induction items as [|[key value] rest IH]; intros sanitized Hacc Hk.
  - exact Hacc.
  - simpl in *. destruct (String.eqb_spec k key) as [->|Hne]; [discriminate|].
    destruct (remove_none && _); apply IH; try assumption.
    rewrite assoc_dict_set_ne by exact Hne. exact Hacc.
Qed.

Lemma sanitize_loop_clean (items sanitized : list (string * json)) :
  Forall (fun item => value_clean (sanitized_value true item.2) = true
                      \/ item.2 = JNull) items ->
  forallb (fun item => value_clean item.2) sanitized = true ->
  forallb (fun item => value_clean item.2) (sanitize_loop true items sanitized) = true.
Proof.
  revert sanitized. induction items as [|[key value] rest IH]; intros sanitized Hitems Hacc.
  - exact Hacc.
  - inversion Hitems as [|item items' Hhead Hrest]; subst. simpl in Hhead.
    simpl. destruct value; simpl;
      try (apply IH; [exact Hrest|]; apply clean_dict_set; [|exact Hacc]);
      try (apply IH; [exact Hrest|exact Hacc]);
      destruct Hhead as [Hclean | Hnull]; try discriminate; try exact Hclean;
      reflexivity.
Qed.

(** X27: after [sanitize_test_data] with [remove_none], no dictionary that
    is reached through dictionary values, or is a direct item of a list
    value, holds [None] under a key.  A key is kept whenever [remove_none]
    is off or its value is not [None], no key is added, and a value that is
    not a dictionary is returned as it is. *)
Theorem sanitize_removes_none_values (data : json) (remove_none : bool) :
  no_none_values (helpers.sanitize_test_data data true) = true /\
  (forall items, data = JObj items ->
     exists items',
       helpers.sanitize_test_data data remove_none = JObj items' /\
       (forall k v, assoc k items = Some v -> remove_none = false \/ v <> JNull ->
          exists v', assoc k items' = Some v') /\
       (forall k, assoc k items = None -> assoc k items' = None)) /\
  ((forall items, data <> JObj items) ->
   helpers.sanitize_test_data data remove_none = data).
Proof.
  split; [|split].
  - assert (Hall : forall j,
              no_none_values (helpers.sanitize_test_data j true) = true /\
              (forall l, j = JList l ->
                 Forall (fun item =>
                           no_none_values (helpers.sanitize_test_data item true) = true)
                        l)).
    { induction j as [| b | n | s | l IHl | kv IHkv] using json_nested_ind;
        try (split; [reflexivity|discriminate]).
      - split; [reflexivity|]. intros l' [= <-].
        eapply Forall_impl; [exact IHl|]. intros item [Hitem _]. exact Hitem.
      - split; [|discriminate].
        rewrite sanitize_obj, no_none_values_obj.
        apply sanitize_loop_clean; [|reflexivity].
        eapply Forall_impl; [exact IHkv|]. intros [k v] [Hv Hl].
        cbn [snd] in Hv, Hl |- *.
        destruct v as [| b | n | s | l | kv'].
        + right. reflexivity.
        + left. reflexivity.
        + left. reflexivity.
        + left. reflexivity.
        + left. specialize (Hl l eq_refl). clear Hv.
          unfold sanitized_value, value_clean.
          induction Hl as [|item l Hitem Hl IHl]; [reflexivity|].
          cbn [map forallb]. rewrite IHl, andb_true_r.
          destruct item; try reflexivity.
          rewrite sanitize_obj in *. exact Hitem.
        + left. unfold sanitized_value. rewrite sanitize_obj in *. exact Hv. }
    apply Hall.
  - intros items ->. rewrite sanitize_obj. eexists. split; [reflexivity|]. split.
    + intros k v Hv Hkeep. apply sanitize_loop_keeps. right. exists v. split; assumption.
    + intros k Hk. apply sanitize_loop_adds_no_key; [reflexivity|exact Hk].
  - intros Hnot. destruct data; try reflexivity. exfalso. apply (Hnot kv). reflexivity.
Qed.

End Sanitize.
